(** * MiniCrm backend: role-scoped access control, sessions and audit trail

    A shallow embedding of the Express/SQLite backend
    (middleware/rbac.js, middleware/auth.js, routes/customers.js,
    routes/leads.js, controllers/authController.js,
    controllers/customerController.js, controllers/leadController.js,
    utils/logger.js, models/database.js, config) and of the client's
    utils/permissions.ts, together with the properties of its
    specification.

    Conventions of the embedding:
    - a JavaScript value is a [jsval]; an object literal or a row returned
      by the store is an association list in property order ([obj]);
    - numbers are integers ([Z]); fractional numbers and NaN are outside
      the model;
    - an ISO-8601 timestamp produced by [toISOString] is represented by its
      epoch milliseconds (the textual order of such timestamps is their
      temporal order);
    - a table is the list of its rows; a SELECT, a DELETE and the UPDATE
      and INSERT statements of the session code never raise; the INSERT
      of a user, a customer, a lead or an activity and the UPDATE of a
      customer or a lead raise on a constraint of the schema;
      [logActivity] catches what its INSERT raises;
    - a statement parameter is bound as node-sqlite3 binds it ([bound]);
      a column and a parameter are equal as values of one storage class
      ([sql_eq]): the conversion of a number to text that a TEXT column
      asks for is outside the model;
    - a property that an object of the code does not own is read from
      [Object.prototype] ([Builtins]);
    - bcryptjs, jsonwebtoken, express-validator and the JSON built-ins are
      parameters of the development;
    - the clock ([Date.now]) is read once per request. *)

From Stdlib Require Import ZArith Lia.
From stdpp Require Import base strings list gmap pretty.

Set Warnings "-register-all".

Local Open Scope Z_scope.
Local Open Scope string_scope.

(** ** JavaScript values *)

Module JS.

Inductive jsval : Type :=
  | JUndefined
  | JNull
  | JBool (b : bool)
  | JNum (n : Z)
  | JStr (s : string)
  | JArr (items : list jsval)
  | JObj (fields : list (string * jsval)).

Definition obj : Type := list (string * jsval).

(** ToBoolean: [undefined], [null], [false], [0] and the empty string are falsy. *)
Definition truthy (v : jsval) : bool :=
  match v with
  | JUndefined | JNull => false
  | JBool b => b
  | JNum n => negb (n =? 0)%Z
  | JStr s => negb (String.eqb s EmptyString)
  | JArr _ | JObj _ => true
  end.

(** [a === b] on primitives.  Arrays and objects compare by identity in
    JavaScript; every comparison of the backend has a value read from a row
    of the store on one side, which is never an array or an object, so such
    an operand always compares unequal. *)
Definition strict_eq (a b : jsval) : bool :=
  match a, b with
  | JUndefined, JUndefined => true
  | JNull, JNull => true
  | JBool x, JBool y => Bool.eqb x y
  | JNum x, JNum y => (x =? y)%Z
  | JStr x, JStr y => String.eqb x y
  | _, _ => false
  end.

(** [a || b] *)
Definition or_else (a b : jsval) : jsval := if truthy a then a else b.

(** [o[k]]: the value of the first property named [k], else [undefined]. *)
Fixpoint get (o : obj) (k : string) : jsval :=
  match o with
  | [] => JUndefined
  | (k', v) :: rest => if String.eqb k' k then v else get rest k
  end.

(** [o[k] = v]: overwrite in place, or append a new property. *)
Fixpoint set (o : obj) (k : string) (v : jsval) : obj :=
  match o with
  | [] => [(k, v)]
  | (k', v') :: rest =>
      if String.eqb k' k then (k', v) :: rest else (k', v') :: set rest k v
  end.

(** [Object.keys(o)] *)
Definition keys (o : obj) : list string := map fst o.

(** [String(v)], as used by template literals. *)
Fixpoint to_string (v : jsval) : string :=
  match v with
  | JUndefined => "undefined"
  | JNull => "null"
  | JBool true => "true"
  | JBool false => "false"
  | JNum n => pretty n
  | JStr s => s
  | JArr items =>
      String.concat ","
        (map (fun x => match x with
                       | JUndefined | JNull => EmptyString
                       | _ => to_string x
                       end) items)
  | JObj _ => "[object Object]"
  end.

(** [a > b] on numbers; the backend only compares the integer column
    [lockUntil] with the clock. *)
Definition greater (a b : jsval) : bool :=
  match a, b with
  | JNum x, JNum y => (y <? x)%Z
  | _, _ => false
  end.

(** [a + b].  Numbers add ([null] and booleans count as numbers), anything
    else concatenates as text; a sum that is NaN in JavaScript ([undefined]
    with a number) is rendered [JUndefined]. *)
Definition to_number (v : jsval) : option Z :=
  match v with
  | JNum n => Some n
  | JNull => Some 0%Z
  | JBool b => Some (if b then 1 else 0)%Z
  | _ => None
  end.

Definition add (a b : jsval) : jsval :=
  match to_number a, to_number b with
  | Some x, Some y => JNum (x + y)
  | _, _ =>
      match a, b with
      | JUndefined, (JUndefined | JNull | JBool _ | JNum _)
      | (JNull | JBool _ | JNum _), JUndefined => JUndefined
      | _, _ => JStr (to_string a +:+ to_string b)
      end
  end.

(** [a >= b] on numbers. *)
Definition at_least (a b : jsval) : bool :=
  match a, b with
  | JNum x, JNum y => (y <=? x)%Z
  | _, _ => false
  end.

(** [a.push(x)] *)
Definition push {A} (a : list A) (x : A) : list A := (a ++ [x])%list.

(** [s.includes(t)] on strings: [t] occurs in [s]. *)
Fixpoint contains (t s : string) : bool :=
  String.prefix t s ||
  match s with
  | EmptyString => false
  | String _ rest => contains t rest
  end.

(** How a call ends: it returns a value or it raises. *)
Inductive completion (A : Type) : Type :=
  | Returned (a : A)
  | Raised.
Arguments Returned {A} a.
Arguments Raised {A}.

End JS.
Export JS.

(** ** models/database.js: the relational store *)

Module Database.

(** The six tables of [createTables] and the [foreign_keys] pragma of the
    connection.  A row holds one property per column ([NULL] is [JNull]). *)
Record Db : Type := mkDb {
  foreign_keys : bool;
  users : list obj;
  teams : list obj;
  customers : list obj;
  leads : list obj;
  activities : list obj;
  refresh_tokens : list obj;
}.

Definition empty : Db := mkDb false [] [] [] [] [] [].

(** [initialize]: [PRAGMA foreign_keys = ON], then the tables are created
    if they do not exist. *)
Definition initialize (db : Db) : Db :=
  mkDb true (users db) (teams db) (customers db) (leads db) (activities db)
       (refresh_tokens db).

(** SQL [a = b]: never true on [NULL]. *)
Definition sql_eq (a b : jsval) : bool :=
  match a, b with
  | JStr x, JStr y => String.eqb x y
  | JNum x, JNum y => (x =? y)%Z
  | _, _ => false
  end.

(** SQL [a < b] and [a > b] on timestamps. *)
Definition sql_lt (a b : jsval) : bool :=
  match a, b with
  | JNum x, JNum y => (x <? y)%Z
  | _, _ => false
  end.

Definition sql_gt (a b : jsval) : bool := sql_lt b a.

(** [db.get]: the first row that satisfies the WHERE clause. *)
Definition select_first (p : obj -> bool) (rows : list obj) : option obj :=
  List.find p rows.

(** [UPDATE ... SET ... WHERE p] *)
Definition update_where (p : obj -> bool) (f : obj -> obj) (rows : list obj)
  : list obj :=
  map (fun r => if p r then f r else r) rows.

(** [DELETE FROM ... WHERE p] *)
Definition delete_where (p : obj -> bool) (rows : list obj) : list obj :=
  List.filter (fun r => negb (p r)) rows.

(** [SELECT col AS name, ...]: the listed columns of a row. *)
Definition project (cols : list (string * string)) (row : obj) : obj :=
  map (fun c => (fst c, get row (snd c))) cols.

(** [SET col = v, ...] *)
Definition assign (sets : list (string * jsval)) (row : obj) : obj :=
  fold_left (fun r kv => set r (fst kv) (snd kv)) sets row.

(** [DELETE FROM customers WHERE id = ?].  [leads.customerId] is declared
    [REFERENCES customers(id) ON DELETE CASCADE] and no other table refers
    to [customers]: with foreign keys enabled the leads of every deleted
    customer go with it. *)
Definition delete_customer_by_id (id : jsval) (db : Db) : Db :=
  let gone := List.filter (fun c => sql_eq (get c "id") id) (customers db) in
  let orphan l := existsb (fun c => sql_eq (get l "customerId") (get c "id")) gone in
  mkDb (foreign_keys db) (users db) (teams db)
       (delete_where (fun c => sql_eq (get c "id") id) (customers db))
       (if foreign_keys db then delete_where orphan (leads db) else leads db)
       (activities db) (refresh_tokens db).

Definition with_users (f : list obj -> list obj) (db : Db) : Db :=
  mkDb (foreign_keys db) (f (users db)) (teams db) (customers db) (leads db)
       (activities db) (refresh_tokens db).

Definition with_customers (f : list obj -> list obj) (db : Db) : Db :=
  mkDb (foreign_keys db) (users db) (teams db) (f (customers db)) (leads db)
       (activities db) (refresh_tokens db).

Definition with_activities (f : list obj -> list obj) (db : Db) : Db :=
  mkDb (foreign_keys db) (users db) (teams db) (customers db) (leads db)
       (f (activities db)) (refresh_tokens db).

Definition with_refresh_tokens (f : list obj -> list obj) (db : Db) : Db :=
  mkDb (foreign_keys db) (users db) (teams db) (customers db) (leads db)
       (activities db) (f (refresh_tokens db)).

(** [WHERE id = ?] *)
Definition by_id (id : jsval) (r : obj) : bool := sql_eq (get r "id") id.

(** [WHERE email = ?] *)
Definition by_email (email : jsval) (r : obj) : bool := sql_eq (get r "email") email.

(** PRIMARY KEY: no two rows of a table carry the same [id]. *)
Definition pk_unique (rows : list obj) : Prop :=
  NoDup (map (fun r => get r "id") rows).

(** *** INSERT and the constraints of the schema

    An INSERT raises when the new row breaks a constraint declared by
    [createTables]: the primary key, a NOT NULL column, a CHECK list, or,
    with foreign keys enabled, a REFERENCES clause.  A parameter that is
    [undefined] is bound as NULL. *)

(** PRIMARY KEY: no row carries the id yet. *)
Definition fresh_id (rows : list obj) (id : jsval) : bool :=
  negb (existsb (by_id id) rows).

(** NOT NULL *)
Definition not_null (v : jsval) : bool :=
  match v with
  | JNull | JUndefined => false
  | _ => true
  end.

(** [CHECK (col IN (...))]: NULL passes a CHECK. *)
Definition one_of (allowed : list string) (v : jsval) : bool :=
  match v with
  | JNull | JUndefined => true
  | JStr s => existsb (String.eqb s) allowed
  | _ => false
  end.

(** [REFERENCES parent(id)]: NULL refers to nothing; otherwise a parent
    row must carry the id.  Without the pragma nothing is enforced. *)
Definition refers (enforced : bool) (parent : list obj) (v : jsval) : bool :=
  negb enforced ||
  match v with
  | JNull | JUndefined => true
  | _ => existsb (by_id v) parent
  end.

(** UNIQUE: no row carries the value in the column yet (NULLs are
    distinct). *)
Definition unique_in (col : string) (rows : list obj) (v : jsval) : bool :=
  negb (existsb (fun r => sql_eq (get r col) v) rows).

Definition users_accept (db : Db) (row : obj) : bool :=
  fresh_id (users db) (get row "id")
  && not_null (get row "name")
  && not_null (get row "email") && unique_in "email" (users db) (get row "email")
  && not_null (get row "password")
  && not_null (get row "role")
  && one_of ["admin"; "manager"; "sales_rep"] (get row "role")
  && refers (foreign_keys db) (teams db) (get row "teamId")
  && refers (foreign_keys db) (row :: users db) (get row "createdBy")
  && refers (foreign_keys db) (row :: users db) (get row "updatedBy")
  && not_null (get row "createdAt") && not_null (get row "updatedAt").

Definition customers_accept (db : Db) (row : obj) : bool :=
  fresh_id (customers db) (get row "id")
  && not_null (get row "name")
  && one_of ["active"; "inactive"; "prospect"] (get row "status")
  && not_null (get row "ownerId")
  && refers (foreign_keys db) (users db) (get row "ownerId")
  && refers (foreign_keys db) (teams db) (get row "teamId")
  && refers (foreign_keys db) (users db) (get row "assignedTo")
  && refers (foreign_keys db) (users db) (get row "createdBy")
  && refers (foreign_keys db) (users db) (get row "updatedBy")
  && not_null (get row "createdAt") && not_null (get row "updatedAt").

(** The constraints of [leads] other than the primary key. *)
Definition leads_valid (db : Db) (row : obj) : bool :=
  not_null (get row "title")
  && not_null (get row "customerId")
  && one_of ["new"; "qualified"; "proposal"; "negotiation"; "closed_won";
             "closed_lost"] (get row "status")
  && not_null (get row "value")
  && one_of ["low"; "medium"; "high"; "critical"] (get row "priority")
  && not_null (get row "ownerId")
  && refers (foreign_keys db) (customers db) (get row "customerId")
  && refers (foreign_keys db) (users db) (get row "ownerId")
  && refers (foreign_keys db) (teams db) (get row "teamId")
  && refers (foreign_keys db) (users db) (get row "assignedTo")
  && refers (foreign_keys db) (users db) (get row "createdBy")
  && refers (foreign_keys db) (users db) (get row "updatedBy")
  && not_null (get row "createdAt") && not_null (get row "updatedAt").

Definition leads_accept (db : Db) (row : obj) : bool :=
  fresh_id (leads db) (get row "id") && leads_valid db row.

(** A statement parameter as node-sqlite3 binds it: [undefined] as NULL, a
    boolean as 0 or 1, an array or an object as its text. *)
Definition bound (v : jsval) : jsval :=
  match v with
  | JUndefined => JNull
  | JBool b => JNum (if b then 1 else 0)
  | JArr _ | JObj _ => JStr (to_string v)
  | _ => v
  end.

(** The row of an INSERT that binds, column by column, the properties of
    [data]. *)
Definition row_of (columns : list string) (data : obj) : obj :=
  map (fun c => (c, bound (get data c))) columns.

Definition users_columns : list string :=
  ["id"; "name"; "email"; "password"; "role"; "teamId"; "department"; "phone";
   "isActive"; "loginAttempts"; "lockUntil"; "createdBy"; "updatedBy";
   "createdAt"; "updatedAt"; "lastLoginAt"].

Definition customers_columns : list string :=
  ["id"; "name"; "email"; "phone"; "company"; "status"; "tags"; "notes";
   "lastContactDate"; "ownerId"; "teamId"; "assignedTo"; "source"; "value";
   "industry"; "createdBy"; "updatedBy"; "createdAt"; "updatedAt"].

Definition leads_columns : list string :=
  ["id"; "title"; "description"; "customerId"; "status"; "value";
   "expectedCloseDate"; "priority"; "source"; "ownerId"; "teamId";
   "assignedTo"; "createdBy"; "updatedBy"; "createdAt"; "updatedAt"].

(** The number of [?] placeholders of a statement text. *)
Fixpoint placeholders (sql : string) : nat :=
  match sql with
  | EmptyString => 0
  | String c rest =>
      (if Ascii.eqb c (Ascii.ascii_of_nat 63) then 1 else 0) + placeholders rest
  end%nat.

Definition with_leads (f : list obj -> list obj) (db : Db) : Db :=
  mkDb (foreign_keys db) (users db) (teams db) (customers db) (f (leads db))
       (activities db) (refresh_tokens db).

(** The constraints that the UPDATE of [updateCustomer] can break: those
    on the columns it assigns ([name] NOT NULL, the CHECK on [status], the
    references of [assignedTo] and [updatedBy], [updatedAt] NOT NULL).  A
    column that the statement does not assign is not checked again. *)
Definition customers_update_valid (db : Db) (row : obj) : bool :=
  not_null (get row "name")
  && one_of ["active"; "inactive"; "prospect"] (get row "status")
  && refers (foreign_keys db) (users db) (get row "assignedTo")
  && refers (foreign_keys db) (users db) (get row "updatedBy")
  && not_null (get row "updatedAt").

Definition activities_accept (db : Db) (row : obj) : bool :=
  fresh_id (activities db) (get row "id")
  && not_null (get row "type")
  && one_of ["create"; "update"; "delete"; "login"; "logout"; "assign"]
            (get row "type")
  && not_null (get row "resourceType")
  && one_of ["user"; "customer"; "lead"; "team"] (get row "resourceType")
  && not_null (get row "resourceId")
  && not_null (get row "description")
  && not_null (get row "userId")
  && refers (foreign_keys db) (users db) (get row "userId")
  && not_null (get row "createdAt").

Definition activities_columns : list string :=
  ["id"; "type"; "resourceType"; "resourceId"; "description"; "changes";
   "userId"; "ipAddress"; "userAgent"; "createdAt"].

End Database.
Export Database.

(** ** Express requests, responses and handlers *)

Module Http.

Record Response : Type := mkResponse { status : Z; json : obj }.

(** The part of an Express request the backend reads.  [req_errors] is the
    outcome of the express-validator chain ([validationResult(req)]). *)
Record Req : Type := mkReq {
  req_user : option obj;
  req_params_id : jsval;
  req_body : obj;
  req_query : obj;
  req_ip : jsval;
  req_userAgent : jsval;
  req_errors : list jsval;
  req_dataFilter : option obj;
  req_record : option obj;
}.

(** What the runtime supplies to one request: the clock and the
    identifiers drawn by [uuidv4]. *)
Record Env : Type := mkEnv { now : Z; tokenId : string; activityId : string }.

(** An async function over the store: it answers the request ([Sent]),
    hands on a value ([Next]) or raises ([Threw]). *)
Inductive step (A : Type) : Type :=
  | Sent (r : Response)
  | Next (a : A)
  | Threw.
Arguments Sent {A} r.
Arguments Next {A} a.
Arguments Threw {A}.

Definition Handler (A : Type) : Type := Db -> step A * Db.

Definition ret {A} (a : A) : Handler A := fun db => (Next a, db).

Definition bind {A B} (m : Handler A) (k : A -> Handler B) : Handler B :=
  fun db =>
    match m db with
    | (Next a, db') => k a db'
    | (Sent r, db') => (Sent r, db')
    | (Threw, db') => (Threw, db')
    end.

(** [return res.status(code).json(body)] *)
Definition send {A} (code : Z) (body : obj) : Handler A :=
  fun db => (Sent (mkResponse code body), db).

Definition throw {A} : Handler A := fun db => (Threw, db).

(** [await database.get(...)] and [await database.run(...)] *)
Definition query {A} (q : Db -> A) : Handler A := fun db => (Next (q db), db).
Definition run (f : Db -> Db) : Handler unit := fun db => (Next tt, f db).

(** [try { m } catch (error) { h }] *)
Definition try_catch {A} (m h : Handler A) : Handler A :=
  fun db =>
    match m db with
    | (Threw, db') => h db'
    | other => other
    end.

Declare Scope handler_scope.
Delimit Scope handler_scope with handler.
Notation "'let*' x ':=' m 'in' k" := (bind m (fun x => k))
  (at level 10, x name, m at level 100, k at level 200) : handler_scope.
Notation "m ';;' k" := (bind m (fun _ => k))
  (at level 100, right associativity) : handler_scope.

(** The response of a run, if the request was answered. *)
Definition response {A} (out : step A * Db) : option Response :=
  match fst out with
  | Sent r => Some r
  | _ => None
  end.

(** [await database.run('INSERT ...')]: the row is stored, or the statement
    raises on a constraint and stores nothing. *)
Definition insert (accepts : Db -> obj -> bool)
    (store : (list obj -> list obj) -> Db -> Db) (row : obj) : Handler unit :=
  fun db =>
    if accepts db row then (Next tt, store (fun rows => push rows row) db)
    else (Threw, db).

(** [await database.run('UPDATE leads SET ... WHERE p')]: the rows are
    rewritten, or the statement raises on a constraint and changes
    nothing. *)
Definition update_leads (p : obj -> bool) (f : obj -> obj) : Handler unit :=
  fun db =>
    if forallb (fun r => negb (p r) || leads_valid db (f r)) (leads db)
    then (Next tt, with_leads (update_where p f) db)
    else (Threw, db).

(** [await database.run('UPDATE customers SET ... WHERE p')], likewise:
    the statement is accepted when every row it rewrites keeps the
    constraints on the columns it assigns. *)
Definition customers_update_accepted (p : obj -> bool) (f : obj -> obj)
    (db : Db) : bool :=
  forallb (fun r => negb (p r) || customers_update_valid db (f r)) (customers db).

Definition update_customers (p : obj -> bool) (f : obj -> obj) : Handler unit :=
  fun db =>
    if customers_update_accepted p f db
    then (Next tt, with_customers (update_where p f) db)
    else (Threw, db).

End Http.
Export Http.

(** ** The engine's built-in objects *)

(** A property that an object literal does not have itself is read from
    [Object.prototype].  ECMAScript (Annex B included) gives that object
    twelve properties with a string name: [constructor], which is the
    function [Object]; the accessor [__proto__], which gives the prototype
    of the object the property is read on; and ten methods. *)
Module Builtins.

(** [Object] and the methods of [Object.prototype]. *)
Inductive builtin : Type :=
  | F_Object
  | F_hasOwnProperty
  | F_isPrototypeOf
  | F_propertyIsEnumerable
  | F_toLocaleString
  | F_toString
  | F_valueOf
  | F_defineGetter
  | F_defineSetter
  | F_lookupGetter
  | F_lookupSetter.

(** [f.name] and [f.length]. *)
Definition builtin_name (f : builtin) : string :=
  match f with
  | F_Object => "Object"
  | F_hasOwnProperty => "hasOwnProperty"
  | F_isPrototypeOf => "isPrototypeOf"
  | F_propertyIsEnumerable => "propertyIsEnumerable"
  | F_toLocaleString => "toLocaleString"
  | F_toString => "toString"
  | F_valueOf => "valueOf"
  | F_defineGetter => "__defineGetter__"
  | F_defineSetter => "__defineSetter__"
  | F_lookupGetter => "__lookupGetter__"
  | F_lookupSetter => "__lookupSetter__"
  end.

Definition builtin_length (f : builtin) : Z :=
  match f with
  | F_toLocaleString | F_toString | F_valueOf => 0
  | F_defineGetter | F_defineSetter => 2
  | _ => 1
  end.

(** The data property of [Object.prototype] named [k], if any. *)
Definition object_prototype_function (k : string) : option builtin :=
  if String.eqb k "constructor" then Some F_Object
  else if String.eqb k "hasOwnProperty" then Some F_hasOwnProperty
  else if String.eqb k "isPrototypeOf" then Some F_isPrototypeOf
  else if String.eqb k "propertyIsEnumerable" then Some F_propertyIsEnumerable
  else if String.eqb k "toLocaleString" then Some F_toLocaleString
  else if String.eqb k "toString" then Some F_toString
  else if String.eqb k "valueOf" then Some F_valueOf
  else if String.eqb k "__defineGetter__" then Some F_defineGetter
  else if String.eqb k "__defineSetter__" then Some F_defineSetter
  else if String.eqb k "__lookupGetter__" then Some F_lookupGetter
  else if String.eqb k "__lookupSetter__" then Some F_lookupSetter
  else None.

(** What a property read on the permission matrix, or on what such a read
    gave, can give: a role object or an array of the matrix, or a value of
    the engine.  [Other] is a function or an object of the engine that is
    none of the others; like those it has no property [includes]. *)
Inductive held : Type :=
  | Undefined
  | Null
  | Role (resources : gmap string (list string))
  | Actions (acts : list string)
  | Text (s : string)
  | Number (n : Z)
  | ObjectPrototype
  | Function_ (f : builtin)
  | Other.

(** ToBoolean *)
Definition truthy_held (v : held) : bool :=
  match v with
  | Undefined | Null => false
  | Text s => negb (String.eqb s EmptyString)
  | Number n => negb (n =? 0)%Z
  | _ => true
  end.

(** [f[k]] for a built-in function [f] and a name [k] other than [name]
    and [length]: an own property of [f] or one it inherits from
    [Function.prototype] and [Object.prototype], as the engine has it; the
    read of some ([caller], [arguments]) raises. *)
Class Engine : Type := {
  builtin_property : builtin -> string -> completion held;
}.

End Builtins.

(** ** middleware/rbac.js *)

Module Rbac.

(** The static role x resource matrix. *)
Definition ROLE_PERMISSIONS : gmap string (gmap string (list string)) :=
  {[ "admin" :=
       {[ "customers" := ["create"; "read"; "update"; "delete"];
          "leads" := ["create"; "read"; "update"; "delete"];
          "users" := ["create"; "read"; "update"; "delete"];
          "teams" := ["create"; "read"; "update"; "delete"];
          "activities" := ["create"; "read"; "update"; "delete"];
          "reports" := ["read"; "export"] ]};
     "manager" :=
       {[ "customers" := ["create"; "read"; "update"; "delete"];
          "leads" := ["create"; "read"; "update"; "delete"];
          "users" := ["read"];
          "teams" := ["read"; "update"];
          "activities" := ["create"; "read"; "update"; "delete"];
          "reports" := ["read"; "export"] ]};
     "sales_rep" :=
       {[ "customers" := ["create"; "read"; "update"];
          "leads" := ["create"; "read"; "update"];
          "users" := ["read"];
          "teams" := ["read"];
          "activities" := ["create"; "read"; "update"];
          "reports" := ["read"] ]} ]}.

(** [o[k]] for [o] the matrix or one of its role objects and [k] not a
    key of [o]: the property is read from [Object.prototype], the
    prototype of [o]. *)
Definition inherited (k : string) : Builtins.held :=
  if String.eqb k "__proto__" then Builtins.ObjectPrototype
  else match Builtins.object_prototype_function k with
       | Some f => Builtins.Function_ f
       | None => Builtins.Undefined
       end.

(** [ROLE_PERMISSIONS[role]]; the role is converted to a property name as
    JavaScript does. *)
Definition role_entry (role : jsval) : Builtins.held :=
  match ROLE_PERMISSIONS !! to_string role with
  | Some rolePermissions => Builtins.Role rolePermissions
  | None => inherited (to_string role)
  end.

(** [array.includes(x)] on an array of strings *)
Definition includes (l : list string) (x : string) : bool :=
  existsb (String.eqb x) l.

Section Permissions.
Context `{engine : Builtins.Engine}.

(** [rolePermissions[resource]] for what [ROLE_PERMISSIONS[role]] gave: a
    role object, [Object.prototype] (whose own prototype is [null]) or a
    built-in function.  Reading a property of [undefined] or [null]
    raises; the other values are not role entries. *)
Definition resource_entry (rolePermissions : Builtins.held) (resource : string)
  : completion Builtins.held :=
  match rolePermissions with
  | Builtins.Role resources =>
      match resources !! resource with
      | Some resourcePermissions => Returned (Builtins.Actions resourcePermissions)
      | None => Returned (inherited resource)
      end
  | Builtins.ObjectPrototype =>
      if String.eqb resource "__proto__" then Returned Builtins.Null
      else match Builtins.object_prototype_function resource with
           | Some f => Returned (Builtins.Function_ f)
           | None => Returned Builtins.Undefined
           end
  | Builtins.Function_ f =>
      if String.eqb resource "name"
      then Returned (Builtins.Text (Builtins.builtin_name f))
      else if String.eqb resource "length"
      then Returned (Builtins.Number (Builtins.builtin_length f))
      else Builtins.builtin_property f resource
  | Builtins.Undefined | Builtins.Null => Raised
  | _ => Returned Builtins.Undefined
  end.

(** [resourcePermissions.includes(permission)]: membership for an array,
    occurrence for a string; a number, a function and an object have no
    [includes] and the call raises a TypeError. *)
Definition includes_call (resourcePermissions : Builtins.held)
    (permission : string) : completion bool :=
  match resourcePermissions with
  | Builtins.Actions acts => Returned (includes acts permission)
  | Builtins.Text s => Returned (contains permission s)
  | _ => Raised
  end.

Definition hasPermission (user : option obj) (resource permission : string)
  : completion bool :=
  match user with
  | None => Returned false
  | Some u =>
      if negb (truthy (get u "role")) then Returned false else
      let rolePermissions := role_entry (get u "role") in
      if negb (Builtins.truthy_held rolePermissions) then Returned false else
      match resource_entry rolePermissions resource with
      | Raised => Raised
      | Returned resourcePermissions =>
          if negb (Builtins.truthy_held resourcePermissions) then Returned false
          else includes_call resourcePermissions permission
      end
  end.

(** [requirePermission(resource, permission)]; an error of
    [hasPermission] escapes the middleware. *)
Definition requirePermission (resource permission : string) (req : Req)
  : Handler Req :=
  match req_user req with
  | None =>
      send 401 [("success", JBool false);
                ("message", JStr "Authentication required")]
  | Some _ =>
      match hasPermission (req_user req) resource permission with
      | Raised => throw
      | Returned granted =>
          if negb granted
          then send 403 [("success", JBool false);
                         ("message", JStr ("Insufficient permissions. Required: "
                            +:+ permission +:+ " on " +:+ resource))]
          else ret req
      end
  end.

End Permissions.

Definition canAccessRecord (user record : option obj) : bool :=
  match user, record with
  | Some u, Some r =>
      if strict_eq (get u "role") (JStr "admin") then true
      else if strict_eq (get u "role") (JStr "manager")
              && strict_eq (get r "teamId") (get u "teamId") then true
      else if strict_eq (get r "ownerId") (get u "id") then true
      else if strict_eq (get r "assignedTo") (get u "id") then true
      else false
  | _, _ => false
  end.

(** [null] is [None]; a filter object is [Some]. *)
Definition getDataFilter (user : option obj) : option obj :=
  match user with
  | None => None
  | Some u =>
      if strict_eq (get u "role") (JStr "admin") then Some []
      else if strict_eq (get u "role") (JStr "manager")
      then Some [("teamId", get u "teamId")]
      else Some [("ownerId", get u "id")]
  end.

(** The result [{ whereClause, params }] as a pair. *)
Definition buildWhereClause (baseWhere : string) (flt : obj)
    (params : list jsval) (tableAlias : string) : string * list jsval :=
  let conditions := if truthy (JStr baseWhere) then [baseWhere] else [] in
  let newParams := params in
  let '(conditions, newParams) :=
    if truthy (get flt "ownerId")
    then (push conditions (tableAlias +:+ ".ownerId = ?"),
          push newParams (get flt "ownerId"))
    else (conditions, newParams) in
  let '(conditions, newParams) :=
    if truthy (get flt "teamId")
    then (push conditions (tableAlias +:+ ".teamId = ?"),
          push newParams (get flt "teamId"))
    else (conditions, newParams) in
  let whereClause :=
    if (0 <? Z.of_nat (length conditions))%Z
    then "WHERE " +:+ String.concat " AND " conditions
    else EmptyString in
  (whereClause, newParams).

(** [requireRecordAccess(resourceType)] *)
Definition requireRecordAccess (resourceType : string) (req : Req)
  : Handler Req :=
  match req_user req with
  | None =>
      send 401 [("success", JBool false);
                ("message", JStr "Authentication required")]
  | Some _ =>
      let resourceId := req_params_id req in
      if negb (truthy resourceId)
      then send 400 [("success", JBool false);
                     ("message", JStr "Resource ID required")]
      else
        try_catch
          (let* record :=
             (if String.eqb resourceType "customer" then
                query (fun db => project
                         [("ownerId", "ownerId"); ("teamId", "teamId");
                          ("assignedTo", "assignedTo")]
                         <$> select_first (by_id resourceId) (customers db))
              else if String.eqb resourceType "lead" then
                query (fun db => project
                         [("ownerId", "ownerId"); ("teamId", "teamId");
                          ("assignedTo", "assignedTo")]
                         <$> select_first (by_id resourceId) (leads db))
              else if String.eqb resourceType "user" then
                query (fun db => project
                         [("ownerId", "id"); ("teamId", "teamId")]
                         <$> select_first (by_id resourceId) (users db))
              else if String.eqb resourceType "team" then
                query (fun db => project [("ownerId", "managerId")]
                         <$> select_first (by_id resourceId) (teams db))
              else
                send 400 [("success", JBool false);
                          ("message", JStr "Invalid resource type")])
           in
           match record with
           | None =>
               send 404 [("success", JBool false);
                         ("message", JStr (resourceType +:+ " not found"))]
           | Some rec =>
               if negb (canAccessRecord (req_user req) record)
               then send 403 [("success", JBool false);
                              ("message", JStr "Access denied to this resource")]
               else ret (mkReq (req_user req) (req_params_id req) (req_body req)
                               (req_query req) (req_ip req) (req_userAgent req)
                               (req_errors req) (req_dataFilter req) record)
           end)
          (send 500 [("success", JBool false);
                     ("message", JStr "Error checking record access")])
  end%handler.

(** [applyDataFilter] *)
Definition applyDataFilter (req : Req) : Handler Req :=
  match req_user req with
  | None =>
      send 401 [("success", JBool false);
                ("message", JStr "Authentication required")]
  | Some _ =>
      ret (mkReq (req_user req) (req_params_id req) (req_body req)
                 (req_query req) (req_ip req) (req_userAgent req)
                 (req_errors req) (getDataFilter (req_user req)) (req_record req))
  end.

End Rbac.


(** ** Library functions the backend calls *)

(** bcryptjs, jsonwebtoken and the JSON built-ins.  [jwt_sign payload
    secret expiresIn now] is [jwt.sign] called at clock value [now];
    [jwt_verify] and [JSON_parse] are [None] when the call raises. *)
Class Libs : Type := {
  bcrypt_compare : string -> string -> bool;
  jwt_sign : obj -> string -> string -> Z -> string;
  jwt_verify : jsval -> string -> Z -> option obj;
  JSON_stringify : jsval -> string;
  JSON_parse : jsval -> option jsval;
}.

(** [bcrypt.hash(s, rounds)] with the salt it draws. *)
Class Hashing : Type := {
  bcrypt_hash : string -> Z -> string -> string;
}.

(** The [name] of the error that [jwt.verify] raises, when it raises. *)
Class JwtErrors : Type := {
  jwt_error_name : jsval -> string -> Z -> string;
}.

(** express-validator: a validation chain of a route, run on the body of
    the request, gives the body as its sanitizers leave it and the errors
    that [validationResult] reports to the controller. *)
Class Validator : Type := {
  customerValidation : obj -> obj * list jsval;
  leadValidation : obj -> obj * list jsval;
}.

(** ** config *)

Module Config.

Record Config : Type := mkConfig {
  jwt_secret : string;
  jwt_refreshSecret : string;
  jwt_expiresIn : string;
  jwt_refreshExpiresIn : string;
  security_maxLoginAttempts : Z;
  security_lockTime : Z;
}.

(** The values taken when the environment sets none. *)
Definition defaults : Config :=
  mkConfig "fallback-secret-key-change-in-production" "fallback-refresh-secret"
           "15m" "7d" 5 (30 * 60 * 1000).

End Config.
Export Config.

(** ** utils/logger.js *)

Module Logger.
Section Logger.
Context `{libs : Libs}.
Local Open Scope handler_scope.

(** The row that [logActivity] inserts, as its parameters are bound. *)
Definition activity_row (env : Env) (activity : obj) : obj :=
  row_of activities_columns
    [ ("id", JStr (activityId env));
      ("type", get activity "type");
      ("resourceType", get activity "resourceType");
      ("resourceId", get activity "resourceId");
      ("description", get activity "description");
      ("changes", if truthy (get activity "changes")
                  then JStr (JSON_stringify (get activity "changes"))
                  else JNull);
      ("userId", get activity "userId");
      ("ipAddress", or_else (get activity "ipAddress") JNull);
      ("userAgent", or_else (get activity "userAgent") JNull);
      ("createdAt", JNum (now env)) ].

(** [logActivity]: the INSERT is attempted and an error of it is logged
    and swallowed, so that the caller goes on either way. *)
Definition logActivity (env : Env) (activity : obj) : Handler unit :=
  try_catch
    (insert activities_accept with_activities (activity_row env activity))
    (ret tt).

(** The [update] branch of [auditRecordChange]:
    [Object.keys(newData).forEach(key => ...)] over an initially empty
    [changes]. *)
Definition diff (oldData newData : obj) : obj :=
  fold_left
    (fun changes key =>
       if negb (strict_eq (get oldData key) (get newData key))
       then set changes key
              (JObj [("from", get oldData key); ("to", get newData key)])
       else changes)
    (keys newData) [].

(** [a.join(sep)] on strings *)
Definition join (sep : string) (a : list string) : string := String.concat sep a.

(** A text between double quotes. *)
Definition quoted (s : string) : string :=
  let q := String (Ascii.ascii_of_nat 34) EmptyString in q +:+ s +:+ q.

(** The display name [data.name || data.title || resourceId]. *)
Definition label (data : obj) (resourceId : jsval) : string :=
  to_string (or_else (or_else (get data "name") (get data "title")) resourceId).

Definition auditRecordChange (env : Env) (type resourceType : string)
    (resourceId : jsval) (oldData newData : option obj) (userId : jsval)
    (req : option Req) : Handler unit :=
  let* cd :=
    (if String.eqb type "create" then
       match newData with
       | Some nd =>
           ret ([("created", JObj nd)],
                "Created " +:+ resourceType +:+ " " +:+ quoted (label nd resourceId))
       | None => throw
       end
     else if String.eqb type "update" then
       match oldData, newData with
       | Some od, Some nd =>
           let changes := diff od nd in
           let changedFields := keys changes in
           ret (changes,
                "Updated " +:+ resourceType +:+ " " +:+ quoted (label nd resourceId)
                  +:+ " - changed: " +:+ join ", " changedFields)
       | _, _ => throw
       end
     else if String.eqb type "delete" then
       match oldData with
       | Some od =>
           ret ([("deleted", JObj od)],
                "Deleted " +:+ resourceType +:+ " " +:+ quoted (label od resourceId))
       | None => throw
       end
     else
       ret ([], type +:+ " " +:+ resourceType +:+ " " +:+ to_string resourceId))
  in
  logActivity env
    [ ("type", JStr type);
      ("resourceType", JStr resourceType);
      ("resourceId", resourceId);
      ("description", JStr (snd cd));
      ("changes", JObj (fst cd));
      ("userId", userId);
      ("ipAddress", match req with Some r => req_ip r | None => JUndefined end);
      ("userAgent", match req with Some r => req_userAgent r | None => JUndefined end) ].

End Logger.
End Logger.

(** ** controllers/authController.js *)

Module AuthController.
Section AuthController.
Context `{libs : Libs} (config : Config).
Local Open Scope handler_scope.

Definition generateTokens (env : Env) (user : obj) : string * string :=
  let payload :=
    [("userId", get user "id"); ("email", get user "email");
     ("role", get user "role")] in
  let accessToken :=
    jwt_sign payload (jwt_secret config) (jwt_expiresIn config) (now env) in
  let refreshToken :=
    jwt_sign payload (jwt_refreshSecret config) (jwt_refreshExpiresIn config)
             (now env) in
  (accessToken, refreshToken).

Definition storeRefreshToken (env : Env) (userId : jsval) (refreshToken : string)
  : Handler unit :=
  let expiresAt := (now env + 7 * 24 * 60 * 60 * 1000)%Z in
  run (with_refresh_tokens (fun rows => push rows
         [("id", JStr (tokenId env)); ("userId", userId);
          ("token", JStr refreshToken); ("expiresAt", JNum expiresAt);
          ("createdAt", JNum (now env))]));;
  run (with_refresh_tokens
         (delete_where (fun r => sql_lt (get r "expiresAt") (JNum (now env))))).

(** The token is a statement parameter, compared as it is bound. *)
Definition removeRefreshToken (token : jsval) : Handler unit :=
  run (with_refresh_tokens
         (delete_where (fun r => sql_eq (get r "token") (bound token)))).

(** The truth value of [user.lockUntil && user.lockUntil > Date.now()]. *)
Definition isAccountLocked (env : Env) (user : obj) : bool :=
  truthy (get user "lockUntil") && greater (get user "lockUntil") (JNum (now env)).

Definition incrementLoginAttempts (env : Env) (userId : jsval) : Handler unit :=
  let* user := query (fun db => project [("loginAttempts", "loginAttempts")]
                        <$> select_first (by_id userId) (users db)) in
  match user with
  | None => throw
  | Some user =>
      let attempts := add (or_else (get user "loginAttempts") (JNum 0)) (JNum 1) in
      let lockUntil :=
        if at_least attempts (JNum (security_maxLoginAttempts config))
        then JNum (now env + security_lockTime config)
        else JNull in
      run (with_users (update_where (by_id userId)
             (assign [("loginAttempts", attempts); ("lockUntil", lockUntil)])))
  end.

Definition resetLoginAttempts (userId : jsval) : Handler unit :=
  run (with_users (update_where (by_id userId)
         (assign [("loginAttempts", JNum 0); ("lockUntil", JNull)]))).

(** [bcrypt.compare(s, hash)] rejects unless both arguments are strings. *)
Definition compare (s hash : jsval) : Handler bool :=
  match s, hash with
  | JStr s, JStr hash => ret (bcrypt_compare s hash)
  | _, _ => throw
  end.

(** [const { password, loginAttempts, lockUntil, ...rest } = user] *)
Definition without (ks : list string) (o : obj) : obj :=
  List.filter (fun kv => negb (existsb (String.eqb (fst kv)) ks)) o.

Definition invalidCredentials {A} : Handler A :=
  send 401 [("success", JBool false); ("message", JStr "Invalid credentials")].

Definition login (env : Env) (req : Req) : Handler unit :=
  try_catch
    (match req_errors req with
     | _ :: _ =>
         send 400 [("success", JBool false);
                   ("message", JStr "Validation errors");
                   ("errors", JArr (req_errors req))]
     | [] =>
         let email := get (req_body req) "email" in
         let password := get (req_body req) "password" in
         let* user := query (fun db =>
           select_first (by_email email) (users db)) in
         match user with
         | None => invalidCredentials
         | Some user =>
             if isAccountLocked env user then
               send 423 [("success", JBool false);
                         ("message", JStr "Account temporarily locked due to too many failed login attempts")]
             else if negb (truthy (get user "isActive")) then
               send 401 [("success", JBool false);
                         ("message", JStr "Account is inactive")]
             else
               let* isValidPassword := compare password (get user "password") in
               if negb isValidPassword then
                 incrementLoginAttempts env (get user "id");;
                 invalidCredentials
               else
                 resetLoginAttempts (get user "id");;
                 run (with_users (update_where (by_id (get user "id"))
                        (assign [("lastLoginAt", JNum (now env))])));;
                 let tokens := generateTokens env user in
                 storeRefreshToken env (get user "id") (snd tokens);;
                 Logger.logActivity env
                   [("type", JStr "login"); ("resourceType", JStr "user");
                    ("resourceId", get user "id");
                    ("description", JStr "User logged in");
                    ("userId", get user "id");
                    ("ipAddress", req_ip req);
                    ("userAgent", req_userAgent req)];;
                 send 200 [("success", JBool true);
                           ("message", JStr "Login successful");
                           ("data", JObj
                              [("user", JObj (without ["password"; "loginAttempts"; "lockUntil"] user));
                               ("accessToken", JStr (fst tokens));
                               ("refreshToken", JStr (snd tokens))])]
         end
     end)
    (send 500 [("success", JBool false);
               ("message", JStr "Internal server error")]).

Definition refreshToken (env : Env) (req : Req) : Handler unit :=
  try_catch
    (let refreshToken := get (req_body req) "refreshToken" in
     if negb (truthy refreshToken) then
       send 401 [("success", JBool false);
                 ("message", JStr "Refresh token required")]
     else
       match jwt_verify refreshToken (jwt_refreshSecret config) (now env) with
       | None =>
           send 401 [("success", JBool false);
                     ("message", JStr "Invalid refresh token")]
       | Some decoded =>
           let* storedToken := query (fun db =>
             select_first
               (fun r => sql_eq (get r "token") refreshToken
                         && sql_eq (get r "userId") (get decoded "userId")
                         && sql_gt (get r "expiresAt") (JNum (now env)))
               (refresh_tokens db)) in
           match storedToken with
           | None =>
               send 401 [("success", JBool false);
                         ("message", JStr "Invalid or expired refresh token")]
           | Some _ =>
               let* user := query (fun db =>
                 project [("id", "id"); ("name", "name"); ("email", "email");
                          ("role", "role"); ("teamId", "teamId");
                          ("department", "department"); ("phone", "phone");
                          ("isActive", "isActive")]
                   <$> select_first
                         (fun r => by_id (get decoded "userId") r
                                   && sql_eq (get r "isActive") (JNum 1))
                         (users db)) in
               match user with
               | None =>
                   send 401 [("success", JBool false);
                             ("message", JStr "User not found or inactive")]
               | Some user =>
                   let tokens := generateTokens env user in
                   removeRefreshToken refreshToken;;
                   storeRefreshToken env (get user "id") (snd tokens);;
                   send 200 [("success", JBool true);
                             ("message", JStr "Token refreshed successfully");
                             ("data", JObj
                                [("user", JObj user);
                                 ("accessToken", JStr (fst tokens));
                                 ("refreshToken", JStr (snd tokens))])]
               end
           end
       end)
    (send 500 [("success", JBool false);
               ("message", JStr "Internal server error")]).

(** Successive login requests against the store, with their responses. *)
Fixpoint login_sequence (attempts : list (Env * Req)) (db : Db)
  : list (option Response) * Db :=
  match attempts with
  | [] => ([], db)
  | (env, req) :: rest =>
      let out := login env req db in
      let outs := login_sequence rest (snd out) in
      (response out :: fst outs, snd outs)
  end.

(** A well-formed login request for [email] whose password does not match
    [hash]. *)
Definition wrong_password (email : jsval) (hash : string) (attempt : Env * Req)
  : Prop :=
  req_errors (snd attempt) = [] /\
  get (req_body (snd attempt)) "email" = email /\
  exists p, get (req_body (snd attempt)) "password" = JStr p /\
            bcrypt_compare p hash = false.

(** The refresh token carried by a response, [data.refreshToken]. *)
Definition issued_refresh_token (r : Response) : jsval :=
  match get (json r) "data" with
  | JObj data => get data "refreshToken"
  | _ => JUndefined
  end.

(** What a failed attempt writes to the account row with [a] earlier
    failures: the UPDATE of [incrementLoginAttempts]. *)
Definition bump (env : Env) (a : Z) : obj -> obj :=
  assign [("loginAttempts", JNum (a + 1));
          ("lockUntil", if (security_maxLoginAttempts config <=? a + 1)%Z
                        then JNum (now env + security_lockTime config)
                        else JNull)].

(** The account behind [email]: its row, found alike by email and by id,
    active, with [a] counted failures and lock timestamp [lock]. *)
Definition account (db : Db) (email : jsval) (uid hash : string) (a : Z)
    (lock : jsval) : Prop :=
  exists u,
    select_first (by_email email) (users db) = Some u /\
    select_first (by_id (JStr uid)) (users db) = Some u /\
    get u "id" = JStr uid /\
    get u "password" = JStr hash /\
    truthy (get u "isActive") = true /\
    get u "loginAttempts" = JNum a /\
    get u "lockUntil" = lock.

(** *** register, logout, getProfile *)

Context `{hashing : Hashing}.

(** [bcrypt.hash(s, rounds)] rejects unless [s] is a string. *)
Definition hash (s : jsval) (rounds : Z) (salt : string) : Handler jsval :=
  match s with
  | JStr s => ret (JStr (bcrypt_hash s rounds salt))
  | _ => throw
  end.

(** [register].  [userId] is the identifier drawn for the new user,
    [salt] the salt drawn by bcrypt and [bcryptRounds] the value of
    [config.security.bcryptRounds].  The INSERT names ten columns; of the
    others [loginAttempts] has DEFAULT 0 and the rest are NULL. *)
Definition register (bcryptRounds : Z) (env : Env) (userId salt : string)
    (req : Req) : Handler unit :=
  try_catch
    (match req_errors req with
     | _ :: _ =>
         send 400 [("success", JBool false);
                   ("message", JStr "Validation errors");
                   ("errors", JArr (req_errors req))]
     | [] =>
         let body := req_body req in
         let* existingUser := query (fun db =>
           project [("id", "id")]
             <$> select_first (by_email (get body "email")) (users db)) in
         match existingUser with
         | Some _ =>
             send 409 [("success", JBool false);
                       ("message", JStr "User with this email already exists")]
         | None =>
             let* hashedPassword := hash (get body "password") bcryptRounds salt in
             insert users_accept with_users
               (row_of users_columns
                  [("id", JStr userId); ("name", get body "name");
                   ("email", get body "email"); ("password", hashedPassword);
                   ("phone", or_else (get body "phone") JNull);
                   ("department", or_else (get body "department") JNull);
                   ("role", JStr "sales_rep"); ("isActive", JNum 1);
                   ("createdAt", JNum (now env)); ("updatedAt", JNum (now env));
                   ("loginAttempts", JNum 0)]);;
             let* user := query (fun db =>
               project [("id", "id"); ("name", "name"); ("email", "email");
                        ("role", "role"); ("phone", "phone");
                        ("department", "department"); ("isActive", "isActive");
                        ("createdAt", "createdAt")]
                 <$> select_first (by_id (JStr userId)) (users db)) in
             match user with
             | None => throw
             | Some user =>
                 let tokens := generateTokens env user in
                 storeRefreshToken env (get user "id") (snd tokens);;
                 Logger.logActivity env
                   [("type", JStr "create"); ("resourceType", JStr "user");
                    ("resourceId", get user "id");
                    ("description", JStr "User registered");
                    ("userId", get user "id");
                    ("ipAddress", req_ip req);
                    ("userAgent", req_userAgent req)];;
                 send 201 [("success", JBool true);
                           ("message", JStr "Registration successful");
                           ("data", JObj
                              [("user", JObj user);
                               ("accessToken", JStr (fst tokens));
                               ("refreshToken", JStr (snd tokens))])]
             end
         end
     end)
    (send 500 [("success", JBool false);
               ("message", JStr "Internal server error")]).

Definition logout (env : Env) (req : Req) : Handler unit :=
  try_catch
    (let refreshToken := get (req_body req) "refreshToken" in
     (if truthy refreshToken then removeRefreshToken refreshToken else ret tt);;
     match req_user req with
     | Some user =>
         Logger.logActivity env
           [("type", JStr "logout"); ("resourceType", JStr "user");
            ("resourceId", get user "id");
            ("description", JStr "User logged out");
            ("userId", get user "id");
            ("ipAddress", req_ip req);
            ("userAgent", req_userAgent req)]
     | None => ret tt
     end;;
     send 200 [("success", JBool true);
               ("message", JStr "Logout successful")])
    (send 500 [("success", JBool false);
               ("message", JStr "Internal server error")]).

Definition getProfile (req : Req) : Handler unit :=
  try_catch
    (match req_user req with
     | None => throw
     | Some user =>
         send 200 [("success", JBool true);
                   ("data", JObj (without ["password"; "loginAttempts"; "lockUntil"]
                                          user))]
     end)
    (send 500 [("success", JBool false);
               ("message", JStr "Internal server error")]).

End AuthController.
End AuthController.

(** ** middleware/auth.js *)

Module AuthMiddleware.
Section AuthMiddleware.
Context `{libs : Libs} `{errors : JwtErrors} (config : Config).
Local Open Scope handler_scope.

(** The token of a header [Bearer <token>]: [authHeader.substring(7)] when
    [authHeader.startsWith('Bearer ')], and nothing for a missing header
    or another scheme.  Node hands [req.headers.authorization] over as a
    string or as [undefined]; no other value reaches the middleware. *)
Definition bearer (authHeader : jsval) : option string :=
  match authHeader with
  | JStr h =>
      if String.prefix "Bearer " h
      then Some (String.substring 7 (String.length h - 7) h)
      else None
  | _ => None
  end.

(** The user of a verified token, as the store has it now. *)
Definition load_user (decoded : obj) (db : Db) : option obj :=
  project [("id", "id"); ("name", "name"); ("email", "email");
           ("role", "role"); ("teamId", "teamId");
           ("department", "department"); ("phone", "phone");
           ("isActive", "isActive")]
    <$> select_first
          (fun r => by_id (get decoded "userId") r
                    && sql_eq (get r "isActive") (JNum 1))
          (users db).

Definition with_user (req : Req) (user : option obj) : Req :=
  mkReq user (req_params_id req) (req_body req) (req_query req) (req_ip req)
        (req_userAgent req) (req_errors req) (req_dataFilter req)
        (req_record req).

(** [authenticate]; [authorization] is [req.headers.authorization]. *)
Definition authenticate (env : Env) (authorization : jsval) (req : Req)
  : Handler Req :=
  try_catch
    (match bearer authorization with
     | None =>
         send 401 [("success", JBool false);
                   ("message", JStr "Access token required")]
     | Some token =>
         match jwt_verify (JStr token) (jwt_secret config) (now env) with
         | Some decoded =>
             let* user := query (load_user decoded) in
             match user with
             | None =>
                 send 401 [("success", JBool false);
                           ("message", JStr "User not found or inactive")]
             | Some _ => ret (with_user req user)
             end
         | None =>
             let name := jwt_error_name (JStr token) (jwt_secret config) (now env) in
             if String.eqb name "TokenExpiredError" then
               send 401 [("success", JBool false);
                         ("message", JStr "Token expired");
                         ("code", JStr "TOKEN_EXPIRED")]
             else if String.eqb name "JsonWebTokenError" then
               send 401 [("success", JBool false);
                         ("message", JStr "Invalid token")]
             else throw
         end
     end)
    (send 500 [("success", JBool false);
               ("message", JStr "Authentication error")]).

(** [optionalAuth] *)
Definition optionalAuth (env : Env) (authorization : jsval) (req : Req)
  : Handler Req :=
  match bearer authorization with
  | None => ret req
  | Some token =>
      match jwt_verify (JStr token) (jwt_secret config) (now env) with
      | Some decoded =>
          let* user := query (load_user decoded) in
          match user with
          | Some _ => ret (with_user req user)
          | None => ret req
          end
      | None => ret req
      end
  end.

End AuthMiddleware.
End AuthMiddleware.

(** ** controllers/customerController.js *)

Module CustomerController.
Section CustomerController.
Context `{libs : Libs}.
Local Open Scope handler_scope.

(** The caller-supplied conditions of [getCustomers]: [baseWhere] and
    [params] as they stand before the RBAC filtering. *)
Definition getCustomers_base (req : Req) : string * list jsval :=
  let q := req_query req in
  let like v := JStr ("%" +:+ to_string v +:+ "%") in
  let '(baseWhere, params) :=
    if truthy (get q "search")
    then ("(name LIKE ? OR email LIKE ? OR company LIKE ?)",
          [like (get q "search"); like (get q "search"); like (get q "search")])
    else (EmptyString, []) in
  let conj (col : string) (v : jsval) (acc : string * list jsval) :=
    if truthy v
    then (fst acc +:+ (if truthy (JStr (fst acc))
                       then " AND " +:+ col +:+ " = ?"
                       else col +:+ " = ?"),
          push (snd acc) v)
    else acc in
  conj "source" (get q "source")
    (conj "industry" (get q "industry")
       (conj "status" (get q "status") (baseWhere, params))).

(** The WHERE clause and the bound parameters of the COUNT and SELECT
    statements of [getCustomers].  [req.dataFilter] is the object set by
    [applyDataFilter]; when the property is absent the default argument
    [{}] of [buildWhereClause] applies. *)
Definition getCustomers_where (req : Req) : string * list jsval :=
  let '(baseWhere, params) := getCustomers_base req in
  Rbac.buildWhereClause baseWhere (default [] (req_dataFilter req)) params "c".

(** [LEFT JOIN t ON c.col = t.id], column [t.name] *)
Definition joined_name (rows : list obj) (id : jsval) : jsval :=
  match select_first (by_id id) rows with
  | Some r => get r "name"
  | None => JNull
  end.

(** The customer with its owner, team and assignee names, [tags] parsed. *)
Definition fetchCustomer (id : jsval) : Handler obj :=
  let* customer := query (fun db =>
    (fun c => (c ++ [("ownerName", joined_name (users db) (get c "ownerId"));
                     ("teamName", joined_name (teams db) (get c "teamId"));
                     ("assignedUserName", joined_name (users db) (get c "assignedTo"))])%list)
      <$> select_first (by_id id) (customers db)) in
  match customer with
  | None => throw
  | Some customer =>
      if truthy (get customer "tags") then
        match JSON_parse (get customer "tags") with
        | Some tags => ret (set customer "tags" tags)
        | None => throw
        end
      else ret (set customer "tags" (JArr []))
  end.

(** The columns written by the UPDATE statement, in order. *)
Definition updated_columns : list string :=
  ["name"; "email"; "phone"; "company"; "status"; "tags"; "notes";
   "lastContactDate"; "value"; "industry"; "source"; "assignedTo";
   "updatedBy"; "updatedAt"].

(** The object [updateData] built from the request body and the stored
    row. *)
Definition updateData (env : Env) (req : Req) (existingCustomer user : obj)
  : obj :=
  let body := req_body req in
  let keep k := or_else (get body k) (get existingCustomer k) in
  let defined k :=
    if negb (strict_eq (get body k) JUndefined)
    then get body k else get existingCustomer k in
  [("name", keep "name");
   ("email", keep "email");
   ("phone", keep "phone");
   ("company", keep "company");
   ("status", keep "status");
   ("tags", if truthy (get body "tags")
            then JStr (JSON_stringify (get body "tags"))
            else get existingCustomer "tags");
   ("notes", defined "notes");
   ("lastContactDate", keep "lastContactDate");
   ("value", defined "value");
   ("industry", keep "industry");
   ("source", keep "source");
   ("assignedTo", keep "assignedTo");
   ("updatedBy", get user "id");
   ("updatedAt", JNum (now env))].

(** A row as the UPDATE statement rewrites it: the fourteen columns take
    the values of [updateData], as they are bound. *)
Definition rewritten (updateData : obj) (row : obj) : obj :=
  assign (map (fun c => (c, bound (get updateData c))) updated_columns) row.

Definition updateCustomer (env : Env) (req : Req) : Handler unit :=
  try_catch
    (let id := req_params_id req in
     match req_errors req with
     | _ :: _ =>
         send 400 [("success", JBool false);
                   ("message", JStr "Validation errors");
                   ("errors", JArr (req_errors req))]
     | [] =>
         let* existingCustomer :=
           query (fun db => select_first (by_id id) (customers db)) in
         match existingCustomer with
         | None =>
             send 404 [("success", JBool false);
                       ("message", JStr "Customer not found")]
         | Some existingCustomer =>
             match req_user req with
             | None => throw
             | Some user =>
                 let updateData := updateData env req existingCustomer user in
                 update_customers (by_id id) (rewritten updateData);;
                 Logger.auditRecordChange env "update" "customer" id
                   (Some existingCustomer) (Some updateData) (get user "id")
                   (Some req);;
                 let* customer := fetchCustomer id in
                 send 200 [("success", JBool true);
                           ("message", JStr "Customer updated successfully");
                           ("data", JObj customer)]
             end
         end
     end)
    (send 500 [("success", JBool false);
               ("message", JStr "Failed to update customer")]).

Definition deleteCustomer (env : Env) (req : Req) : Handler unit :=
  try_catch
    (let id := req_params_id req in
     let* existingCustomer :=
       query (fun db => select_first (by_id id) (customers db)) in
     match existingCustomer with
     | None =>
         send 404 [("success", JBool false);
                   ("message", JStr "Customer not found")]
     | Some existingCustomer =>
         run (delete_customer_by_id id);;
         match req_user req with
         | None => throw
         | Some user =>
             Logger.auditRecordChange env "delete" "customer" id
               (Some existingCustomer) None (get user "id") (Some req);;
             send 200 [("success", JBool true);
                       ("message", JStr "Customer deleted successfully")]
         end
     end)
    (send 500 [("success", JBool false);
               ("message", JStr "Failed to delete customer")]).

(** *** getCustomerById, createCustomer *)

(** The SELECT of a customer with the names of its owner, team and
    assignee. *)
Definition customer_with_names (id : jsval) (db : Db) : option obj :=
  (fun c => (c ++ [("ownerName", joined_name (users db) (get c "ownerId"));
                   ("teamName", joined_name (teams db) (get c "teamId"));
                   ("assignedUserName", joined_name (users db) (get c "assignedTo"))])%list)
    <$> select_first (by_id id) (customers db).

Definition getCustomerById (req : Req) : Handler unit :=
  try_catch
    (let id := req_params_id req in
     let* customer := query (customer_with_names id) in
     match customer with
     | None =>
         send 404 [("success", JBool false);
                   ("message", JStr "Customer not found")]
     | Some customer =>
         let* tags :=
           (if truthy (get customer "tags") then
              match JSON_parse (get customer "tags") with
              | Some tags => ret tags
              | None => throw
              end
            else ret (JArr [])) in
         send 200 [("success", JBool true);
                   ("data", JObj (set customer "tags" tags))]
     end)
    (send 500 [("success", JBool false);
               ("message", JStr "Failed to fetch customer")]).

(** The object [customerData] of [createCustomer]. *)
Definition customerData (env : Env) (customerId : string) (req : Req)
    (user : obj) : obj :=
  let body := req_body req in
  [("id", JStr customerId);
   ("name", get body "name");
   ("email", or_else (get body "email") JNull);
   ("phone", or_else (get body "phone") JNull);
   ("company", or_else (get body "company") (get body "name"));
   ("status", or_else (get body "status") (JStr "active"));
   ("tags", if truthy (get body "tags")
            then JStr (JSON_stringify (get body "tags")) else JNull);
   ("notes", or_else (get body "notes") JNull);
   ("lastContactDate", or_else (get body "lastContactDate") (JNum (now env)));
   ("value", or_else (get body "value") (JNum 0));
   ("industry", or_else (get body "industry") JNull);
   ("source", or_else (get body "source") JNull);
   ("ownerId", get user "id");
   ("teamId", get user "teamId");
   ("assignedTo", or_else (get body "assignedTo") (get user "id"));
   ("createdBy", get user "id");
   ("updatedBy", get user "id");
   ("createdAt", JNum (now env));
   ("updatedAt", JNum (now env))].

(** [createCustomer]; [customerId] is the identifier drawn for the
    customer. *)
Definition createCustomer (env : Env) (customerId : string) (req : Req)
  : Handler unit :=
  try_catch
    (match req_errors req with
     | _ :: _ =>
         send 400 [("success", JBool false);
                   ("message", JStr "Validation errors");
                   ("errors", JArr (req_errors req))]
     | [] =>
         match req_user req with
         | None => throw
         | Some user =>
             let customerData := customerData env customerId req user in
             insert customers_accept with_customers
               (row_of customers_columns customerData);;
             Logger.auditRecordChange env "create" "customer" (JStr customerId)
               None (Some customerData) (get user "id") (Some req);;
             let* customer := fetchCustomer (JStr customerId) in
             send 201 [("success", JBool true);
                       ("message", JStr "Customer created successfully");
                       ("data", JObj customer)]
         end
     end)
    (send 500 [("success", JBool false);
               ("message", JStr "Failed to create customer")]).

End CustomerController.
End CustomerController.

(** ** controllers/leadController.js *)

Module LeadController.

(** The caller-supplied conditions of [getLeads]. *)
Definition getLeads_base (req : Req) : string * list jsval :=
  let q := req_query req in
  let like v := JStr ("%" +:+ to_string v +:+ "%") in
  let '(baseWhere, params) :=
    if truthy (get q "search")
    then ("(title LIKE ? OR description LIKE ?)",
          [like (get q "search"); like (get q "search")])
    else (EmptyString, []) in
  let conj (col : string) (v : jsval) (acc : string * list jsval) :=
    if truthy v
    then (fst acc +:+ (if truthy (JStr (fst acc))
                       then " AND " +:+ col +:+ " = ?"
                       else col +:+ " = ?"),
          push (snd acc) v)
    else acc in
  conj "customerId" (get q "customerId")
    (conj "priority" (get q "priority")
       (conj "status" (get q "status") (baseWhere, params))).

(** The WHERE clause and the bound parameters of the statements of
    [getLeads]; the table alias is the default ['l'] of
    [buildWhereClause]. *)
Definition getLeads_where (req : Req) : string * list jsval :=
  let '(baseWhere, params) := getLeads_base req in
  Rbac.buildWhereClause baseWhere (default [] (req_dataFilter req)) params "l".

(** The WHERE clause and the bound parameters of [getLeadsByCustomer];
    [customerId] is [req.params.customerId]. *)
Definition getLeadsByCustomer_where (customerId : jsval) (req : Req)
  : string * list jsval :=
  let q := req_query req in
  let conj (col : string) (v : jsval) (acc : string * list jsval) :=
    if truthy v
    then (fst acc +:+ " AND " +:+ col +:+ " = ?", push (snd acc) v)
    else acc in
  let '(baseWhere, params) :=
    conj "priority" (get q "priority")
      (conj "status" (get q "status") ("customerId = ?", [customerId])) in
  Rbac.buildWhereClause baseWhere (default [] (req_dataFilter req)) params "l".

Section LeadHandlers.
Context `{libs : Libs}.
Local Open Scope handler_scope.

(** The SELECT of a lead with the names of its customer, owner, team and
    assignee. *)
Definition lead_with_names (id : jsval) (db : Db) : option obj :=
  (fun l =>
     let customer := select_first (by_id (get l "customerId")) (customers db) in
     (l ++ [("customerName", match customer with
                             | Some c => get c "name" | None => JNull end);
            ("customerCompany", match customer with
                                | Some c => get c "company" | None => JNull end);
            ("ownerName", CustomerController.joined_name (users db) (get l "ownerId"));
            ("teamName", CustomerController.joined_name (teams db) (get l "teamId"));
            ("assignedUserName",
             CustomerController.joined_name (users db) (get l "assignedTo"))])%list)
    <$> select_first (by_id id) (leads db).

Definition getLeadById (req : Req) : Handler unit :=
  try_catch
    (let* lead := query (lead_with_names (req_params_id req)) in
     match lead with
     | None =>
         send 404 [("success", JBool false); ("message", JStr "Lead not found")]
     | Some lead =>
         send 200 [("success", JBool true); ("data", JObj lead)]
     end)
    (send 500 [("success", JBool false);
               ("message", JStr "Failed to fetch lead")]).

(** The object [leadData] of [createLead]. *)
Definition leadData (env : Env) (leadId : string) (req : Req) (user : obj)
  : obj :=
  let body := req_body req in
  [("id", JStr leadId);
   ("title", get body "title");
   ("description", or_else (get body "description") JNull);
   ("customerId", get body "customerId");
   ("status", or_else (get body "status") (JStr "new"));
   ("value", or_else (get body "value") (JNum 0));
   ("expectedCloseDate", or_else (get body "expectedCloseDate") JNull);
   ("priority", or_else (get body "priority") (JStr "medium"));
   ("source", or_else (get body "source") JNull);
   ("ownerId", get user "id");
   ("teamId", get user "teamId");
   ("assignedTo", or_else (get body "assignedTo") (get user "id"));
   ("createdBy", get user "id");
   ("updatedBy", get user "id");
   ("createdAt", JNum (now env));
   ("updatedAt", JNum (now env))].

(** [createLead]; [leadId] is the identifier drawn for the lead.  The
    response carries the lead read back, [undefined] were it not found. *)
Definition createLead (env : Env) (leadId : string) (req : Req)
  : Handler unit :=
  try_catch
    (match req_errors req with
     | _ :: _ =>
         send 400 [("success", JBool false);
                   ("message", JStr "Validation errors");
                   ("errors", JArr (req_errors req))]
     | [] =>
         match req_user req with
         | None => throw
         | Some user =>
             let leadData := leadData env leadId req user in
             insert leads_accept with_leads (row_of leads_columns leadData);;
             Logger.auditRecordChange env "create" "lead" (JStr leadId)
               None (Some leadData) (get user "id") (Some req);;
             let* lead := query (lead_with_names (JStr leadId)) in
             send 201 [("success", JBool true);
                       ("message", JStr "Lead created successfully");
                       ("data", match lead with
                                | Some l => JObj l | None => JUndefined end)]
         end
     end)
    (send 500 [("success", JBool false);
               ("message", JStr "Failed to create lead")]).

(** The columns written by the UPDATE statement of [updateLead]. *)
Definition updated_columns : list string :=
  ["title"; "description"; "status"; "value"; "expectedCloseDate"; "priority";
   "source"; "assignedTo"; "updatedBy"; "updatedAt"].

(** The object [updateData] of [updateLead]. *)
Definition updateData (env : Env) (req : Req) (existingLead user : obj) : obj :=
  let body := req_body req in
  let keep k := or_else (get body k) (get existingLead k) in
  let defined k :=
    if negb (strict_eq (get body k) JUndefined)
    then get body k else get existingLead k in
  [("title", keep "title");
   ("description", defined "description");
   ("status", keep "status");
   ("value", defined "value");
   ("expectedCloseDate", defined "expectedCloseDate");
   ("priority", keep "priority");
   ("source", keep "source");
   ("assignedTo", keep "assignedTo");
   ("updatedBy", get user "id");
   ("updatedAt", JNum (now env))].

Definition updateLead (env : Env) (req : Req) : Handler unit :=
  try_catch
    (let id := req_params_id req in
     match req_errors req with
     | _ :: _ =>
         send 400 [("success", JBool false);
                   ("message", JStr "Validation errors");
                   ("errors", JArr (req_errors req))]
     | [] =>
         let* existingLead := query (fun db => select_first (by_id id) (leads db)) in
         match existingLead with
         | None =>
             send 404 [("success", JBool false);
                       ("message", JStr "Lead not found")]
         | Some existingLead =>
             match req_user req with
             | None => throw
             | Some user =>
                 let updateData := updateData env req existingLead user in
                 update_leads (by_id id)
                   (assign (map (fun c => (c, bound (get updateData c)))
                                updated_columns));;
                 Logger.auditRecordChange env "update" "lead" id
                   (Some existingLead) (Some updateData) (get user "id")
                   (Some req);;
                 let* lead := query (lead_with_names id) in
                 send 200 [("success", JBool true);
                           ("message", JStr "Lead updated successfully");
                           ("data", match lead with
                                    | Some l => JObj l | None => JUndefined end)]
             end
         end
     end)
    (send 500 [("success", JBool false);
               ("message", JStr "Failed to update lead")]).

Definition deleteLead (env : Env) (req : Req) : Handler unit :=
  try_catch
    (let id := req_params_id req in
     let* existingLead := query (fun db => select_first (by_id id) (leads db)) in
     match existingLead with
     | None =>
         send 404 [("success", JBool false); ("message", JStr "Lead not found")]
     | Some existingLead =>
         run (with_leads (delete_where (by_id id)));;
         match req_user req with
         | None => throw
         | Some user =>
             Logger.auditRecordChange env "delete" "lead" id
               (Some existingLead) None (get user "id") (Some req);;
             send 200 [("success", JBool true);
                       ("message", JStr "Lead deleted successfully")]
         end
     end)
    (send 500 [("success", JBool false);
               ("message", JStr "Failed to delete lead")]).

End LeadHandlers.

End LeadController.

(** ** routes/customers.js and routes/leads.js *)

Module Routes.

(** The table that [requireRecordAccess] reads for customers and leads. *)
Definition table_of (resourceType : string) (db : Db) : list obj :=
  if String.eqb resourceType "customer" then customers db else leads db.

Section Routes.
Context `{libs : Libs} `{errors : JwtErrors} `{engine : Builtins.Engine}
        `{validator : Validator} (config : Config).
Local Open Scope handler_scope.

(** A validation chain as a middleware of a route: it answers nothing,
    it leaves the sanitized body and its errors on the request. *)
Definition validated (chain : obj -> obj * list jsval) (req : Req) : Req :=
  mkReq (req_user req) (req_params_id req) (fst (chain (req_body req)))
        (req_query req) (req_ip req) (req_userAgent req)
        (snd (chain (req_body req))) (req_dataFilter req) (req_record req).

(** [router.use(authenticate)] followed by the permission check of the
    route. *)
Definition guarded (resource permission : string) (env : Env)
    (authorization : jsval) (req : Req) : Handler Req :=
  let* req := AuthMiddleware.authenticate config env authorization req in
  Rbac.requirePermission resource permission req.

(** What stands before the controller of a route on one record:
    [authenticate], [requirePermission] and [requireRecordAccess]. *)
Definition record_guard (resource permission rt : string) (env : Env)
    (authorization : jsval) (req : Req) : Handler Req :=
  bind (guarded resource permission env authorization req)
       (Rbac.requireRecordAccess rt).

(** A request that the three middlewares let through to the record it
    names: its token loads a principal, the matrix grants the principal
    [permission] on [resource], the row exists and [canAccessRecord]
    accepts the principal on it. *)
Definition authorized (resource permission rt : string) (env : Env)
    (authorization : jsval) (req : Req) (db : Db) : Prop :=
  exists req1 u row,
    AuthMiddleware.authenticate config env authorization req db = (Next req1, db) /\
    req_user req1 = Some u /\
    Rbac.hasPermission (Some u) resource permission = Returned true /\
    select_first (by_id (req_params_id req)) (table_of rt db) = Some row /\
    Rbac.canAccessRecord (Some u)
      (Some (project [("ownerId", "ownerId"); ("teamId", "teamId");
                      ("assignedTo", "assignedTo")] row)) = true.

(** [GET /customers]: the statements' WHERE clause and parameters. *)
Definition customers_list (env : Env) (authorization : jsval) (req : Req)
  : Handler (string * list jsval) :=
  let* req := guarded "customers" "read" env authorization req in
  let* req := Rbac.applyDataFilter req in
  ret (CustomerController.getCustomers_where req).

(** [GET /customers/:id] *)
Definition customers_get (env : Env) (authorization : jsval) (req : Req)
  : Handler unit :=
  let* req := record_guard "customers" "read" "customer" env authorization req in
  CustomerController.getCustomerById req.

(** [POST /customers] *)
Definition customers_post (env : Env) (customerId : string)
    (authorization : jsval) (req : Req) : Handler unit :=
  let* req := guarded "customers" "create" env authorization req in
  CustomerController.createCustomer env customerId
    (validated customerValidation req).

(** [PUT /customers/:id] *)
Definition customers_put (env : Env) (authorization : jsval) (req : Req)
  : Handler unit :=
  let* req := record_guard "customers" "update" "customer" env authorization req in
  CustomerController.updateCustomer env (validated customerValidation req).

(** [DELETE /customers/:id] *)
Definition customers_delete (env : Env) (authorization : jsval) (req : Req)
  : Handler unit :=
  let* req := record_guard "customers" "delete" "customer" env authorization req in
  CustomerController.deleteCustomer env req.

(** [GET /leads]: the statements' WHERE clause and parameters. *)
Definition leads_list (env : Env) (authorization : jsval) (req : Req)
  : Handler (string * list jsval) :=
  let* req := guarded "leads" "read" env authorization req in
  let* req := Rbac.applyDataFilter req in
  ret (LeadController.getLeads_where req).

(** [GET /leads/:id] *)
Definition leads_get (env : Env) (authorization : jsval) (req : Req)
  : Handler unit :=
  let* req := record_guard "leads" "read" "lead" env authorization req in
  LeadController.getLeadById req.

(** [POST /leads] *)
Definition leads_post (env : Env) (leadId : string) (authorization : jsval)
    (req : Req) : Handler unit :=
  let* req := guarded "leads" "create" env authorization req in
  LeadController.createLead env leadId (validated leadValidation req).

(** [PUT /leads/:id] *)
Definition leads_put (env : Env) (authorization : jsval) (req : Req)
  : Handler unit :=
  let* req := record_guard "leads" "update" "lead" env authorization req in
  LeadController.updateLead env (validated leadValidation req).

(** [DELETE /leads/:id] *)
Definition leads_delete (env : Env) (authorization : jsval) (req : Req)
  : Handler unit :=
  let* req := record_guard "leads" "delete" "lead" env authorization req in
  LeadController.deleteLead env req.

End Routes.
End Routes.

(** ** src/utils/permissions.ts: the client's copy of the access rules *)

Module Client.

Definition canAccessRecord (user : option obj) (record : obj) : bool :=
  match user with
  | None => false
  | Some u =>
      if strict_eq (get u "role") (JStr "admin") then true
      else if strict_eq (get u "role") (JStr "manager")
              && strict_eq (get record "teamId") (get u "teamId") then true
      else if strict_eq (get record "ownerId") (get u "id") then true
      else if strict_eq (get record "assignedTo") (get u "id") then true
      else false
  end.

Definition canModifyRecord (user : option obj) (record : obj) : bool :=
  match user with
  | None => false
  | Some u =>
      if strict_eq (get u "role") (JStr "admin") then true
      else if strict_eq (get u "role") (JStr "manager")
              && strict_eq (get record "teamId") (get u "teamId") then true
      else if strict_eq (get record "ownerId") (get u "id") then true
      else false
  end.

Definition getFilteredQuery (user : option obj) : obj :=
  match user with
  | None => []
  | Some u =>
      if strict_eq (get u "role") (JStr "admin") then []
      else if strict_eq (get u "role") (JStr "manager")
      then [("teamId", or_else (get u "teamId") (JStr EmptyString))]
      else [("ownerId", get u "id")]
  end.

Definition canManageUser (currentUser : option obj) (targetUser : obj) : bool :=
  match currentUser with
  | None => false
  | Some u =>
      if strict_eq (get u "role") (JStr "admin") then true
      else if strict_eq (get u "role") (JStr "manager")
              && strict_eq (get targetUser "role") (JStr "sales_rep")
              && strict_eq (get targetUser "teamId") (get u "teamId") then true
      else false
  end.

End Client.

(** ** A concrete store and library instance (after utils/seed.js) *)

Module Demo.

Definition user (id name email password role : string) (teamId : jsval) : obj :=
  [("id", JStr id); ("name", JStr name); ("email", JStr email);
   ("password", JStr ("$2a$" +:+ password)); ("role", JStr role);
   ("teamId", teamId); ("department", JStr "Sales"); ("phone", JNull);
   ("isActive", JNum 1); ("loginAttempts", JNum 0); ("lockUntil", JNull);
   ("createdBy", JNull); ("updatedBy", JNull);
   ("createdAt", JNum 1704067200000); ("updatedAt", JNum 1704067200000);
   ("lastLoginAt", JNull)].

Definition admin : obj :=
  user "1" "Admin User" "admin@crm.com" "admin123" "admin" (JStr "team-1").
Definition john : obj :=
  user "2" "John Doe" "john@crm.com" "user123" "sales_rep" (JStr "team-1").
Definition sarah : obj :=
  user "3" "Sarah Wilson" "sarah@crm.com" "manager123" "manager" (JStr "team-1").
Definition mike : obj :=
  user "4" "Mike Johnson" "mike@crm.com" "sales123" "sales_rep" (JStr "team-2").
(** A manager who has not been put in a team ([users.teamId] is nullable). *)
Definition nora : obj :=
  user "6" "Nora Lind" "nora@crm.com" "manager456" "manager" JNull.

Definition team (id name : string) (managerId : jsval) : obj :=
  [("id", JStr id); ("name", JStr name); ("description", JNull);
   ("managerId", managerId); ("department", JStr "Sales"); ("isActive", JNum 1);
   ("createdBy", JNull); ("updatedBy", JNull);
   ("createdAt", JNum 1704067200000); ("updatedAt", JNum 1704067200000)].

Definition customer (id name status ownerId teamId assignedTo : string) : obj :=
  [("id", JStr id); ("name", JStr name); ("email", JNull); ("phone", JNull);
   ("company", JStr name); ("status", JStr status); ("tags", JNull);
   ("notes", JStr "Important client"); ("lastContactDate", JNum 1705276800000);
   ("ownerId", JStr ownerId); ("teamId", JStr teamId);
   ("assignedTo", JStr assignedTo); ("source", JStr "website");
   ("value", JNum 150000); ("industry", JStr "Technology");
   ("createdBy", JStr ownerId); ("updatedBy", JStr ownerId);
   ("createdAt", JNum 1704067200000); ("updatedAt", JNum 1704067200000)].

Definition acme : obj := customer "1" "Acme Corporation" "active" "2" "team-1" "2".
Definition techstart : obj := customer "2" "TechStart Inc" "active" "3" "team-1" "3".
Definition global : obj := customer "3" "Global Solutions" "prospect" "4" "team-2" "4".

Definition lead (id title customerId ownerId teamId : string) : obj :=
  [("id", JStr id); ("title", JStr title); ("description", JNull);
   ("customerId", JStr customerId); ("status", JStr "qualified");
   ("value", JNum 150000); ("expectedCloseDate", JNull);
   ("priority", JStr "high"); ("source", JStr "website");
   ("ownerId", JStr ownerId); ("teamId", JStr teamId);
   ("assignedTo", JStr ownerId); ("createdBy", JStr ownerId);
   ("updatedBy", JStr ownerId);
   ("createdAt", JNum 1704067200000); ("updatedAt", JNum 1704067200000)].

Definition db : Db :=
  initialize
    (mkDb false [admin; john; sarah; mike; nora]
       [team "team-1" "Sales Team Alpha" (JStr "3");
        team "team-2" "Sales Team Beta" JNull]
       [acme; techstart; global]
       [lead "1" "Enterprise Software License" "1" "2" "team-1";
        lead "2" "Support Contract" "1" "2" "team-1";
        lead "3" "Cloud Migration Project" "2" "3" "team-1"]
       [] []).

(** An idealised library instance.  A password hash is the password behind
    a fixed prefix.  A token is its subject, the signing secret and the
    issue time in seconds (jsonwebtoken stamps [iat] in whole seconds and
    signs deterministically); verification recognises John's refresh token
    of second 1704067260 during its seven days. *)
Definition sign (payload : obj) (secret expiresIn : string) (now : Z) : string :=
  to_string (get payload "userId") +:+ "." +:+ secret +:+ "." +:+ pretty (now / 1000)%Z.

Definition johns_token : string := "2.fallback-refresh-secret.1704067260".

Definition verify (token : jsval) (secret : string) (now : Z) : option obj :=
  if strict_eq token (JStr johns_token)
     && String.eqb secret "fallback-refresh-secret"
     && (now / 1000 <? 1704067260 + 7 * 24 * 60 * 60)%Z
  then Some [("userId", JStr "2"); ("email", JStr "john@crm.com");
             ("role", JStr "sales_rep"); ("iat", JNum 1704067260);
             ("exp", JNum (1704067260 + 7 * 24 * 60 * 60))]
  else None.

(** The JSON text of a value, for texts that need no escape: a property
    whose value is [undefined] is left out, as [JSON.stringify] does. *)
Fixpoint json_text (v : jsval) : string :=
  match v with
  | JUndefined | JNull => "null"
  | JBool true => "true"
  | JBool false => "false"
  | JNum n => pretty n
  | JStr s => Logger.quoted s
  | JArr items => "[" +:+ String.concat "," (map json_text items) +:+ "]"
  | JObj fields =>
      "{" +:+ String.concat ","
                (flat_map (fun kv =>
                   match kv with
                   | (_, JUndefined) => []
                   | (k, x) => [Logger.quoted k +:+ ":" +:+ json_text x]
                   end) fields)
          +:+ "}"
  end.

#[local] Instance libs : Libs := {|
  bcrypt_compare s hash := String.eqb ("$2a$" +:+ s) hash;
  jwt_sign := sign;
  jwt_verify := verify;
  JSON_stringify := json_text;
  JSON_parse v := Some v;
|}.

(** The access columns of a customer of team-2 that Mike assigned to Sarah,
    the manager of team-1. *)
Definition assigned_across_teams : obj :=
  [("ownerId", JStr "4"); ("teamId", JStr "team-2"); ("assignedTo", JStr "3")].

Definition request (user : option obj) (id : jsval) (body : obj) : Req :=
  mkReq user id body [] (JStr "127.0.0.1") (JStr "okhttp/4.9.2") [] None None.

(** [GET /customers?...] by [user]. *)
Definition list_request (user : obj) (q : obj) : Req :=
  mkReq (Some user) JUndefined [] q (JStr "127.0.0.1") (JStr "okhttp/4.9.2")
        [] None None.

(** John signs in, then presents the refresh token he was given twice,
    all within second 1704067260. *)
Definition login_at : Env := mkEnv 1704067260500 "tok-1" "act-1".
Definition refresh_1 : Env := mkEnv 1704067260700 "tok-2" "act-2".
Definition refresh_2 : Env := mkEnv 1704067260900 "tok-3" "act-3".

Definition login_request (email password : string) : Req :=
  request None JUndefined [("email", JStr email); ("password", JStr password)].

Definition refresh_request (token : string) : Req :=
  request None JUndefined [("refreshToken", JStr token)].

(** *** More of the idealised libraries: hashing, access tokens *)

#[local] Instance hashing : Hashing := {|
  bcrypt_hash s rounds salt := "$2a$" +:+ s;
|}.

(** Access tokens the idealised [verify] knows: the bearer's id, the text
    and the second of issue; an access token lives fifteen minutes. *)
Definition access_tokens : list (string * string * Z) :=
  [("1", "1.fallback-secret-key-change-in-production.1704067260", 1704067260);
   ("2", "2.fallback-secret-key-change-in-production.1704067260", 1704067260);
   ("3", "3.fallback-secret-key-change-in-production.1704067260", 1704067260);
   ("4", "4.fallback-secret-key-change-in-production.1704067260", 1704067260);
   ("9", "9.fallback-secret-key-change-in-production.1704067260", 1704067260)].

Definition known_access (token : jsval) : option (string * string * Z) :=
  List.find (fun t => strict_eq token (JStr (snd (fst t)))) access_tokens.

Definition verify_access (token : jsval) (secret : string) (now : Z)
  : option obj :=
  if String.eqb secret "fallback-secret-key-change-in-production" then
    match known_access token with
    | Some (uid, _, iat) =>
        if (now / 1000 <? iat + 15 * 60)%Z
        then Some [("userId", JStr uid); ("iat", JNum iat);
                   ("exp", JNum (iat + 15 * 60))]
        else None
    | None => None
    end
  else verify token secret now.

#[local] Instance libs_access : Libs := {|
  bcrypt_compare s hash := String.eqb ("$2a$" +:+ s) hash;
  jwt_sign := sign;
  jwt_verify := verify_access;
  JSON_stringify := json_text;
  JSON_parse v := Some v;
|}.

(** The other properties of the built-in functions, after V8: the methods
    of [Function.prototype] and of [Object.prototype], [__proto__] and,
    on [Object], [prototype] and the static methods are objects; reading
    [caller] or [arguments] raises; nothing else is there. *)
#[local] Instance engine : Builtins.Engine := {|
  Builtins.builtin_property f k :=
    if existsb (String.eqb k) ["caller"; "arguments"] then Raised
    else if existsb (String.eqb k)
              ["apply"; "bind"; "call"; "constructor"; "toString";
               "hasOwnProperty"; "isPrototypeOf"; "propertyIsEnumerable";
               "toLocaleString"; "valueOf"; "__defineGetter__";
               "__defineSetter__"; "__lookupGetter__"; "__lookupSetter__";
               "__proto__"]
    then Returned Builtins.Other
    else
      match f with
      | Builtins.F_Object =>
          if existsb (String.eqb k)
               ["prototype"; "assign"; "create"; "defineProperties";
                "defineProperty"; "entries"; "freeze"; "fromEntries";
                "getOwnPropertyDescriptor"; "getOwnPropertyDescriptors";
                "getOwnPropertyNames"; "getOwnPropertySymbols";
                "getPrototypeOf"; "hasOwn"; "is"; "isExtensible"; "isFrozen";
                "isSealed"; "keys"; "preventExtensions"; "seal";
                "setPrototypeOf"; "values"]
          then Returned Builtins.Other
          else Returned Builtins.Undefined
      | _ => Returned Builtins.Undefined
      end;
|}.

(** The validation chains, idealised: the required fields and the lists
    of [isIn] are checked, nothing is sanitized. *)
Definition invalid (field message : string) (value : jsval) : jsval :=
  JObj [("value", value); ("msg", JStr message); ("param", JStr field);
        ("location", JStr "body")].

Definition required (field message : string) (body : obj) : list jsval :=
  match get body field with
  | JUndefined | JNull | JStr EmptyString => [invalid field message (get body field)]
  | _ => []
  end.

Definition listed (field : string) (allowed : list string) (message : string)
    (body : obj) : list jsval :=
  match get body field with
  | JUndefined => []
  | JStr s => if existsb (String.eqb s) allowed then []
              else [invalid field message (JStr s)]
  | v => [invalid field message v]
  end.

#[local] Instance validator : Validator := {|
  customerValidation body :=
    (body,
     (required "name" "Name is required" body
      ++ listed "status" ["active"; "inactive"; "prospect"] "Invalid status"
           body)%list);
  leadValidation body :=
    (body,
     (required "title" "Title is required" body
      ++ required "customerId" "Customer ID is required" body
      ++ listed "status" ["new"; "qualified"; "proposal"; "negotiation";
                          "closed_won"; "closed_lost"] "Invalid status" body
      ++ listed "priority" ["low"; "medium"; "high"; "critical"]
           "Invalid priority" body)%list);
|}.

#[local] Instance errors : JwtErrors := {|
  jwt_error_name token secret now :=
    match known_access token with
    | Some _ => "TokenExpiredError"
    | None => "JsonWebTokenError"
    end;
|}.

(** The Authorization header of a demo user at second 1704067260. *)
Definition bearer_of (uid : string) : jsval :=
  JStr ("Bearer " +:+ uid +:+ ".fallback-secret-key-change-in-production.1704067260").

(** A request as it arrives, before any middleware. *)
Definition incoming (id : jsval) (body q : obj) : Req :=
  mkReq None id body q (JStr "127.0.0.1") (JStr "okhttp/4.9.2") [] None None.

Definition at_ (t : Z) : Env := mkEnv t "tok-x" "act-x".

(** A stored user as [authenticate] loads it, and a request it has let
    through for that user. *)
Definition principal (row : obj) : obj :=
  project [("id", "id"); ("name", "name"); ("email", "email");
           ("role", "role"); ("teamId", "teamId");
           ("department", "department"); ("phone", "phone");
           ("isActive", "isActive")] row.

Definition authenticated (row : obj) (req : Req) : Req :=
  AuthMiddleware.with_user req (Some (principal row)).

(** The store after Mike's account has been deactivated. *)
Definition retired : Db :=
  with_users (update_where (by_id (JStr "4")) (assign [("isActive", JNum 0)])) db.

(** The store after John has signed in at [login_at]: it holds the
    refresh token he was given, [johns_token]. *)
Definition signed_in : Db :=
  snd (AuthController.login Config.defaults login_at
         (login_request "john@crm.com" "user123") db).

(** The store when John has failed five times and his lock, set to end at
    1704060000000, has run out. *)
Definition relapsed : Db :=
  with_users (update_where (by_id (JStr "2"))
                (assign [("loginAttempts", JNum 5);
                         ("lockUntil", JNum 1704060000000)])) db.

End Demo.

(** * Properties *)

(** Running a handler one step: the monad's operations are unfolded and
    the control flow on constructors is reduced, the store operations and
    the predicates of the backend stay folded. *)
Ltac step_handler :=
  unfold try_catch, bind, query, send, ret, run, throw;
  cbn [negb String.eqb Ascii.eqb Bool.eqb fmap option_fmap option_map
       fst snd andb orb].

(** ** Objects and tables *)

Section Objects.

Lemma get_set_eq (o : obj) (k : string) (v : jsval) : get (set o k v) k = v.
Proof.
  induction o as [|[k' v'] o IH]; simpl.
  - now rewrite String.eqb_refl.
  - destruct (String.eqb k' k) eqn:E; simpl; now rewrite E.
Qed.

Lemma get_set_ne (o : obj) (k k' : string) (v : jsval) :
  k <> k' -> get (set o k v) k' = get o k'.
Proof.
  intros Hne. induction o as [|[k0 v0] o IH]; simpl.
  - destruct (String.eqb k k') eqn:E; [apply String.eqb_eq in E; contradiction | reflexivity].
  - destruct (String.eqb k0 k) eqn:E; simpl.
    + apply String.eqb_eq in E. subst k0.
      destruct (String.eqb k k') eqn:E'; [apply String.eqb_eq in E'; contradiction | reflexivity].
    + destruct (String.eqb k0 k'); [reflexivity | exact IH].
Qed.

(** A SET list leaves every column it does not name. *)
Lemma get_assign_other (sets : list (string * jsval)) (row : obj) (k : string) :
  ~ In k (map fst sets) -> get (assign sets row) k = get row k.
Proof.
  unfold assign. revert row.
  induction sets as [|[c v] sets IH]; intros row Hk; simpl in *.
  - reflexivity.
  - rewrite IH by tauto. apply get_set_ne. tauto.
Qed.

Lemma strict_eq_str (v : jsval) (s : string) :
  strict_eq v (JStr s) = true <-> v = JStr s.
Proof.
  destruct v; simpl; try (split; [discriminate | discriminate]).
  rewrite String.eqb_eq. split; congruence.
Qed.

End Objects.

(** ** The permission matrix *)

Section PermissionMatrix.
Context `{engine : Builtins.Engine}.

Lemma includes_In (l : list string) (x : string) :
  Rbac.includes l x = true <-> In x l.
Proof.
  unfold Rbac.includes. rewrite existsb_exists. split.
  - intros (y & Hy & E). apply String.eqb_eq in E. now subst.
  - intros Hx. exists x. split; [exact Hx | apply String.eqb_refl].
Qed.

Lemma role_entry_unknown (r : string) :
  r <> "admin" -> r <> "manager" -> r <> "sales_rep" ->
  Rbac.ROLE_PERMISSIONS !! r = None.
Proof.
  intros Ha Hm Hs. unfold Rbac.ROLE_PERMISSIONS.
  rewrite !lookup_insert_ne by congruence.
  apply lookup_singleton_ne. congruence.
Qed.

(** A role that names a row of the matrix is one of the three. *)
Lemma role_entry_known (r : string) (rp : gmap string (list string)) :
  Rbac.ROLE_PERMISSIONS !! r = Some rp ->
  r = "admin" \/ r = "manager" \/ r = "sales_rep".
Proof.
  intros Hr.
  destruct (decide (r = "admin")); [tauto|].
  destruct (decide (r = "manager")); [tauto|].
  destruct (decide (r = "sales_rep")); [tauto|].
  rewrite role_entry_unknown in Hr by assumption. discriminate.
Qed.

(** A value whose property name is a row of the matrix is truthy. *)
Lemma role_entry_truthy (role : jsval) (rp : gmap string (list string)) :
  Rbac.ROLE_PERMISSIONS !! to_string role = Some rp -> truthy role = true.
Proof.
  destruct role as [| |[|]|n|r| |]; simpl;
    try reflexivity;
    try (rewrite role_entry_unknown by discriminate; discriminate).
  - destruct (n =? 0)%Z eqn:E; [|reflexivity].
    apply Z.eqb_eq in E. subst n.
    rewrite role_entry_unknown by (vm_compute; discriminate). discriminate.
  - destruct (String.eqb r EmptyString) eqn:E; [|reflexivity].
    apply String.eqb_eq in E. subst r.
    rewrite role_entry_unknown by discriminate. discriminate.
Qed.

(** What [Object.prototype] gives is [undefined], [Object.prototype]
    itself or a function. *)
Lemma inherited_cases (k : string) :
  Rbac.inherited k = Builtins.Undefined \/
  Rbac.inherited k = Builtins.ObjectPrototype \/
  exists f, Rbac.inherited k = Builtins.Function_ f.
Proof.
  unfold Rbac.inherited. destruct (String.eqb k "__proto__"); [tauto|].
  destruct (Builtins.object_prototype_function k) as [f|]; eauto.
Qed.

(** The verdict for a role of the matrix: the entry of the resource where
    the role lists it; for a resource it does not list, [false], unless
    the resource names a property of [Object.prototype], on which
    [includes] is not a function. *)
Lemma hasPermission_listed_role (u : obj) (rp : gmap string (list string))
    (s a : string) :
  Rbac.ROLE_PERMISSIONS !! to_string (get u "role") = Some rp ->
  Rbac.hasPermission (Some u) s a =
    match rp !! s with
    | Some acts => Returned (Rbac.includes acts a)
    | None =>
        if Builtins.truthy_held (Rbac.inherited s) then Raised
        else Returned false
    end.
Proof.
  intros Hr. unfold Rbac.hasPermission, Rbac.role_entry.
  rewrite (role_entry_truthy _ _ Hr), Hr. simpl.
  destruct (rp !! s) as [acts|]; [reflexivity|].
  destruct (inherited_cases s) as [-> | [-> | [f ->]]]; reflexivity.
Qed.

(** Away from the names of [Object.prototype], [hasPermission] is
    membership in the matrix entry of the role and the resource, and
    [false] where the matrix has no entry. *)
Lemma hasPermission_matrix_lookup (u : obj) (s a : string) :
  Rbac.inherited (to_string (get u "role")) = Builtins.Undefined ->
  Rbac.inherited s = Builtins.Undefined ->
  Rbac.hasPermission (Some u) s a =
    Returned match Rbac.ROLE_PERMISSIONS !! to_string (get u "role") with
             | Some rp => match rp !! s with
                          | Some acts => Rbac.includes acts a
                          | None => false
                          end
             | None => false
             end.
Proof.
  intros Hrole Hs.
  destruct (Rbac.ROLE_PERMISSIONS !! to_string (get u "role")) as [rp|] eqn:Hr.
  - rewrite (hasPermission_listed_role u rp s a Hr), Hs.
    now destruct (rp !! s).
  - unfold Rbac.hasPermission, Rbac.role_entry. rewrite Hr, Hrole. simpl.
    now destruct (negb (truthy (get u "role"))).
Qed.

(** C8.  [hasPermission] is not a lookup in the matrix alone, and it does
    not fail closed: [constructor] is not a role of the matrix, yet a
    principal with that role is granted [Object] on [name]
    ([ROLE_PERMISSIONS.constructor] is the function [Object], whose [name]
    is the string ["Object"], and [includes] on a string tests for
    occurrence); and the admin's row does not list [constructor], yet the
    check of an admin on [constructor] is not answered [false] but raises
    ([includes] is not a function of [Object]). *)
Theorem hasPermission_not_fail_closed :
  Rbac.ROLE_PERMISSIONS !! "constructor" = None /\
  Rbac.hasPermission (Some [("role", JStr "constructor")]) "name" "Object"
    = Returned true /\
  (exists rp, Rbac.ROLE_PERMISSIONS !! "admin" = Some rp /\
              rp !! "constructor" = None) /\
  Rbac.hasPermission (Some [("role", JStr "admin")]) "constructor" "read"
    = Raised.
Proof.
  split; [now apply role_entry_unknown|]. split; [reflexivity|].
  split; [|reflexivity].
  eexists. split; [reflexivity|]. reflexivity.
Qed.

(** The matrix read at every role and resource: what a sales rep lacks
    with respect to a manager, and a manager with respect to an admin. *)
Lemma matrix_exhaustive :
  let roles := ["admin"; "manager"; "sales_rep"] in
  let resources := ["customers"; "leads"; "users"; "teams"; "activities"; "reports"] in
  let actions := ["create"; "read"; "update"; "delete"; "export"] in
  let granted role :=
    flat_map (fun s => flat_map (fun a =>
      match Rbac.hasPermission (Some [("role", JStr role)]) s a with
      | Returned true => [(s, a)]
      | _ => []
      end) actions) resources in
  length (granted "admin") = 22%nat /\ length (granted "manager") = 17%nat /\
  length (granted "sales_rep") = 12%nat /\
  Rbac.hasPermission (Some [("role", JStr "sales_rep")]) "customers" "delete"
    = Returned false /\
  Rbac.hasPermission (Some [("role", JStr "manager")]) "users" "update"
    = Returned false /\
  Rbac.hasPermission (Some [("role", JStr "admin")]) "reports" "delete"
    = Returned false.
Proof. vm_compute. repeat split. Qed.

End PermissionMatrix.

(** ** Record scoping *)

Section RecordScoping.

(** C1, as the code has it.  For a manager the access predicate is the
    team test or the ownership test or the assignment test: a matching
    team grants access, and so does owning the record or being assigned to
    it whatever its team. *)
Theorem canAccessRecord_manager (m r : obj) :
  get m "role" = JStr "manager" ->
  Rbac.canAccessRecord (Some m) (Some r) =
    strict_eq (get r "teamId") (get m "teamId")
    || strict_eq (get r "ownerId") (get m "id")
    || strict_eq (get r "assignedTo") (get m "id").
Proof.
  intros Hrole. unfold Rbac.canAccessRecord. rewrite Hrole. simpl.
  destruct (strict_eq (get r "teamId") (get m "teamId")); simpl; [reflexivity|].
  destruct (strict_eq (get r "ownerId") (get m "id")); simpl; [reflexivity|].
  destruct (strict_eq (get r "assignedTo") (get m "id")); reflexivity.
Qed.

Lemma canAccessRecord_manager_witness :
  get Demo.sarah "role" = JStr "manager" /\
  Rbac.canAccessRecord (Some Demo.sarah) (Some Demo.assigned_across_teams) =
    strict_eq (get Demo.assigned_across_teams "teamId") (get Demo.sarah "teamId")
    || strict_eq (get Demo.assigned_across_teams "ownerId") (get Demo.sarah "id")
    || strict_eq (get Demo.assigned_across_teams "assignedTo") (get Demo.sarah "id").
Proof.
  split; [reflexivity|].
  apply (canAccessRecord_manager Demo.sarah Demo.assigned_across_teams).
  reflexivity.
Defined.

(** C1 as stated fails: Sarah manages team-1 and reaches a record of
    team-2 that is assigned to her. *)
Lemma canAccessRecord_manager_beyond_team :
  get Demo.sarah "role" = JStr "manager" /\
  ~ (Rbac.canAccessRecord (Some Demo.sarah) (Some Demo.assigned_across_teams) = true <->
     strict_eq (get Demo.assigned_across_teams "teamId") (get Demo.sarah "teamId") = true).
Proof.
  split; [reflexivity|].
  intros [Hacc _]. specialize (Hacc eq_refl). discriminate Hacc.
Qed.

(** The filter object per role. *)
Lemma getDataFilter_by_role (u : obj) :
  (get u "role" = JStr "admin" -> Rbac.getDataFilter (Some u) = Some []) /\
  (get u "role" = JStr "manager" ->
   Rbac.getDataFilter (Some u) = Some [("teamId", get u "teamId")]) /\
  (get u "role" = JStr "sales_rep" ->
   Rbac.getDataFilter (Some u) = Some [("ownerId", get u "id")]).
Proof.
  unfold Rbac.getDataFilter. repeat split; intros ->; reflexivity.
Qed.

(** [{}]: the caller's conditions alone. *)
Lemma buildWhereClause_unfiltered (base : string) (params : list jsval)
    (alias : string) :
  Rbac.buildWhereClause base [] params alias =
    (if truthy (JStr base) then "WHERE " +:+ base else EmptyString, params).
Proof.
  unfold Rbac.buildWhereClause. simpl.
  destruct (negb (String.eqb base EmptyString)); reflexivity.
Qed.

(** [{ teamId }] with a team: the caller's conditions AND the team test. *)
Lemma buildWhereClause_team (base : string) (t : jsval) (params : list jsval)
    (alias : string) :
  truthy t = true ->
  Rbac.buildWhereClause base [("teamId", t)] params alias =
    (if truthy (JStr base)
     then "WHERE " +:+ base +:+ " AND " +:+ alias +:+ ".teamId = ?"
     else "WHERE " +:+ alias +:+ ".teamId = ?",
     (params ++ [t])%list).
Proof.
  intros Ht. unfold Rbac.buildWhereClause. simpl. rewrite Ht.
  destruct (negb (String.eqb base EmptyString)); reflexivity.
Qed.

(** [{ ownerId }]: the caller's conditions AND the ownership test. *)
Lemma buildWhereClause_owner (base : string) (o : jsval) (params : list jsval)
    (alias : string) :
  truthy o = true ->
  Rbac.buildWhereClause base [("ownerId", o)] params alias =
    (if truthy (JStr base)
     then "WHERE " +:+ base +:+ " AND " +:+ alias +:+ ".ownerId = ?"
     else "WHERE " +:+ alias +:+ ".ownerId = ?",
     (params ++ [o])%list).
Proof.
  intros Ho. unfold Rbac.buildWhereClause. simpl. rewrite Ho.
  destruct (negb (String.eqb base EmptyString)); reflexivity.
Qed.

(** [{ teamId }] without a team: the team test is dropped and the clause
    is the one of an admin. *)
Lemma buildWhereClause_team_missing (base : string) (t : jsval)
    (params : list jsval) (alias : string) :
  truthy t = false ->
  Rbac.buildWhereClause base [("teamId", t)] params alias =
  Rbac.buildWhereClause base [] params alias.
Proof.
  intros Ht. unfold Rbac.buildWhereClause. simpl. now rewrite Ht.
Qed.

(** The list endpoint after [applyDataFilter]: the caller's conditions
    combined with the filter object of the principal. *)
Lemma getCustomers_scoped (req : Req) (db : Db) (u : obj) :
  req_user req = Some u ->
  exists req' flt,
    Rbac.applyDataFilter req db = (Next req', db) /\
    Rbac.getDataFilter (Some u) = Some flt /\
    CustomerController.getCustomers_where req' =
      Rbac.buildWhereClause (fst (CustomerController.getCustomers_base req)) flt
        (snd (CustomerController.getCustomers_base req)) "c".
Proof.
  intros Hu. unfold Rbac.applyDataFilter. rewrite Hu.
  destruct (Rbac.getDataFilter (Some u)) as [flt|] eqn:Hf.
  - eexists _, flt. split; [reflexivity|]. split; [reflexivity|].
    unfold CustomerController.getCustomers_where.
    change (CustomerController.getCustomers_base _)
      with (CustomerController.getCustomers_base req).
    destruct (CustomerController.getCustomers_base req) as [b ps]. simpl.
    reflexivity.
  - unfold Rbac.getDataFilter in Hf.
    destruct (strict_eq (get u "role") (JStr "admin")); [discriminate|].
    destruct (strict_eq (get u "role") (JStr "manager")); discriminate.
Qed.

(** C2 at a manager without a team.  Nora's filter object is
    [{ teamId: null }]; [buildWhereClause] tests the property for
    truthiness, adds no condition, and the statements of the list
    endpoints carry the caller's conditions only, as they do for an admin;
    Sarah, who has a team, gets the team test. *)
Theorem manager_without_team_lists_everything :
  (exists req',
      Rbac.applyDataFilter (Demo.list_request Demo.nora []) Demo.db
        = (Next req', Demo.db) /\
      req_dataFilter req' = Some [("teamId", JNull)] /\
      CustomerController.getCustomers_where req' = (EmptyString, []) /\
      LeadController.getLeads_where req' = (EmptyString, [])) /\
  (exists req',
      Rbac.applyDataFilter
        (Demo.list_request Demo.nora [("status", JStr "active")]) Demo.db
        = (Next req', Demo.db) /\
      CustomerController.getCustomers_where req'
        = ("WHERE status = ?", [JStr "active"])) /\
  (exists req',
      Rbac.applyDataFilter
        (Demo.list_request Demo.sarah [("status", JStr "active")]) Demo.db
        = (Next req', Demo.db) /\
      CustomerController.getCustomers_where req'
        = ("WHERE status = ? AND c.teamId = ?", [JStr "active"; JStr "team-1"])) /\
  (exists req',
      Rbac.applyDataFilter
        (Demo.list_request Demo.admin [("status", JStr "active")]) Demo.db
        = (Next req', Demo.db) /\
      CustomerController.getCustomers_where req'
        = ("WHERE status = ?", [JStr "active"])).
Proof.
  split; [|split; [|split]]; eexists; repeat split; reflexivity.
Qed.

(** C6.  On a single customer or lead the middleware answers 404 when no
    row has the requested id, whoever asks; when the row exists it answers
    403 if [canAccessRecord] is false on its access columns, and otherwise
    hands the request on with the record attached. *)
Theorem requireRecordAccess_existence_first (rt : string) (req : Req) (db : Db)
    (user : obj) :
  rt = "customer" \/ rt = "lead" ->
  req_user req = Some user ->
  truthy (req_params_id req) = true ->
  let rows := if String.eqb rt "customer" then customers db else leads db in
  let cols := [("ownerId", "ownerId"); ("teamId", "teamId");
               ("assignedTo", "assignedTo")] in
  match select_first (by_id (req_params_id req)) rows with
  | None =>
      Rbac.requireRecordAccess rt req db =
        (Sent (mkResponse 404 [("success", JBool false);
                               ("message", JStr (rt +:+ " not found"))]), db)
  | Some row =>
      if Rbac.canAccessRecord (Some user) (Some (project cols row))
      then exists req',
             Rbac.requireRecordAccess rt req db = (Next req', db) /\
             req_record req' = Some (project cols row)
      else Rbac.requireRecordAccess rt req db =
             (Sent (mkResponse 403 [("success", JBool false);
                                    ("message", JStr "Access denied to this resource")]),
              db)
  end.
Proof.
  intros Hrt Hu Hid rows cols. subst rows.
  destruct Hrt as [-> | ->]; simpl String.eqb; cbv iota.
  - destruct (select_first (by_id (req_params_id req)) (customers db))
      as [row|] eqn:Hsel;
      [destruct (Rbac.canAccessRecord (Some user) (Some (project cols row)))
         eqn:Hacc; [eexists|] |];
      unfold Rbac.requireRecordAccess; rewrite Hu, Hid; step_handler;
      rewrite Hsel; step_handler;
      try (fold cols; rewrite Hacc; step_handler);
      try split; reflexivity.
  - destruct (select_first (by_id (req_params_id req)) (leads db))
      as [row|] eqn:Hsel;
      [destruct (Rbac.canAccessRecord (Some user) (Some (project cols row)))
         eqn:Hacc; [eexists|] |];
      unfold Rbac.requireRecordAccess; rewrite Hu, Hid; step_handler;
      rewrite Hsel; step_handler;
      try (fold cols; rewrite Hacc; step_handler);
      try split; reflexivity.
Qed.

(** Mike, a sales rep of team-2, asks for customer 1, which exists and is
    John's: 403.  *)
Lemma requireRecordAccess_existence_first_witness :
  Rbac.requireRecordAccess "customer"
    (Demo.request (Some Demo.mike) (JStr "1") []) Demo.db =
    (Sent (mkResponse 403 [("success", JBool false);
                           ("message", JStr "Access denied to this resource")]),
     Demo.db).
Proof.
  exact (requireRecordAccess_existence_first "customer"
           (Demo.request (Some Demo.mike) (JStr "1") []) Demo.db Demo.mike
           (or_introl eq_refl) eq_refl eq_refl).
Defined.

(** The same principal on an id that no customer carries: 404. *)
Lemma requireRecordAccess_missing_row :
  response (Rbac.requireRecordAccess "customer"
              (Demo.request (Some Demo.mike) (JStr "99") []) Demo.db) =
    Some (mkResponse 404 [("success", JBool false);
                          ("message", JStr "customer not found")]).
Proof. reflexivity. Qed.

End RecordScoping.

(** ** Tables *)

Section Tables.

(** A parameter that compares equal does so as it is bound. *)
Lemma sql_eq_bound (v t : jsval) : sql_eq v t = true -> sql_eq v (bound t) = true.
Proof. destruct v, t; simpl; congruence. Qed.

Lemma sql_eq_refl_str (s : string) : sql_eq (JStr s) (JStr s) = true.
Proof. simpl. apply String.eqb_refl. Qed.

(** An UPDATE that keeps what a WHERE clause tests keeps which row the
    clause selects. *)
Lemma select_first_update_where (q p : obj -> bool) (f : obj -> obj)
    (rows : list obj) :
  (forall r, q (f r) = q r) ->
  select_first q (update_where p f rows) =
    (fun r => if p r then f r else r) <$> select_first q rows.
Proof.
  intros Hq. unfold select_first, update_where.
  induction rows as [|r rows IH]; simpl; [reflexivity|].
  assert (Hr : q (if p r then f r else r) = q r)
    by (destruct (p r); [apply Hq | reflexivity]).
  rewrite Hr. destruct (q r); [reflexivity | exact IH].
Qed.

Lemma select_first_In (q : obj -> bool) (rows : list obj) (r : obj) :
  select_first q rows = Some r -> In r rows /\ q r = true.
Proof. apply List.find_some. Qed.

(** Under the primary key the row found by any clause is the row found by
    its id. *)
Lemma select_first_pk (rows : list obj) (r : obj) (id : string) :
  pk_unique rows -> In r rows -> get r "id" = JStr id ->
  select_first (by_id (JStr id)) rows = Some r.
Proof.
  unfold pk_unique, select_first, by_id.
  induction rows as [|r0 rows IH]; simpl; intros Hnd Hin Hid; [contradiction|].
  apply NoDup_cons in Hnd. destruct Hnd as [Hnotin Hnd].
  destruct Hin as [-> | Hin].
  - now rewrite Hid, sql_eq_refl_str.
  - destruct (sql_eq (get r0 "id") (JStr id)) eqn:E.
    + exfalso. apply Hnotin.
      assert (get r0 "id" = JStr id) as ->.
      { destruct (get r0 "id"); simpl in E; try discriminate.
        apply String.eqb_eq in E. now subst. }
      rewrite <- Hid. apply list_elem_of_In.
      exact (in_map (fun x : obj => get x "id") rows r Hin).
    + now apply IH.
Qed.

Lemma select_first_exists (q : obj -> bool) (rows : list obj) (r : obj) :
  In r rows -> q r = true -> exists r', select_first q rows = Some r'.
Proof.
  intros Hin Hq. unfold select_first.
  destruct (List.find q rows) as [r'|] eqn:E; [eauto|].
  rewrite (List.find_none _ _ E r Hin) in Hq. discriminate.
Qed.

Lemma delete_where_none (p : obj -> bool) (rows : list obj) (r : obj) :
  In r (delete_where p rows) -> p r = false.
Proof.
  unfold delete_where. intros Hin. apply List.filter_In in Hin.
  destruct Hin as [_ Hp]. now destruct (p r).
Qed.

Lemma delete_where_In (p : obj -> bool) (rows : list obj) (r : obj) :
  In r (delete_where p rows) -> In r rows.
Proof. unfold delete_where. intros Hin. now apply List.filter_In in Hin. Qed.

Lemma select_first_none (q : obj -> bool) (rows : list obj) :
  (forall r, In r rows -> q r = false) -> select_first q rows = None.
Proof.
  intros Hall. unfold select_first.
  destruct (List.find q rows) as [r|] eqn:E; [|reflexivity].
  apply List.find_some in E. destruct E as [Hin Hq].
  rewrite (Hall r Hin) in Hq. discriminate.
Qed.

Lemma by_id_str (id : string) (r : obj) :
  by_id (JStr id) r = true -> get r "id" = JStr id.
Proof.
  unfold by_id. destruct (get r "id"); simpl; try discriminate.
  intros E. apply String.eqb_eq in E. now subst.
Qed.

Lemma select_first_some (q : obj -> bool) (rows : list obj) (r : obj) :
  In r rows -> q r = true -> select_first q rows <> None.
Proof.
  intros Hin Hq Hnone. unfold select_first in Hnone.
  rewrite (List.find_none _ _ Hnone r Hin) in Hq. discriminate.
Qed.

(** After [initialize] the connection enforces foreign keys. *)
Lemma initialize_foreign_keys (db : Db) : foreign_keys (initialize db) = true.
Proof. reflexivity. Qed.

End Tables.

(** ** Sessions: login, lockout and refresh *)

Section Sessions.
Context `{libs : Libs} (config : Config).

#[local] Abbreviation login := (AuthController.login config).
#[local] Abbreviation bump := (AuthController.bump config).
#[local] Abbreviation account := AuthController.account.
#[local] Abbreviation invalid_credentials :=
  (mkResponse 401 [("success", JBool false); ("message", JStr "Invalid credentials")]).
#[local] Abbreviation locked :=
  (mkResponse 423
     [("success", JBool false);
      ("message", JStr "Account temporarily locked due to too many failed login attempts")]).

Lemma next_attempt (a : Z) : add (or_else (JNum a) (JNum 0)) (JNum 1) = JNum (a + 1).
Proof.
  unfold or_else. simpl. destruct (a =? 0)%Z eqn:E; simpl; [|reflexivity].
  apply Z.eqb_eq in E. now subst.
Qed.

(** A wrong password on an active, unlocked account. *)
Lemma login_wrong_password (env : Env) (req : Req) (db : Db) (u : obj)
    (uid p hash : string) (a : Z) :
  req_errors req = [] ->
  select_first (by_email (get (req_body req) "email")) (users db) = Some u ->
  select_first (by_id (JStr uid)) (users db) = Some u ->
  get u "id" = JStr uid ->
  AuthController.isAccountLocked env u = false ->
  truthy (get u "isActive") = true ->
  get u "loginAttempts" = JNum a ->
  get (req_body req) "password" = JStr p ->
  get u "password" = JStr hash ->
  bcrypt_compare p hash = false ->
  login env req db =
    (Sent invalid_credentials,
     with_users (update_where (by_id (JStr uid)) (bump env a)) db).
Proof.
  intros Herr Hacc Hpk Hid Hlock Hact Hcnt Hpw Hhash Hcmp.
  unfold AuthController.login. rewrite Herr. step_handler.
  rewrite Hacc, Hlock, Hact. step_handler.
  rewrite Hpw, Hhash. unfold AuthController.compare. step_handler.
  rewrite Hcmp. step_handler.
  unfold AuthController.incrementLoginAttempts. step_handler.
  rewrite Hid, Hpk. step_handler.
  change (get (project [("loginAttempts", "loginAttempts")] u) "loginAttempts")
    with (get u "loginAttempts").
  rewrite Hcnt, next_attempt. reflexivity.
Qed.

Lemma bump_fields (env : Env) (a : Z) (u : obj) (k : string) :
  k <> "loginAttempts" -> k <> "lockUntil" -> get (bump env a u) k = get u k.
Proof.
  intros H1 H2. unfold bump. apply get_assign_other. simpl. intuition congruence.
Qed.

Lemma failed_login_step (env : Env) (req : Req) (db : Db) (email : jsval)
    (uid hash : string) (a : Z) :
  account db email uid hash a JNull ->
  AuthController.wrong_password email hash (env, req) ->
  login env req db =
    (Sent invalid_credentials,
     with_users (update_where (by_id (JStr uid)) (bump env a)) db) /\
  account (with_users (update_where (by_id (JStr uid)) (bump env a)) db)
    email uid hash (a + 1)
    (if (security_maxLoginAttempts config <=? a + 1)%Z
     then JNum (now env + security_lockTime config) else JNull).
Proof.
  intros (u & Hacc & Hpk & Hid & Hhash & Hact & Hcnt & Hlock)
         (Herr & Hemail & p & Hpw & Hcmp).
  simpl in Herr, Hemail, Hpw. split.
  - apply (login_wrong_password env req db u uid p hash a); auto.
    + now rewrite Hemail.
    + unfold AuthController.isAccountLocked. now rewrite Hlock.
  - exists (bump env a u). simpl users.
    assert (Hby : by_id (JStr uid) u = true)
      by (unfold by_id; rewrite Hid; apply sql_eq_refl_str).
    repeat split.
    + rewrite select_first_update_where, Hacc; simpl; [now rewrite Hby|].
      intros r. unfold by_email. now rewrite bump_fields.
    + rewrite select_first_update_where, Hpk; simpl; [now rewrite Hby|].
      intros r. unfold by_id. now rewrite bump_fields.
    + now rewrite bump_fields.
    + now rewrite bump_fields.
    + now rewrite bump_fields.
    + unfold bump, assign. simpl fold_left.
      rewrite get_set_ne by discriminate. apply get_set_eq.
    + unfold bump, assign. simpl fold_left. apply get_set_eq.
Qed.

(** Failures that stay below the threshold leave the lock unset. *)
Lemma failed_logins_below_threshold (failed : list (Env * Req)) :
  forall (db : Db) (email : jsval) (uid hash : string) (a : Z),
    account db email uid hash a JNull ->
    (a + Z.of_nat (length failed) < security_maxLoginAttempts config)%Z ->
    Forall (AuthController.wrong_password email hash) failed ->
    Forall (fun r => r = Some invalid_credentials)
           (fst (AuthController.login_sequence config failed db)) /\
    account (snd (AuthController.login_sequence config failed db))
            email uid hash (a + Z.of_nat (length failed)) JNull.
Proof.
  induction failed as [|[env req] failed IH]; intros db email uid hash a Hacc Hlt Hall.
  - simpl. rewrite Z.add_0_r. split; [constructor | exact Hacc].
  - apply Forall_cons in Hall. destruct Hall as [Hwrong Hall].
    destruct (failed_login_step env req db email uid hash a Hacc Hwrong)
      as [Hstep Hacc'].
    simpl length in Hlt. rewrite Nat2Z.inj_succ in Hlt.
    assert (Hno : (security_maxLoginAttempts config <=? a + 1)%Z = false)
      by (apply Z.leb_gt; lia).
    rewrite Hno in Hacc'.
    simpl AuthController.login_sequence. rewrite Hstep. simpl snd. simpl fst.
    destruct (IH _ email uid hash (a + 1)%Z Hacc' ltac:(lia) Hall) as [Hrs Hfinal].
    split.
    + constructor; [reflexivity | exact Hrs].
    + simpl length. rewrite Nat2Z.inj_succ.
      replace (a + Z.succ (Z.of_nat (length failed)))%Z
        with (a + 1 + Z.of_nat (length failed))%Z by lia.
      exact Hfinal.
Qed.

Lemma login_sequence_app (l1 l2 : list (Env * Req)) (db : Db) :
  AuthController.login_sequence config (l1 ++ l2) db =
    let out1 := AuthController.login_sequence config l1 db in
    let out2 := AuthController.login_sequence config l2 (snd out1) in
    ((fst out1 ++ fst out2)%list, snd out2).
Proof.
  revert db. induction l1 as [|[env req] l1 IH]; intros db; simpl.
  - now destruct (AuthController.login_sequence config l2 db).
  - now rewrite IH.
Qed.

(** The lock test comes before the active flag and the password. *)
Lemma login_locked (env : Env) (req : Req) (db : Db) (u : obj) :
  req_errors req = [] ->
  select_first (by_email (get (req_body req) "email")) (users db) = Some u ->
  AuthController.isAccountLocked env u = true ->
  login env req db =
    (Sent locked, db).
Proof.
  intros Herr Hacc Hlock.
  unfold AuthController.login. rewrite Herr. step_handler.
  rewrite Hacc, Hlock. reflexivity.
Qed.

(** C3.  An active account with a fresh counter receives as many
    wrong-password logins as the configured threshold: each is answered
    401 Invalid credentials, the last one stamps [lockUntil] with its clock
    plus the lock time, and a login that arrives before that instant is
    answered 423 whatever its password, the store untouched. *)
Theorem lockout_after_threshold (db : Db) (u : obj) (uid hash : string)
    (email : jsval) (earlier : list (Env * Req)) (last : Env * Req)
    (env : Env) (req : Req) :
  (1 <= security_maxLoginAttempts config)%Z ->
  pk_unique (users db) ->
  select_first (by_email email) (users db) = Some u ->
  get u "id" = JStr uid ->
  get u "password" = JStr hash ->
  truthy (get u "isActive") = true ->
  get u "loginAttempts" = JNum 0 ->
  get u "lockUntil" = JNull ->
  Z.of_nat (length (earlier ++ [last])) = security_maxLoginAttempts config ->
  Forall (AuthController.wrong_password email hash) (earlier ++ [last]) ->
  req_errors req = [] ->
  get (req_body req) "email" = email ->
  let out := AuthController.login_sequence config (earlier ++ [last]) db in
  let lockUntil := (now (fst last) + security_lockTime config)%Z in
  Forall (fun r => r = Some invalid_credentials) (fst out) /\
  account (snd out) email uid hash (security_maxLoginAttempts config)
          (JNum lockUntil) /\
  ((0 <= now env < lockUntil)%Z ->
   login env req (snd out) =
     (Sent locked, snd out)).
Proof.
  intros Hmax Hpk Hfound Hid Hhash Hact Hcnt Hlock Hlen Hall Herr Hemail out lockUntil.
  assert (Hacc0 : account db email uid hash 0 JNull).
  { exists u. repeat split; auto.
    apply select_first_pk; auto. now apply select_first_In in Hfound. }
  apply Forall_app in Hall. destruct Hall as [Hearlier Hlast].
  apply Forall_cons in Hlast. destruct Hlast as [Hlast _].
  rewrite length_app in Hlen. simpl length in Hlen.
  destruct (failed_logins_below_threshold earlier db email uid hash 0 Hacc0
              ltac:(lia) Hearlier) as [Hrs Hacc1].
  destruct last as [envn reqn].
  destruct (failed_login_step envn reqn _ email uid hash _ Hacc1 Hlast)
    as [Hstep Hacc2].
  assert (Hyes : (security_maxLoginAttempts config
                    <=? 0 + Z.of_nat (length earlier) + 1)%Z = true)
    by (apply Z.leb_le; lia).
  rewrite Hyes in Hacc2.
  replace (0 + Z.of_nat (length earlier) + 1)%Z
    with (security_maxLoginAttempts config) in Hacc2 by lia.
  assert (Hout : out =
    ((fst (AuthController.login_sequence config earlier db)
        ++ [Some invalid_credentials])%list,
     with_users (update_where (by_id (JStr uid))
                   (bump envn (0 + Z.of_nat (length earlier))))
                (snd (AuthController.login_sequence config earlier db)))).
  { subst out. rewrite login_sequence_app. simpl. now rewrite Hstep. }
  rewrite Hout. simpl fst. simpl snd. split; [|split].
  - apply Forall_app. split; [exact Hrs | repeat constructor].
  - exact Hacc2.
  - intros Hnow. destruct Hacc2 as (u2 & Hf2 & _ & _ & _ & _ & _ & Hl2).
    apply (login_locked env req _ u2); auto.
    + now rewrite Hemail.
    + unfold AuthController.isAccountLocked. rewrite Hl2. simpl.
      subst lockUntil. simpl fst in Hnow.
      apply andb_true_intro. split.
      * apply negb_true_iff. apply Z.eqb_neq. lia.
      * apply Z.ltb_lt. lia.
Qed.

(** A password that is a string: one login request against a store where
    its email is unknown and against a store where it names an active,
    unlocked account whose hash the password does not match is answered
    the same, 401 Invalid credentials once validation has passed. *)
Lemma login_same_error_unknown_or_wrong (env : Env) (req : Req) (db1 db2 : Db)
    (u : obj) (uid p hash : string) :
  select_first (by_email (get (req_body req) "email")) (users db1) = None ->
  select_first (by_email (get (req_body req) "email")) (users db2) = Some u ->
  get u "id" = JStr uid ->
  AuthController.isAccountLocked env u = false ->
  truthy (get u "isActive") = true ->
  get (req_body req) "password" = JStr p ->
  get u "password" = JStr hash ->
  bcrypt_compare p hash = false ->
  response (login env req db1) = response (login env req db2) /\
  (req_errors req = [] -> response (login env req db1) = Some invalid_credentials).
Proof.
  intros Hnone Hsome Hid Hlock Hact Hpw Hhash Hcmp.
  assert (H1 : req_errors req = [] ->
               response (login env req db1) = Some invalid_credentials).
  { intros Herr. unfold AuthController.login. rewrite Herr. step_handler.
    now rewrite Hnone. }
  split; [|exact H1].
  destruct (req_errors req) as [|e es] eqn:Herr.
  - rewrite (H1 eq_refl).
    unfold AuthController.login. rewrite Herr. step_handler.
    rewrite Hsome, Hlock, Hact. step_handler.
    rewrite Hpw, Hhash. unfold AuthController.compare. step_handler.
    rewrite Hcmp. step_handler.
    unfold AuthController.incrementLoginAttempts. step_handler.
    destruct (select_first_In _ _ _ Hsome) as [Hin _].
    destruct (select_first_exists (by_id (get u "id")) (users db2) u Hin)
      as [r Hr].
    { unfold by_id. rewrite Hid. apply sql_eq_refl_str. }
    rewrite Hr. reflexivity.
  - unfold AuthController.login. rewrite Herr. reflexivity.
Qed.

(** C7.  A password that is not a string, a JSON number say, passes the
    [notEmpty] check and matches no hash, and the two cases are told
    apart: where the email is unknown the answer is 401 Invalid
    credentials, where it names an active, unlocked account
    [bcrypt.compare] raises and the answer is 500 Internal server error.
    Neither run writes to the store. *)
Theorem login_numeric_password_distinguishes (env : Env) (req : Req)
    (db1 db2 : Db) (u : obj) (n : Z) :
  req_errors req = [] ->
  select_first (by_email (get (req_body req) "email")) (users db1) = None ->
  select_first (by_email (get (req_body req) "email")) (users db2) = Some u ->
  AuthController.isAccountLocked env u = false ->
  truthy (get u "isActive") = true ->
  get (req_body req) "password" = JNum n ->
  login env req db1 = (Sent invalid_credentials, db1) /\
  login env req db2 =
    (Sent (mkResponse 500 [("success", JBool false);
                           ("message", JStr "Internal server error")]), db2) /\
  response (login env req db1) <> response (login env req db2).
Proof.
  intros Herr Hnone Hsome Hlock Hact Hpw.
  assert (H1 : login env req db1 = (Sent invalid_credentials, db1)).
  { unfold AuthController.login. rewrite Herr. step_handler. now rewrite Hnone. }
  assert (H2 : login env req db2 =
               (Sent (mkResponse 500 [("success", JBool false);
                                      ("message", JStr "Internal server error")]),
                db2)).
  { unfold AuthController.login. rewrite Herr. step_handler.
    rewrite Hsome, Hlock, Hact. step_handler.
    rewrite Hpw. unfold AuthController.compare. reflexivity. }
  split; [exact H1|]. split; [exact H2|].
  rewrite H1, H2. discriminate.
Qed.


Lemma sql_eq_str_inv (s : string) (v : jsval) :
  sql_eq (JStr s) v = true -> v = JStr s.
Proof.
  destruct v; simpl; try discriminate.
  intros E. apply String.eqb_eq in E. now subst.
Qed.

(** Rotation, when the token issued differs from the one presented: the
    presented token is gone from the store and a second refresh with it is
    answered 401. *)
Lemma refresh_rotated_token_rejected (env1 env2 : Env) (req : Req) (db db1 : Db)
    (r1 : Response) :
  AuthController.refreshToken config env1 req db = (Sent r1, db1) ->
  status r1 = 200 ->
  AuthController.issued_refresh_token r1 <> get (req_body req) "refreshToken" ->
  exists r2,
    AuthController.refreshToken config env2 req db1 = (Sent r2, db1) /\
    status r2 = 401.
Proof.
  unfold AuthController.refreshToken at 1. step_handler.
  destruct (truthy (get (req_body req) "refreshToken")) eqn:Htok; step_handler;
    [|intros [= <- <-]; discriminate].
  destruct (jwt_verify _ _ (now env1)) as [decoded|]; step_handler;
    [|intros [= <- <-]; discriminate].
  destruct (select_first _ (refresh_tokens db)) as [stored|]; step_handler;
    [|intros [= <- <-]; discriminate].
  destruct (select_first _ (users db)) as [user|]; step_handler;
    [|intros [= <- <-]; discriminate].
  unfold AuthController.removeRefreshToken, AuthController.storeRefreshToken.
  step_handler. intros [= <- <-] _ Hfresh.
  unfold AuthController.issued_refresh_token in Hfresh. simpl in Hfresh.
  unfold AuthController.refreshToken. step_handler. rewrite Htok. step_handler.
  destruct (jwt_verify _ _ (now env2)) as [decoded2|]; step_handler;
    [|eexists; split; reflexivity].
  rewrite select_first_none; [eexists; split; reflexivity|].
  intros r Hin. simpl in Hin.
  apply delete_where_In in Hin. unfold push in Hin. apply in_app_or in Hin.
  destruct Hin as [Hin | [<- | []]].
  - apply delete_where_none in Hin.
    destruct (sql_eq (get r "token") (get (req_body req) "refreshToken")) eqn:E;
      [|reflexivity].
    apply sql_eq_bound in E. congruence.
  - simpl get.
    destruct (sql_eq (JStr _) (get (req_body req) "refreshToken")) eqn:E;
      [|reflexivity].
    apply sql_eq_str_inv in E. now rewrite E in Hfresh.
Qed.

(** Rotation, when the token issued is the token presented: its text is
    stored again, and a second refresh that still verifies for the same
    subject within the seven days is answered 200. *)
Lemma refresh_reissued_token_accepted (env1 env2 : Env) (req : Req) (db db1 : Db)
    (r1 : Response) (decoded1 decoded2 : obj) (uid : string) :
  AuthController.refreshToken config env1 req db = (Sent r1, db1) ->
  status r1 = 200 ->
  AuthController.issued_refresh_token r1 = get (req_body req) "refreshToken" ->
  jwt_verify (get (req_body req) "refreshToken") (jwt_refreshSecret config) (now env1)
    = Some decoded1 ->
  jwt_verify (get (req_body req) "refreshToken") (jwt_refreshSecret config) (now env2)
    = Some decoded2 ->
  get decoded1 "userId" = JStr uid ->
  get decoded2 "userId" = JStr uid ->
  (now env1 <= now env2 < now env1 + 7 * 24 * 60 * 60 * 1000)%Z ->
  exists r2 db2,
    AuthController.refreshToken config env2 req db1 = (Sent r2, db2) /\
    status r2 = 200.
Proof.
  intros Hfirst Hok Hsame Hv1 Hv2 Hu1 Hu2 Hnow. revert Hfirst.
  unfold AuthController.refreshToken at 1. step_handler.
  destruct (truthy (get (req_body req) "refreshToken")) eqn:Htok; step_handler;
    [|intros [= <- <-]; discriminate].
  rewrite Hv1. step_handler.
  destruct (select_first _ (refresh_tokens db)) as [stored|]; step_handler;
    [|intros [= <- <-]; discriminate].
  destruct (select_first _ (users db)) as [user|] eqn:Huser; step_handler;
    [|intros [= <- <-]; discriminate].
  unfold AuthController.removeRefreshToken, AuthController.storeRefreshToken.
  step_handler. intros [= <- <-].
  unfold AuthController.issued_refresh_token in Hsame. simpl in Hsame.
  pose proof Huser as Hrow.
  apply select_first_In in Huser. destruct Huser as [_ Huid].
  apply andb_true_iff in Huid. destruct Huid as [Huid _].
  rewrite Hu1 in Huid. apply by_id_str in Huid.
  unfold AuthController.refreshToken. step_handler. rewrite Htok. step_handler.
  rewrite Hv2. step_handler.
  match goal with |- context [select_first ?q (refresh_tokens ?d)] =>
    destruct (select_first q (refresh_tokens d)) as [stored2|] eqn:Hst end.
  2:{ exfalso. revert Hst. simpl refresh_tokens.
      match goal with |- select_first ?q (delete_where ?p (push ?rows ?row)) = None -> _ =>
        apply (select_first_some q _ row) end.
      - unfold delete_where, push. apply List.filter_In. split.
        + apply in_or_app. right. now left.
        + simpl. apply negb_true_iff. apply Z.ltb_ge. lia.
      - simpl get. rewrite <- Hsame. simpl.
        rewrite String.eqb_refl. simpl.
        change (get _ "id") with (get user "id"). rewrite Huid, Hu2.
        rewrite sql_eq_refl_str. simpl. apply Z.ltb_lt. lia. }
  step_handler.
  change (users (with_refresh_tokens _ (with_refresh_tokens _
            (with_refresh_tokens _ db)))) with (users db).
  rewrite Hu2, <- Hu1, Hrow. step_handler.
  unfold AuthController.removeRefreshToken, AuthController.storeRefreshToken.
  step_handler. eexists _, _. split; reflexivity.
Qed.
End Sessions.

(** C4 at a refresh within the second of issue.  The token John receives
    at login is presented twice; the first refresh takes its row away and
    stores the newly signed token, which is the same text, so the second
    refresh finds it and is answered 200 where the claim has it refused. *)
Theorem refresh_replay_within_second :
  let db1 := snd (AuthController.login (libs := Demo.libs) defaults Demo.login_at
                    (Demo.login_request "john@crm.com" "user123") Demo.db) in
  let first := AuthController.refreshToken (libs := Demo.libs) defaults Demo.refresh_1
                 (Demo.refresh_request Demo.johns_token) db1 in
  let second := AuthController.refreshToken (libs := Demo.libs) defaults Demo.refresh_2
                  (Demo.refresh_request Demo.johns_token) (snd first) in
  map (fun r => get r "token") (refresh_tokens db1) = [JStr Demo.johns_token] /\
  (status <$> response first) = Some 200 /\
  (AuthController.issued_refresh_token <$> response first)
    = Some (JStr Demo.johns_token) /\
  (status <$> response second) = Some 200.
Proof. vm_compute. repeat split. Qed.

(** Five wrong passwords for John under the default configuration, then
    the right one twenty minutes later: 423. *)
Lemma lockout_after_threshold_witness :
  let attempt (t : Z) (password : string) :=
    (mkEnv t "tok" "act", Demo.login_request "john@crm.com" password) in
  let failed := [attempt 1704067261000 "guess1"; attempt 1704067262000 "guess2";
                 attempt 1704067263000 "guess3"; attempt 1704067264000 "guess4";
                 attempt 1704067265000 "guess5"] in
  let out := AuthController.login_sequence (libs := Demo.libs) defaults failed Demo.db in
  response (AuthController.login (libs := Demo.libs) defaults
              (mkEnv 1704068465000 "tok" "act")
              (Demo.login_request "john@crm.com" "user123") (snd out))
  = Some (mkResponse 423
      [("success", JBool false);
       ("message", JStr "Account temporarily locked due to too many failed login attempts")]).
Proof.
  intros attempt failed out.
  pose proof (lockout_after_threshold (libs := Demo.libs) defaults Demo.db Demo.john
                "2" "$2a$user123" (JStr "john@crm.com")
                [attempt 1704067261000 "guess1"; attempt 1704067262000 "guess2";
                 attempt 1704067263000 "guess3"; attempt 1704067264000 "guess4"]
                (attempt 1704067265000 "guess5")
                (mkEnv 1704068465000 "tok" "act")
                (Demo.login_request "john@crm.com" "user123")) as Hthm.
  destruct Hthm as (_ & _ & Hlocked).
  - simpl. lia.
  - unfold pk_unique. simpl.
    repeat (apply NoDup_cons_2;
            [rewrite list_elem_of_In; simpl; intuition discriminate|]).
    apply NoDup_nil_2.
  - reflexivity.
  - reflexivity.
  - reflexivity.
  - reflexivity.
  - reflexivity.
  - reflexivity.
  - reflexivity.
  - repeat (constructor;
            [split; [reflexivity | split; [reflexivity |
               eexists; split; reflexivity]] |]).
    constructor.
  - reflexivity.
  - reflexivity.
  - subst out failed. simpl app in Hlocked. rewrite Hlocked; [reflexivity|].
    simpl. lia.
Defined.

(** The password 123456 as a JSON number, for John's address: unknown
    where only the admin is registered, known in the seeded store. *)
Lemma login_numeric_password_distinguishes_witness :
  let req := Demo.request None JUndefined
               [("email", JStr "john@crm.com"); ("password", JNum 123456)] in
  let db1 := with_users (fun _ => [Demo.admin]) Demo.db in
  AuthController.login (libs := Demo.libs) defaults Demo.login_at req db1 =
    (Sent (mkResponse 401 [("success", JBool false);
                           ("message", JStr "Invalid credentials")]), db1) /\
  AuthController.login (libs := Demo.libs) defaults Demo.login_at req Demo.db =
    (Sent (mkResponse 500 [("success", JBool false);
                           ("message", JStr "Internal server error")]), Demo.db) /\
  response (AuthController.login (libs := Demo.libs) defaults Demo.login_at req db1) <>
  response (AuthController.login (libs := Demo.libs) defaults Demo.login_at req Demo.db).
Proof.
  intros req db1.
  apply (login_numeric_password_distinguishes (libs := Demo.libs) defaults
           Demo.login_at req db1 Demo.db Demo.john 123456);
    reflexivity.
Defined.

(** An unknown address and John's address with a wrong password. *)
Lemma login_same_error_unknown_or_wrong_demo :
  response (AuthController.login (libs := Demo.libs) defaults Demo.login_at
              (Demo.login_request "john@crm.com" "guess")
              (with_users (fun _ => [Demo.admin]) Demo.db)) =
  response (AuthController.login (libs := Demo.libs) defaults Demo.login_at
              (Demo.login_request "john@crm.com" "guess") Demo.db).
Proof.
  apply (login_same_error_unknown_or_wrong (libs := Demo.libs) defaults Demo.login_at
           (Demo.login_request "john@crm.com" "guess")
           (with_users (fun _ => [Demo.admin]) Demo.db) Demo.db
           Demo.john "2" "guess" "$2a$user123");
    reflexivity.
Defined.

(** ** The audit trail *)

Section AuditTrail.
Context `{libs : Libs}.

(** What [forEach] does with one key. *)
#[local] Abbreviation diff_step oldData newData :=
  (fun (changes : obj) (key : string) =>
     if negb (strict_eq (get oldData key) (get newData key))
     then set changes key (JObj [("from", get oldData key); ("to", get newData key)])
     else changes).



Lemma diff_fold_single (oldData newData : obj) (k0 : string) (ks : list string) :
  (forall k, In k ks -> k <> k0 ->
             strict_eq (get oldData k) (get newData k) = true) ->
  strict_eq (get oldData k0) (get newData k0) = false ->
  let entry := (k0, JObj [("from", get oldData k0); ("to", get newData k0)]) in
  fold_left (diff_step oldData newData) ks [entry] = [entry] /\
  (In k0 ks -> fold_left (diff_step oldData newData) ks [] = [entry]).
Proof.
  intros Hsame Hdiff entry.
  assert (Hkeep : forall ks', (forall k, In k ks' -> In k ks) ->
                    fold_left (diff_step oldData newData) ks' [entry] = [entry]).
  { induction ks' as [|k ks' IH]; intros Hsub; simpl; [reflexivity|].
    destruct (String.eqb k k0) eqn:E.
    - apply String.eqb_eq in E. subst k. rewrite Hdiff. simpl.
      rewrite String.eqb_refl. apply IH. intros; apply Hsub; now right.
    - rewrite Hsame; [|apply Hsub; now left|intros ->; now rewrite String.eqb_refl in E].
      simpl. apply IH. intros; apply Hsub; now right. }
  split; [now apply Hkeep|].
  assert (Hfind : forall ks', (forall k, In k ks' -> In k ks) -> In k0 ks' ->
                    fold_left (diff_step oldData newData) ks' [] = [entry]).
  { induction ks' as [|k ks' IH]; intros Hsub Hin; simpl; [contradiction|].
    destruct (String.eqb k k0) eqn:E.
    - apply String.eqb_eq in E. subst k. rewrite Hdiff. simpl.
      apply Hkeep. intros; apply Hsub; now right.
    - rewrite Hsame; [|apply Hsub; now left|intros ->; now rewrite String.eqb_refl in E].
      simpl. apply IH; [intros; apply Hsub; now right|].
      destruct Hin as [-> | Hin]; [now rewrite String.eqb_refl in E | exact Hin]. }
  now apply Hfind.
Qed.

(** One differing key: the change-set is its entry and nothing else. *)
Lemma diff_single (oldData newData : obj) (k0 : string) :
  In k0 (keys newData) ->
  (forall k, In k (keys newData) -> k <> k0 ->
             strict_eq (get oldData k) (get newData k) = true) ->
  strict_eq (get oldData k0) (get newData k0) = false ->
  Logger.diff oldData newData =
    [(k0, JObj [("from", get oldData k0); ("to", get newData k0)])].
Proof.
  intros Hin Hsame Hdiff. unfold Logger.diff.
  now apply (diff_fold_single oldData newData k0 (keys newData) Hsame Hdiff).
Qed.


(** The change-set of an update that changes [status] and nothing else of
    what the body can set: the entry of [status], then those of
    [updatedBy] and [updatedAt] where these differ from the stored ones. *)
Lemma diff_status_and_bookkeeping (oldData newData : obj) :
  keys newData = CustomerController.updated_columns ->
  strict_eq (get oldData "status") (get newData "status") = false ->
  (forall k, In k (keys newData) ->
             k <> "status" -> k <> "updatedBy" -> k <> "updatedAt" ->
             strict_eq (get oldData k) (get newData k) = true) ->
  let entry k := (k, JObj [("from", get oldData k); ("to", get newData k)]) in
  let bookkeeping k :=
    if strict_eq (get oldData k) (get newData k) then [] else [entry k] in
  Logger.diff oldData newData =
    (entry "status" :: bookkeeping "updatedBy" ++ bookkeeping "updatedAt")%list.
Proof.
  intros Hkeys Hne Hsame entry bookkeeping. subst entry bookkeeping.
  assert (Hk : forall k, In k CustomerController.updated_columns ->
                         k <> "status" -> k <> "updatedBy" -> k <> "updatedAt" ->
                         strict_eq (get oldData k) (get newData k) = true)
    by (intros k Hin; apply Hsame; now rewrite Hkeys).
  unfold Logger.diff. rewrite Hkeys.
  unfold CustomerController.updated_columns. cbn [fold_left].
  rewrite (Hk "name"), (Hk "email"), (Hk "phone"), (Hk "company"), (Hk "tags"),
    (Hk "notes"), (Hk "lastContactDate"), (Hk "value"), (Hk "industry"),
    (Hk "source"), (Hk "assignedTo")
    by (simpl; intuition discriminate).
  rewrite Hne. cbn [negb].
  destruct (strict_eq (get oldData "updatedBy") (get newData "updatedBy"));
    destruct (strict_eq (get oldData "updatedAt") (get newData "updatedAt"));
    reflexivity.
Qed.

(** [logActivity] always goes on; the row is stored when the INSERT is
    accepted. *)
Lemma logActivity_run (env : Env) (activity : obj) (db : Db) :
  Logger.logActivity env activity db =
    (Next tt,
     if activities_accept db (Logger.activity_row env activity)
     then with_activities
            (fun rows => push rows (Logger.activity_row env activity)) db
     else db).
Proof.
  unfold Logger.logActivity, insert. step_handler.
  now destruct (activities_accept db (Logger.activity_row env activity)).
Qed.

(** The audit writer touches the audit trail only. *)
Lemma auditRecordChange_frame (env : Env) (type resourceType : string)
    (resourceId : jsval) (oldData newData : option obj) (userId : jsval)
    (req : option Req) (db : Db) :
  let out := Logger.auditRecordChange env type resourceType resourceId oldData
               newData userId req db in
  (fst out = Next tt \/ fst out = Threw) /\
  foreign_keys (snd out) = foreign_keys db /\
  users (snd out) = users db /\ teams (snd out) = teams db /\
  customers (snd out) = customers db /\ leads (snd out) = leads db /\
  refresh_tokens (snd out) = refresh_tokens db.
Proof.
  intros out. subst out. unfold Logger.auditRecordChange. unfold bind at 1.
  assert (Hlog : forall a,
            (fst (Logger.logActivity env a db) = Next tt \/
             fst (Logger.logActivity env a db) = Threw) /\
            foreign_keys (snd (Logger.logActivity env a db)) = foreign_keys db /\
            users (snd (Logger.logActivity env a db)) = users db /\
            teams (snd (Logger.logActivity env a db)) = teams db /\
            customers (snd (Logger.logActivity env a db)) = customers db /\
            leads (snd (Logger.logActivity env a db)) = leads db /\
            refresh_tokens (snd (Logger.logActivity env a db)) = refresh_tokens db).
  { intros a. rewrite logActivity_run.
    destruct (activities_accept db (Logger.activity_row env a)); simpl; tauto. }
  destruct (String.eqb type "create").
  { destruct newData as [nd|]; [apply Hlog | simpl; tauto]. }
  destruct (String.eqb type "update").
  { destruct oldData as [od|], newData as [nd|]; try (simpl; tauto). apply Hlog. }
  destruct (String.eqb type "delete").
  { destruct oldData as [od|]; [apply Hlog | simpl; tauto]. }
  apply Hlog.
Qed.

(** The audit record of an update. *)
Lemma auditRecordChange_update (env : Env) (resourceType : string)
    (resourceId : jsval) (oldData newData : obj) (userId : jsval) (req : Req)
    (db : Db) :
  Logger.auditRecordChange env "update" resourceType resourceId (Some oldData)
    (Some newData) userId (Some req) db =
  Logger.logActivity env
    [ ("type", JStr "update");
      ("resourceType", JStr resourceType);
      ("resourceId", resourceId);
      ("description",
       JStr ("Updated " +:+ resourceType +:+ " "
             +:+ Logger.quoted (Logger.label newData resourceId)
             +:+ " - changed: "
             +:+ Logger.join ", " (keys (Logger.diff oldData newData))));
      ("changes", JObj (Logger.diff oldData newData));
      ("userId", userId);
      ("ipAddress", req_ip req);
      ("userAgent", req_userAgent req) ] db.
Proof. reflexivity. Qed.

End AuditTrail.

(** Names the outcome of the audit writer in the goal and what it leaves
    alone. *)
Ltac audit_frame F :=
  match goal with
  | |- context [@Logger.auditRecordChange ?L ?a ?b ?c ?d ?e ?f ?g ?h ?i] =>
      pose proof (@auditRecordChange_frame L a b c d e f g h i) as F;
      cbv zeta in F;
      destruct (@Logger.auditRecordChange L a b c d e f g h i);
      cbn [fst snd] in F;
      destruct F as ([-> | ->] & F)
  end.

(** ** Customers: change-set of an update, its frame, cascade of a delete *)

Section Customers.
Context `{libs : Libs}.

(** A value that a column equals is bound as itself. *)
Lemma sql_eq_bound_id (v t : jsval) : sql_eq v t = true -> bound t = t.
Proof. destruct v, t; simpl; congruence. Qed.

(** [updateCustomer] when its UPDATE is refused: 500, and nothing is
    written, the audit record included. *)
Lemma updateCustomer_rejected (env : Env) (req : Req) (db : Db)
    (existing user : obj) :
  req_errors req = [] ->
  select_first (by_id (req_params_id req)) (customers db) = Some existing ->
  req_user req = Some user ->
  customers_update_accepted (by_id (req_params_id req))
    (CustomerController.rewritten
       (CustomerController.updateData env req existing user)) db = false ->
  CustomerController.updateCustomer env req db =
    (Sent (mkResponse 500 [("success", JBool false);
                           ("message", JStr "Failed to update customer")]), db).
Proof.
  intros Herr Hsel Huser Hacc.
  unfold CustomerController.updateCustomer. rewrite Herr. step_handler.
  rewrite Hsel, Huser. step_handler. unfold update_customers. now rewrite Hacc.
Qed.

(** The store after [updateCustomer] has run its UPDATE and written its
    audit record, up to the final read-back. *)
Lemma updateCustomer_store (env : Env) (req : Req) (db : Db)
    (existing user : obj) :
  req_errors req = [] ->
  select_first (by_id (req_params_id req)) (customers db) = Some existing ->
  req_user req = Some user ->
  customers_update_accepted (by_id (req_params_id req))
    (CustomerController.rewritten
       (CustomerController.updateData env req existing user)) db = true ->
  snd (CustomerController.updateCustomer env req db) =
  snd (Logger.auditRecordChange env "update" "customer" (req_params_id req)
         (Some existing)
         (Some (CustomerController.updateData env req existing user))
         (get user "id") (Some req)
         (with_customers
            (update_where (by_id (req_params_id req))
               (CustomerController.rewritten
                  (CustomerController.updateData env req existing user))) db)).
Proof.
  intros Herr Hsel Huser Hacc.
  unfold CustomerController.updateCustomer. rewrite Herr. step_handler.
  rewrite Hsel, Huser. step_handler. unfold update_customers. rewrite Hacc.
  step_handler. rewrite auditRecordChange_update, logActivity_run.
  step_handler. unfold CustomerController.fetchCustomer. step_handler.
  match goal with |- context [select_first ?q (customers ?d)] =>
    destruct (select_first q (customers d)) as [c|] end; step_handler;
    [|reflexivity].
  match goal with |- context [truthy ?v] => destruct (truthy v) end;
    step_handler; [|reflexivity].
  match goal with |- context [JSON_parse ?v] => destruct (JSON_parse v) end;
    reflexivity.
Qed.

(** C5.  An accepted update of a customer that changes [status] and
    nothing else of what the body can set (every key of the new record
    other than [status] and the bookkeeping keys [updatedBy] and
    [updatedAt] carries the stored value): the audit record appended is
    an [update] of that customer by the caller, and its change-set is the
    JSON text of the entry [{status: {from, to}}] followed by the entries
    of [updatedBy] and of [updatedAt] wherever the editor or the time of
    the request differ from the stored ones, and of nothing else. *)
Theorem update_status_only_changeset (env : Env) (req : Req) (db : Db)
    (existing user : obj) (uid : string) (from to : jsval) :
  req_errors req = [] ->
  select_first (by_id (req_params_id req)) (customers db) = Some existing ->
  req_user req = Some user ->
  get user "id" = JStr uid ->
  let newData := CustomerController.updateData env req existing user in
  get existing "status" = from ->
  get newData "status" = to ->
  strict_eq from to = false ->
  (forall k, In k (keys newData) ->
             k <> "status" -> k <> "updatedBy" -> k <> "updatedAt" ->
             strict_eq (get existing k) (get newData k) = true) ->
  customers_update_accepted (by_id (req_params_id req))
    (CustomerController.rewritten newData) db = true ->
  fresh_id (activities db) (JStr (activityId env)) = true ->
  let entry k := (k, JObj [("from", get existing k); ("to", get newData k)]) in
  let bookkeeping k :=
    if strict_eq (get existing k) (get newData k) then [] else [entry k] in
  exists row,
    activities (snd (CustomerController.updateCustomer env req db))
      = (activities db ++ [row])%list /\
    get row "type" = JStr "update" /\
    get row "resourceType" = JStr "customer" /\
    get row "resourceId" = req_params_id req /\
    get row "userId" = JStr uid /\
    get row "changes" =
      JStr (JSON_stringify
              (JObj (entry "status" ::
                     bookkeeping "updatedBy" ++ bookkeeping "updatedAt")%list)).
Proof.
  intros Herr Hsel Huser Hid newData Hfrom Hto Hne Hsame Hacc Hfresh
    entry bookkeeping.
  assert (Hdiff : Logger.diff existing newData =
                  (entry "status" ::
                   bookkeeping "updatedBy" ++ bookkeeping "updatedAt")%list).
  { apply diff_status_and_bookkeeping; [reflexivity | | exact Hsame].
    now rewrite Hfrom, Hto. }
  destruct (select_first_In _ _ _ Hsel) as [Hin Hby].
  assert (Hbid : bound (req_params_id req) = req_params_id req)
    by (exact (sql_eq_bound_id _ _ Hby)).
  assert (Hfk : refers (foreign_keys db) (users db) (JStr uid) = true).
  { unfold customers_update_accepted in Hacc.
    rewrite forallb_forall in Hacc. specialize (Hacc existing Hin).
    rewrite Hby in Hacc. cbn [negb orb] in Hacc.
    unfold customers_update_valid in Hacc.
    apply andb_true_iff in Hacc. destruct Hacc as [Hacc _].
    apply andb_true_iff in Hacc. destruct Hacc as [_ Hacc].
    unfold CustomerController.rewritten, assign,
      CustomerController.updated_columns in Hacc.
    cbn [map fold_left fst snd] in Hacc.
    rewrite ?get_set_ne in Hacc by discriminate. rewrite get_set_eq in Hacc.
    change (get newData "updatedBy") with (get user "id") in Hacc.
    now rewrite Hid in Hacc. }
  rewrite (updateCustomer_store env req db existing user Herr Hsel Huser Hacc).
  fold newData. rewrite auditRecordChange_update, logActivity_run.
  match goal with |- context [activities_accept ?d ?row] =>
    assert (Hok : activities_accept d row = true) end.
  { unfold activities_accept, Logger.activity_row, row_of, activities_columns.
    cbn [map get String.eqb Ascii.eqb Bool.eqb activities users foreign_keys
         with_customers].
    rewrite Hbid, Hid.
    cbn [bound not_null one_of existsb String.eqb Ascii.eqb Bool.eqb orb andb].
    rewrite Hfresh, Hfk.
    unfold by_id in Hby.
    destruct (req_params_id req), (get existing "id");
      try discriminate Hby; try discriminate Hbid; reflexivity. }
  rewrite Hok. eexists. split; [reflexivity|].
  unfold Logger.activity_row, row_of, activities_columns.
  cbn [map get String.eqb Ascii.eqb Bool.eqb].
  rewrite Hbid, Hid, Hdiff. repeat split.
Qed.

(** Whatever the outcome, the customers table is either untouched or the
    result of the one UPDATE. *)
Lemma updateCustomer_customers (env : Env) (req : Req) (db : Db) :
  customers (snd (CustomerController.updateCustomer env req db)) = customers db \/
  exists sets,
    map fst sets = CustomerController.updated_columns /\
    customers (snd (CustomerController.updateCustomer env req db)) =
      update_where (by_id (req_params_id req)) (assign sets) (customers db).
Proof.
  destruct (req_errors req) as [|e es] eqn:Herr.
  2:{ left. unfold CustomerController.updateCustomer. now rewrite Herr. }
  destruct (select_first (by_id (req_params_id req)) (customers db))
    as [existing|] eqn:Hsel.
  2:{ left. unfold CustomerController.updateCustomer. rewrite Herr. step_handler.
      now rewrite Hsel. }
  destruct (req_user req) as [user|] eqn:Huser.
  2:{ left. unfold CustomerController.updateCustomer. rewrite Herr. step_handler.
      now rewrite Hsel, Huser. }
  destruct (customers_update_accepted (by_id (req_params_id req))
              (CustomerController.rewritten
                 (CustomerController.updateData env req existing user)) db)
    eqn:Hacc.
  2:{ left.
      now rewrite (updateCustomer_rejected env req db existing user). }
  right.
  rewrite (updateCustomer_store env req db existing user Herr Hsel Huser Hacc).
  audit_frame F; cbn [snd]; destruct F as (_ & _ & _ & -> & _);
    (eexists; split; [|reflexivity]; reflexivity).
Qed.

(** C10.  Whatever the request carries and however it is answered,
    [updateCustomer] leaves [id], [ownerId], [teamId], [createdBy] and
    [createdAt] of every customer as they were, as it does every column
    outside the fourteen of its UPDATE statement, and it writes to no
    user, team or lead. *)
Theorem updateCustomer_frame (env : Env) (req : Req) (db : Db) :
  let db' := snd (CustomerController.updateCustomer env req db) in
  Forall2
    (fun r r' =>
       get r' "id" = get r "id" /\
       get r' "ownerId" = get r "ownerId" /\
       get r' "teamId" = get r "teamId" /\
       get r' "createdBy" = get r "createdBy" /\
       get r' "createdAt" = get r "createdAt" /\
       forall k, ~ In k CustomerController.updated_columns -> get r' k = get r k)
    (customers db) (customers db') /\
  users db' = users db /\ teams db' = teams db /\ leads db' = leads db.
Proof.
  intros db'. split.
  - destruct (updateCustomer_customers env req db) as [Heq | (sets & Hcols & Heq)];
      fold db' in Heq; rewrite Heq.
    + apply Forall2_same_length_lookup_2; [reflexivity|].
      intros i r r' Hr Hr'. rewrite Hr in Hr'. injection Hr' as <-.
      repeat split; reflexivity.
    + unfold update_where. apply Forall2_fmap_r. apply Forall_Forall2_diag.
      apply Forall_forall. intros r _.
      assert (Hother : forall k, ~ In k CustomerController.updated_columns ->
                get (if by_id (req_params_id req) r then assign sets r else r) k
                = get r k).
      { intros k Hk. destruct (by_id (req_params_id req) r); [|reflexivity].
        apply get_assign_other. now rewrite Hcols. }
      repeat split; try apply Hother; simpl; intuition discriminate.
  - subst db'.
    destruct (req_errors req) as [|e es] eqn:Herr.
    2:{ unfold CustomerController.updateCustomer. now rewrite Herr. }
    destruct (select_first (by_id (req_params_id req)) (customers db))
      as [existing|] eqn:Hsel.
    2:{ unfold CustomerController.updateCustomer. rewrite Herr. step_handler.
        now rewrite Hsel. }
    destruct (req_user req) as [user|] eqn:Huser.
    2:{ unfold CustomerController.updateCustomer. rewrite Herr. step_handler.
        now rewrite Hsel, Huser. }
    destruct (customers_update_accepted (by_id (req_params_id req))
                (CustomerController.rewritten
                   (CustomerController.updateData env req existing user)) db)
      eqn:Hacc.
    2:{ now rewrite (updateCustomer_rejected env req db existing user). }
    rewrite (updateCustomer_store env req db existing user Herr Hsel Huser Hacc).
    audit_frame F; cbn [snd]; destruct F as (_ & -> & -> & _ & -> & _);
      repeat split.
Qed.


(** Under the primary key two rows with one id are one row. *)
Lemma pk_unique_inj (rows : list obj) (r l : obj) :
  pk_unique rows -> In r rows -> In l rows -> get r "id" = get l "id" -> r = l.
Proof.
  unfold pk_unique. induction rows as [|r0 rows IH]; simpl; [contradiction|].
  intros Hnd Hr Hl Hid. apply NoDup_cons in Hnd. destruct Hnd as [Hnotin Hnd].
  destruct Hr as [-> | Hr], Hl as [-> | Hl]; auto.
  - exfalso. apply Hnotin. rewrite Hid. apply list_elem_of_In.
    exact (in_map (fun x : obj => get x "id") rows l Hl).
  - exfalso. apply Hnotin. rewrite <- Hid. apply list_elem_of_In.
    exact (in_map (fun x : obj => get x "id") rows r Hr).
Qed.

(** The store after [deleteCustomer] has run its DELETE. *)
Lemma deleteCustomer_store (env : Env) (req : Req) (db : Db) (c : obj) :
  select_first (by_id (req_params_id req)) (customers db) = Some c ->
  let db1 := delete_customer_by_id (req_params_id req) db in
  customers (snd (CustomerController.deleteCustomer env req db)) = customers db1 /\
  leads (snd (CustomerController.deleteCustomer env req db)) = leads db1.
Proof.
  intros Hsel db1.
  unfold CustomerController.deleteCustomer. step_handler. rewrite Hsel.
  step_handler. destruct (req_user req) as [user|]; step_handler.
  - audit_frame F; destruct F as (_ & _ & _ & Hc & Hl & _); step_handler;
      cbn [snd]; now rewrite ?Hc, ?Hl.
  - split; reflexivity.
Qed.

(** No lead with the requested id: 404. *)
Lemma requireRecordAccess_lead_404 (req : Req) (db : Db) (user : obj) :
  req_user req = Some user ->
  truthy (req_params_id req) = true ->
  select_first (by_id (req_params_id req)) (leads db) = None ->
  Rbac.requireRecordAccess "lead" req db =
    (Sent (mkResponse 404 [("success", JBool false);
                           ("message", JStr "lead not found")]), db).
Proof.
  intros Hu Hid Hsel. unfold Rbac.requireRecordAccess.
  rewrite Hu, Hid. step_handler. rewrite Hsel. reflexivity.
Qed.

(** C9.  With foreign keys enabled, deleting an existing customer removes
    every lead whose [customerId] is that customer: afterwards neither the
    customer nor the lead is found by id, and a single-lead request for it
    is answered 404. *)
Theorem deleteCustomer_cascades_to_leads (env : Env) (req : Req) (db : Db)
    (c l : obj) (lid : string) :
  foreign_keys db = true ->
  pk_unique (leads db) ->
  select_first (by_id (req_params_id req)) (customers db) = Some c ->
  In l (leads db) ->
  get l "id" = JStr lid ->
  lid <> EmptyString ->
  sql_eq (get l "customerId") (get c "id") = true ->
  let db' := snd (CustomerController.deleteCustomer env req db) in
  select_first (by_id (req_params_id req)) (customers db') = None /\
  select_first (by_id (JStr lid)) (leads db') = None /\
  forall (req' : Req) (user : obj),
    req_user req' = Some user -> req_params_id req' = JStr lid ->
    response (Rbac.requireRecordAccess "lead" req' db') =
      Some (mkResponse 404 [("success", JBool false);
                            ("message", JStr "lead not found")]).
Proof.
  intros Hfk Hpk Hsel Hl Hlid Hne Hown db'.
  destruct (deleteCustomer_store env req db c Hsel) as [Hcs Hls].
  fold db' in Hcs, Hls.
  assert (Hgone : select_first (by_id (JStr lid)) (leads db') = None).
  { rewrite Hls. simpl. rewrite Hfk. apply select_first_none.
    intros r Hr. destruct (by_id (JStr lid) r) eqn:Hrid; [exfalso|reflexivity].
    pose proof (delete_where_none _ _ _ Hr) as Horphan.
    apply delete_where_In in Hr.
    assert (r = l) as ->.
    { apply (pk_unique_inj (leads db)); auto.
      rewrite Hlid. now apply by_id_str. }
    simpl in Horphan. apply not_true_iff_false in Horphan. apply Horphan.
    apply existsb_exists. exists c. split; [|exact Hown].
    apply List.filter_In. apply select_first_In in Hsel. exact Hsel. }
  split; [|split].
  - rewrite Hcs. simpl. apply select_first_none.
    intros r Hr. now apply delete_where_none in Hr.
  - exact Hgone.
  - intros req' user Hu Hid.
    rewrite (requireRecordAccess_lead_404 req' db' user); auto.
    + rewrite Hid. simpl. apply negb_true_iff. now apply String.eqb_neq.
    + now rewrite Hid.
Qed.

End Customers.

(** Sarah, an admin, sets customer 1 inactive a minute after John's last
    update of it: beside [status], the editor and the timestamp change. *)
Lemma update_status_only_changeset_witness :
  let env := mkEnv 1704067260000 "tok" "act-9" in
  let req := Demo.request (Some Demo.sarah) (JStr "1")
               [("name", JStr "Acme Corporation"); ("status", JStr "inactive")] in
  exists row,
    activities (snd (CustomerController.updateCustomer (libs := Demo.libs) env req Demo.db))
      = (activities Demo.db ++ [row])%list /\
    get row "type" = JStr "update" /\
    get row "resourceType" = JStr "customer" /\
    get row "resourceId" = JStr "1" /\
    get row "userId" = JStr "3" /\
    get row "changes" =
      JStr (JSON_stringify (Libs := Demo.libs)
              (JObj [("status", JObj [("from", JStr "active");
                                      ("to", JStr "inactive")]);
                     ("updatedBy", JObj [("from", JStr "2"); ("to", JStr "3")]);
                     ("updatedAt", JObj [("from", JNum 1704067200000);
                                         ("to", JNum 1704067260000)])])).
Proof.
  intros env req.
  apply (update_status_only_changeset (libs := Demo.libs) env req Demo.db
           Demo.acme Demo.sarah "3" (JStr "active") (JStr "inactive"));
    try reflexivity.
  intros k Hin Hs Hb Ha. simpl in Hin.
  repeat (destruct Hin as [<- | Hin]; [try reflexivity; congruence|]).
  contradiction.
Defined.

(** John himself sets customer 1 inactive a minute after his last update
    of it, touching no other field: the change-set stored with the audit
    record has the entry of [updatedAt] beside that of [status], and is
    not the text of the [status] entry alone. *)
Lemma status_edit_also_records_updatedAt :
  let env := mkEnv 1704067260000 "tok" "act-9" in
  let req := Demo.request (Some Demo.john) (JStr "1")
               [("name", JStr "Acme Corporation"); ("status", JStr "inactive")] in
  let newData :=
    CustomerController.updateData (libs := Demo.libs) env req Demo.acme Demo.john in
  let status := ("status", JObj [("from", JStr "active"); ("to", JStr "inactive")]) in
  let updatedAt := ("updatedAt", JObj [("from", JNum 1704067200000);
                                       ("to", JNum 1704067260000)]) in
  (forall k, In k (keys newData) ->
             k <> "status" -> k <> "updatedBy" -> k <> "updatedAt" ->
             strict_eq (get Demo.acme k) (get newData k) = true) /\
  Logger.diff Demo.acme newData = [status; updatedAt] /\
  (exists row,
     activities (snd (CustomerController.updateCustomer (libs := Demo.libs)
                        env req Demo.db)) = [row] /\
     get row "type" = JStr "update" /\
     get row "changes" = JStr (Demo.json_text (JObj [status; updatedAt]))) /\
  Demo.json_text (JObj [status; updatedAt]) <> Demo.json_text (JObj [status]).
Proof.
  intros env req newData status updatedAt. split; [|split; [|split]].
  - intros k Hin Hs Hb Ha. simpl in Hin.
    repeat (destruct Hin as [<- | Hin]; [try reflexivity; congruence|]).
    contradiction.
  - reflexivity.
  - eexists. split; [reflexivity|]. split; reflexivity.
  - vm_compute. discriminate.
Qed.

(** A status outside the CHECK constraint of the column: the UPDATE
    fails, the answer is 500 and neither the row nor the audit trail
    changes. *)
Lemma updateCustomer_rejected_demo :
  CustomerController.updateCustomer (libs := Demo.libs)
    (mkEnv 1704067260000 "tok" "act-9")
    (Demo.request (Some Demo.sarah) (JStr "1")
       [("name", JStr "Acme Corporation"); ("status", JStr "archived")])
    Demo.db =
  (Sent (mkResponse 500 [("success", JBool false);
                         ("message", JStr "Failed to update customer")]),
   Demo.db).
Proof. reflexivity. Qed.

(** Customer 1 owns leads 1 and 2; John deletes it. *)
Lemma deleteCustomer_cascades_to_leads_witness :
  let db' := snd (CustomerController.deleteCustomer (libs := Demo.libs)
                    (mkEnv 1704067260000 "tok" "act-9")
                    (Demo.request (Some Demo.john) (JStr "1") []) Demo.db) in
  select_first (by_id (JStr "1")) (customers db') = None /\
  select_first (by_id (JStr "2")) (leads db') = None /\
  forall (req' : Req) (user : obj),
    req_user req' = Some user -> req_params_id req' = JStr "2" ->
    response (Rbac.requireRecordAccess "lead" req' db') =
      Some (mkResponse 404 [("success", JBool false);
                            ("message", JStr "lead not found")]).
Proof.
  apply (deleteCustomer_cascades_to_leads (libs := Demo.libs)
           (mkEnv 1704067260000 "tok" "act-9")
           (Demo.request (Some Demo.john) (JStr "1") []) Demo.db Demo.acme
           (Demo.lead "2" "Support Contract" "1" "2" "team-1") "2").
  - reflexivity.
  - unfold pk_unique. simpl.
    repeat (apply NoDup_cons_2;
            [rewrite list_elem_of_In; simpl; intuition discriminate|]).
    apply NoDup_nil_2.
  - reflexivity.
  - simpl. tauto.
  - reflexivity.
  - discriminate.
  - reflexivity.
Defined.

(** Both leads of customer 1 are gone and lead 3, of customer 2, stays. *)
Lemma deleteCustomer_demo :
  map (fun r => get r "id")
      (leads (snd (CustomerController.deleteCustomer (libs := Demo.libs)
                     (mkEnv 1704067260000 "tok" "act-9")
                     (Demo.request (Some Demo.john) (JStr "1") []) Demo.db)))
  = [JStr "3"].
Proof. reflexivity. Qed.

(** An update that tries to take over ownership changes the status and
    nothing of the identity of the row. *)
Lemma updateCustomer_demo :
  let db' := snd (CustomerController.updateCustomer (libs := Demo.libs)
                    (mkEnv 1704067260000 "tok" "act-9")
                    (Demo.request (Some Demo.sarah) (JStr "1")
                       [("name", JStr "Acme Corporation");
                        ("status", JStr "inactive"); ("ownerId", JStr "3");
                        ("teamId", JStr "team-2"); ("id", JStr "7")])
                    Demo.db) in
  (fun r => (get r "id", get r "ownerId", get r "teamId", get r "status",
             get r "updatedBy"))
    <$> select_first (by_id (JStr "1")) (customers db')
  = Some (JStr "1", JStr "2", JStr "team-1", JStr "inactive", JStr "3").
Proof. reflexivity. Qed.

(** * The rest of the backend

    Properties of the code around the specification's: the authentication
    middleware, the routes, registration and logout, the creation of
    customers and leads, the lead controller, the list statements and the
    client's copy of the access rules. *)

(** ** The matrix by role *)

Section RoleOrder.
Context `{engine : Builtins.Engine}.

#[local] Abbreviation full := ["create"; "read"; "update"; "delete"].
#[local] Abbreviation admin_row :=
  ({[ "customers" := full; "leads" := full; "users" := full; "teams" := full;
      "activities" := full; "reports" := ["read"; "export"] ]}
   : gmap string (list string)).
#[local] Abbreviation manager_row :=
  ({[ "customers" := full; "leads" := full; "users" := ["read"];
      "teams" := ["read"; "update"]; "activities" := full;
      "reports" := ["read"; "export"] ]}
   : gmap string (list string)).
#[local] Abbreviation sales_rep_row :=
  ({[ "customers" := ["create"; "read"; "update"];
      "leads" := ["create"; "read"; "update"];
      "users" := ["read"]; "teams" := ["read"];
      "activities" := ["create"; "read"; "update"];
      "reports" := ["read"] ]}
   : gmap string (list string)).

(** The verdict of [hasPermission] for a user whose role is the string
    [r], one of the three of the matrix: the matrix entry of [r] and the
    resource; for a resource that the role does not list, denied unless
    the name is one that every object inherits, where the call raises. *)
Lemma hasPermission_role (u : obj) (r : string) (rp : gmap string (list string))
    (s a : string) :
  get u "role" = JStr r ->
  Rbac.ROLE_PERMISSIONS !! r = Some rp ->
  Rbac.hasPermission (Some u) s a =
    match rp !! s with
    | Some acts => Returned (Rbac.includes acts a)
    | None =>
        if Builtins.truthy_held (Rbac.inherited s) then Raised
        else Returned false
    end.
Proof.
  intros Hr Hrp. apply hasPermission_listed_role. now rewrite Hr.
Qed.

Lemma resource_cases (s : string) :
  s = "customers" \/ s = "leads" \/ s = "users" \/ s = "teams" \/
  s = "activities" \/ s = "reports" \/
  (s <> "customers" /\ s <> "leads" /\ s <> "users" /\
   s <> "teams" /\ s <> "activities" /\ s <> "reports").
Proof.
  destruct (decide (s = "customers")); [tauto|].
  destruct (decide (s = "leads")); [tauto|].
  destruct (decide (s = "users")); [tauto|].
  destruct (decide (s = "teams")); [tauto|].
  destruct (decide (s = "activities")); [tauto|].
  destruct (decide (s = "reports")); tauto.
Qed.

(** X1.  The roles are ordered: whatever the matrix grants a sales
    representative it grants a manager, and whatever it grants a manager
    it grants an administrator, on every resource and for every action. *)
Theorem permissions_grow_with_role (rep manager admin : obj) (s a : string) :
  get rep "role" = JStr "sales_rep" ->
  get manager "role" = JStr "manager" ->
  get admin "role" = JStr "admin" ->
  (Rbac.hasPermission (Some rep) s a = Returned true ->
   Rbac.hasPermission (Some manager) s a = Returned true) /\
  (Rbac.hasPermission (Some manager) s a = Returned true ->
   Rbac.hasPermission (Some admin) s a = Returned true).
Proof.
  intros Hr Hm Ha.
  rewrite (hasPermission_role rep "sales_rep" sales_rep_row),
    (hasPermission_role manager "manager" manager_row),
    (hasPermission_role admin "admin" admin_row) by (assumption || reflexivity).
  destruct (resource_cases s) as [-> | [-> | [-> | [-> | [-> | [-> | Hnone]]]]]];
    simplify_map_eq;
    try (split; destruct (String.eqb a "create"), (String.eqb a "read"),
           (String.eqb a "update"), (String.eqb a "delete"),
           (String.eqb a "export"); simpl; auto; discriminate).
  destruct Hnone as (? & ? & ? & ? & ? & ?). simplify_map_eq.
  split; destruct (Builtins.truthy_held (Rbac.inherited s)); discriminate.
Qed.

(** The matrix grants a sales representative [delete] on nothing, and
    on the six resources the verdict is a plain no. *)
Lemma sales_rep_lacks_delete (u : obj) (s : string) :
  get u "role" = JStr "sales_rep" ->
  Rbac.hasPermission (Some u) s "delete" <> Returned true /\
  (In s ["customers"; "leads"; "users"; "teams"; "activities"; "reports"] ->
   Rbac.hasPermission (Some u) s "delete" = Returned false).
Proof.
  intros Hr.
  rewrite (hasPermission_role u "sales_rep" sales_rep_row)
    by (assumption || reflexivity).
  destruct (resource_cases s) as [-> | [-> | [-> | [-> | [-> | [-> | Hnone]]]]]];
    simplify_map_eq; try (split; [discriminate | reflexivity]).
  destruct Hnone as (? & ? & ? & ? & ? & ?). simplify_map_eq. split.
  - destruct (Builtins.truthy_held (Rbac.inherited s)); discriminate.
  - simpl. intuition congruence.
Qed.

End RoleOrder.

(** ** The authentication middleware *)

Section Middleware.
Context `{libs : Libs} `{errors : JwtErrors} (config : Config).

#[local] Abbreviation authenticate := (AuthMiddleware.authenticate config).

Lemma sql_eq_num_inv (n : Z) (v : jsval) : sql_eq v (JNum n) = true -> v = JNum n.
Proof.
  destruct v; simpl; try discriminate.
  intros E. apply Z.eqb_eq in E. now subst.
Qed.

(** [authenticate] reads the store and never writes to it. *)
Lemma authenticate_store (env : Env) (h : jsval) (req : Req) (db : Db) :
  snd (authenticate env h req db) = db.
Proof.
  unfold AuthMiddleware.authenticate. step_handler.
  destruct (AuthMiddleware.bearer h) as [token|]; [|reflexivity].
  destruct (jwt_verify _ _ _) as [decoded|]; step_handler.
  - destruct (AuthMiddleware.load_user decoded db); reflexivity.
  - destruct (String.eqb _ "TokenExpiredError"); [reflexivity|].
    destruct (String.eqb _ "JsonWebTokenError"); reflexivity.
Qed.

(** No error escapes [authenticate]. *)
Lemma authenticate_catches (env : Env) (h : jsval) (req : Req) (db : Db) :
  fst (authenticate env h req db) <> Threw.
Proof.
  unfold AuthMiddleware.authenticate. step_handler.
  destruct (AuthMiddleware.bearer h) as [token|]; [|discriminate].
  destruct (jwt_verify _ _ _) as [decoded|]; step_handler.
  - destruct (AuthMiddleware.load_user decoded db); discriminate.
  - destruct (String.eqb _ "TokenExpiredError"); [discriminate|].
    destruct (String.eqb _ "JsonWebTokenError"); discriminate.
Qed.

(** The request that [authenticate] hands on is the one it was given,
    with [req.user] set. *)
Lemma authenticate_next (env : Env) (h : jsval) (req req' : Req) (db db' : Db) :
  authenticate env h req db = (Next req', db') ->
  exists user, req' = AuthMiddleware.with_user req (Some user).
Proof.
  unfold AuthMiddleware.authenticate. step_handler.
  destruct (AuthMiddleware.bearer h) as [token|]; [|discriminate].
  destruct (jwt_verify _ _ _) as [decoded|]; step_handler.
  - destruct (AuthMiddleware.load_user decoded db) as [user|]; [|discriminate].
    intros [= <- _]. now exists user.
  - destruct (String.eqb _ "TokenExpiredError"); [discriminate|].
    destruct (String.eqb _ "JsonWebTokenError"); discriminate.
Qed.

(** X2.  When [authenticate] hands the request on, the header carried a
    bearer token that [jwt.verify] accepted, and [req.user] is read from
    the users table as it stands now: the row whose id is the token's
    [userId], which is active; its role and team are the stored ones, not
    the token's, and the password hash is not part of it.  The store is
    unchanged. *)
Theorem authenticate_loads_stored_principal (env : Env) (h : jsval)
    (req req' : Req) (db db' : Db) :
  authenticate env h req db = (Next req', db') ->
  db' = db /\
  exists token decoded row user,
    AuthMiddleware.bearer h = Some token /\
    jwt_verify (JStr token) (jwt_secret config) (now env) = Some decoded /\
    In row (users db) /\
    sql_eq (get row "id") (get decoded "userId") = true /\
    get row "isActive" = JNum 1 /\
    req' = AuthMiddleware.with_user req (Some user) /\
    get user "id" = get row "id" /\
    get user "role" = get row "role" /\
    get user "teamId" = get row "teamId" /\
    get user "password" = JUndefined.
Proof.
  intros Hrun. split.
  { rewrite <- (authenticate_store env h req db). now rewrite Hrun. }
  revert Hrun. unfold AuthMiddleware.authenticate. step_handler.
  destruct (AuthMiddleware.bearer h) as [token|]; [|discriminate].
  destruct (jwt_verify _ _ _) as [decoded|] eqn:Hv; step_handler.
  - unfold AuthMiddleware.load_user.
    destruct (select_first _ (users db)) as [row|] eqn:Hsel; simpl; [|discriminate].
    intros [= <- _]. apply select_first_In in Hsel. destruct Hsel as [Hin Hq].
    apply andb_true_iff in Hq. destruct Hq as [Hid Hact].
    exists token, decoded, row. eexists. repeat split; try reflexivity; auto.
    now apply sql_eq_num_inv.
  - destruct (String.eqb _ "TokenExpiredError"); [discriminate|].
    destruct (String.eqb _ "JsonWebTokenError"); discriminate.
Qed.

(** X3.  [authenticate] never writes to the store and lets no error
    escape; a request without a bearer token is answered 401 [Access token
    required]; and whenever it answers the request itself the status is
    401 or 500. *)
Theorem authenticate_rejections (env : Env) (h : jsval) (req : Req) (db : Db) :
  snd (authenticate env h req db) = db /\
  fst (authenticate env h req db) <> Threw /\
  (AuthMiddleware.bearer h = None ->
   response (authenticate env h req db) =
     Some (mkResponse 401 [("success", JBool false);
                           ("message", JStr "Access token required")])) /\
  (forall r, response (authenticate env h req db) = Some r ->
             status r = 401 \/ status r = 500).
Proof.
  split; [apply authenticate_store|]. split; [apply authenticate_catches|].
  unfold AuthMiddleware.authenticate. step_handler.
  destruct (AuthMiddleware.bearer h) as [token|].
  2:{ split; [reflexivity|]. intros r [= <-]. now left. }
  split; [discriminate|].
  destruct (jwt_verify _ _ _) as [decoded|]; step_handler.
  - destruct (AuthMiddleware.load_user decoded db); simpl.
    + discriminate.
    + intros r [= <-]. now left.
  - destruct (String.eqb _ "TokenExpiredError").
    { intros r [= <-]. now left. }
    destruct (String.eqb _ "JsonWebTokenError").
    { intros r [= <-]. now left. }
    intros r [= <-]. now right.
Qed.

(** X4.  [optionalAuth] never answers the request, never raises and never
    writes: it always hands a request on, either the one it was given or
    that request with the user of a verified token. *)
Theorem optionalAuth_never_rejects (env : Env) (h : jsval) (req : Req) (db : Db) :
  exists req',
    AuthMiddleware.optionalAuth config env h req db = (Next req', db) /\
    (req' = req \/
     exists token decoded user,
       AuthMiddleware.bearer h = Some token /\
       jwt_verify (JStr token) (jwt_secret config) (now env) = Some decoded /\
       AuthMiddleware.load_user decoded db = Some user /\
       req' = AuthMiddleware.with_user req (Some user)).
Proof.
  unfold AuthMiddleware.optionalAuth. step_handler.
  destruct (AuthMiddleware.bearer h) as [token|] eqn:Hb; [|eauto].
  destruct (jwt_verify _ _ _) as [decoded|] eqn:Hv; [|eauto].
  step_handler.
  destruct (AuthMiddleware.load_user decoded db) as [user|] eqn:Hu; [|eauto].
  eexists. split; [reflexivity|]. right. eauto 10.
Qed.

End Middleware.

(** ** The routes: what stands before a controller *)

Section RouteGuards.
Context `{libs : Libs} `{errors : JwtErrors} `{engine : Builtins.Engine}
  `{validator : Validator} (config : Config).

#[local] Abbreviation access_columns :=
  [("ownerId", "ownerId"); ("teamId", "teamId"); ("assignedTo", "assignedTo")].

#[local] Abbreviation record_guard := (Routes.record_guard config).
#[local] Abbreviation authorized := (Routes.authorized config).

(** The record middleware on customers and leads: it never writes, and it
    hands the request on only for a principal that [canAccessRecord]
    accepts on the row with the requested id. *)
Lemma requireRecordAccess_pass (rt : string) (req : Req) (db : Db) :
  rt = "customer" \/ rt = "lead" ->
  snd (Rbac.requireRecordAccess rt req db) = db /\
  fst (Rbac.requireRecordAccess rt req db) <> Threw /\
  forall req',
    fst (Rbac.requireRecordAccess rt req db) = Next req' ->
    exists u row,
      req_user req = Some u /\
      select_first (by_id (req_params_id req)) (Routes.table_of rt db) = Some row /\
      Rbac.canAccessRecord (Some u) (Some (project access_columns row)) = true /\
      req_user req' = req_user req /\ req_params_id req' = req_params_id req /\
      req_body req' = req_body req /\ req_errors req' = req_errors req.
Proof.
  intros Hrt. unfold Rbac.requireRecordAccess, Routes.table_of.
  destruct (req_user req) as [u|] eqn:Hu.
  2:{ repeat split; try discriminate. }
  destruct (truthy (req_params_id req)); simpl negb; cbv iota.
  2:{ repeat split; try discriminate. }
  destruct Hrt as [-> | ->]; step_handler.
  - destruct (select_first _ (customers db)) as [row|] eqn:Hsel; step_handler.
    2:{ repeat split; try discriminate. }
    destruct (Rbac.canAccessRecord _ _) eqn:Hacc; step_handler.
    2:{ repeat split; try discriminate. }
    repeat split; try discriminate.
    intros req' [= <-]. exists u, row. repeat split; auto.
  - destruct (select_first _ (leads db)) as [row|] eqn:Hsel; step_handler.
    2:{ repeat split; try discriminate. }
    destruct (Rbac.canAccessRecord _ _) eqn:Hacc; step_handler.
    2:{ repeat split; try discriminate. }
    repeat split; try discriminate.
    intros req' [= <-]. exists u, row. repeat split; auto.
Qed.

(** The permission middleware never writes and hands on the request it
    was given, for a principal the matrix allows. *)
Lemma requirePermission_pass (resource permission : string) (req : Req) (db : Db) :
  snd (Rbac.requirePermission resource permission req db) = db /\
  forall req',
    fst (Rbac.requirePermission resource permission req db) = Next req' ->
    req' = req /\
    Rbac.hasPermission (req_user req) resource permission = Returned true.
Proof.
  unfold Rbac.requirePermission.
  destruct (req_user req) as [u|] eqn:Hu.
  2:{ repeat split; try discriminate. }
  destruct (Rbac.hasPermission (Some u) resource permission) as [[|]|] eqn:Hp;
    simpl.
  - split; [reflexivity|]. intros req' [= <-]. split; reflexivity.
  - repeat split; try discriminate.
  - repeat split; try discriminate.
Qed.

(** [authenticate] followed by [requirePermission]. *)
Lemma guarded_pass (resource permission : string) (env : Env) (h : jsval)
    (req : Req) (db : Db) :
  snd (Routes.guarded config resource permission env h req db) = db /\
  forall req1,
    fst (Routes.guarded config resource permission env h req db) = Next req1 ->
    exists u,
      AuthMiddleware.authenticate config env h req db = (Next req1, db) /\
      req1 = AuthMiddleware.with_user req (Some u) /\
      Rbac.hasPermission (Some u) resource permission = Returned true.
Proof.
  unfold Routes.guarded, bind.
  pose proof (authenticate_store config env h req db) as Hst.
  pose proof (authenticate_catches config env h req db) as Hnt.
  destruct (AuthMiddleware.authenticate config env h req db) as [[r|req1|] db1] eqn:Ha;
    simpl in Hst; subst db1.
  1:{ repeat split; try discriminate. }
  2:{ now elim Hnt. }
  destruct (authenticate_next config env h req req1 db db Ha) as (user & Hreq1).
  destruct (requirePermission_pass resource permission req1 db) as (Hs & Hp).
  destruct (Rbac.requirePermission resource permission req1 db) as [[r|req1'|] db1];
    simpl in Hs; subst db1.
  1,3:(repeat split; try discriminate).
  destruct (Hp req1' eq_refl) as [-> Hperm].
  repeat split; try discriminate. intros ? [= <-].
  exists user. repeat split; auto. rewrite Hreq1 in Hperm. exact Hperm.
Qed.

Lemma record_guard_pass (resource permission rt : string) (env : Env)
    (h : jsval) (req : Req) (db : Db) :
  rt = "customer" \/ rt = "lead" ->
  snd (record_guard resource permission rt env h req db) = db /\
  forall req2,
    fst (record_guard resource permission rt env h req db) = Next req2 ->
    authorized resource permission rt env h req db.
Proof.
  intros Hrt. unfold Routes.record_guard, bind.
  destruct (guarded_pass resource permission env h req db) as (Hs & Hp).
  destruct (Routes.guarded config resource permission env h req db)
    as [[r|req1|] db1]; simpl in Hs; subst db1.
  1,3:(repeat split; try discriminate).
  destruct (Hp req1 eq_refl) as (u0 & Ha & Hreq1 & Hperm).
  destruct (requireRecordAccess_pass rt req1 db Hrt) as (Hs2 & Hn2 & Hr).
  destruct (Rbac.requireRecordAccess rt req1 db) as [[r|req2|] db1];
    simpl in Hs2, Hn2; subst db1.
  1:{ repeat split; try discriminate. }
  2:{ now elim Hn2. }
  repeat split; try discriminate. intros ? [= <-].
  destruct (Hr req2 eq_refl) as (u & row & Hu & Hsel & Hacc & _).
  exists req1, u, row. rewrite Hreq1 in Hu, Hsel. simpl in Hu, Hsel.
  injection Hu as <-. subst req1. repeat split; auto.
Qed.

(** A controller behind the record guard writes only for an authorized
    request. *)
Lemma guarded_controller_writes (resource permission rt : string) (env : Env)
    (h : jsval) (req : Req) (db : Db) (controller : Req -> Handler unit) :
  rt = "customer" \/ rt = "lead" ->
  snd (bind (record_guard resource permission rt env h req) controller db) <> db ->
  authorized resource permission rt env h req db.
Proof.
  intros Hrt Hw. unfold bind in Hw.
  destruct (record_guard_pass resource permission rt env h req db Hrt)
    as (Hs & Hp).
  destruct (Routes.record_guard config resource permission rt env h req db)
    as [[r|req2|] db1]; simpl in Hs; subst db1.
  - now elim Hw.
  - exact (Hp req2 eq_refl).
  - now elim Hw.
Qed.

(** X5.  [PUT /customers/:id] and [DELETE /customers/:id] change the store
    only for an authorized request: a verified token of an active stored
    user whom the matrix grants the action on customers and whom
    [canAccessRecord] accepts on the stored customer with the requested
    id. *)
Theorem customer_writes_are_authorized (env : Env) (h : jsval) (req : Req)
    (db : Db) :
  (snd (Routes.customers_put config env h req db) <> db ->
   authorized "customers" "update" "customer" env h req db) /\
  (snd (Routes.customers_delete config env h req db) <> db ->
   authorized "customers" "delete" "customer" env h req db).
Proof.
  split; apply guarded_controller_writes; now left.
Qed.

(** X6.  [PUT /leads/:id] and [DELETE /leads/:id] change the store only
    for an authorized request, the record being the stored lead with the
    requested id. *)
Theorem lead_writes_are_authorized (env : Env) (h : jsval) (req : Req)
    (db : Db) :
  (snd (Routes.leads_put config env h req db) <> db ->
   authorized "leads" "update" "lead" env h req db) /\
  (snd (Routes.leads_delete config env h req db) <> db ->
   authorized "leads" "delete" "lead" env h req db).
Proof.
  split; apply guarded_controller_writes; now right.
Qed.

(** X7.  A sales representative's DELETE on a customer or a lead is
    answered 403 by the permission check, before the record is looked up
    (so also for an id that does not exist), and nothing is written. *)
Theorem sales_rep_cannot_delete (env : Env) (h : jsval) (req req1 : Req)
    (db : Db) (u : obj) :
  AuthMiddleware.authenticate config env h req db = (Next req1, db) ->
  req_user req1 = Some u ->
  get u "role" = JStr "sales_rep" ->
  Routes.customers_delete config env h req db =
    (Sent (mkResponse 403
       [("success", JBool false);
        ("message", JStr "Insufficient permissions. Required: delete on customers")]),
     db) /\
  Routes.leads_delete config env h req db =
    (Sent (mkResponse 403
       [("success", JBool false);
        ("message", JStr "Insufficient permissions. Required: delete on leads")]),
     db).
Proof.
  intros Ha Hu Hr.
  unfold Routes.customers_delete, Routes.leads_delete, Routes.record_guard,
    Routes.guarded, bind.
  rewrite Ha. unfold Rbac.requirePermission. rewrite Hu.
  destruct (sales_rep_lacks_delete u "customers" Hr) as [_ ->];
    [|simpl; tauto].
  destruct (sales_rep_lacks_delete u "leads" Hr) as [_ ->]; [|simpl; tauto].
  split; reflexivity.
Qed.

(** [getCustomerById] and [getLeadById] only read. *)
Lemma getCustomerById_store (req : Req) (db : Db) :
  snd (CustomerController.getCustomerById req db) = db.
Proof.
  unfold CustomerController.getCustomerById. step_handler.
  destruct (CustomerController.customer_with_names _ db) as [c|]; [|reflexivity].
  destruct (truthy (get c "tags")); step_handler; [|reflexivity].
  destruct (JSON_parse (get c "tags")); reflexivity.
Qed.

Lemma getLeadById_store (req : Req) (db : Db) :
  snd (LeadController.getLeadById req db) = db.
Proof.
  unfold LeadController.getLeadById. step_handler.
  destruct (LeadController.lead_with_names _ db); reflexivity.
Qed.

End RouteGuards.

(** ** Sessions: a successful login, logout, registration *)

Section Accounts.
Context `{libs : Libs} (config : Config).

#[local] Abbreviation login := (AuthController.login config).
#[local] Abbreviation invalid_credentials :=
  (mkResponse 401 [("success", JBool false); ("message", JStr "Invalid credentials")]).
#[local] Abbreviation locked :=
  (mkResponse 423
     [("success", JBool false);
      ("message", JStr "Account temporarily locked due to too many failed login attempts")]).
#[local] Abbreviation week := (7 * 24 * 60 * 60 * 1000)%Z.
#[local] Abbreviation secrets := ["password"; "loginAttempts"; "lockUntil"].

Lemma get_without_in (ks : list string) (o : obj) (k : string) :
  In k ks -> get (AuthController.without ks o) k = JUndefined.
Proof.
  intros Hk. unfold AuthController.without.
  induction o as [|[k' v] o IH]; simpl; [reflexivity|].
  destruct (existsb (String.eqb k') ks) eqn:E; simpl; [exact IH|].
  destruct (String.eqb k' k) eqn:Ek; [|exact IH].
  apply String.eqb_eq in Ek. subst k'.
  assert (existsb (String.eqb k) ks = true)
    by (apply existsb_exists; exists k; split; [exact Hk | apply String.eqb_refl]).
  congruence.
Qed.

Lemma get_without_other (ks : list string) (o : obj) (k : string) :
  ~ In k ks -> get (AuthController.without ks o) k = get o k.
Proof.
  intros Hk. unfold AuthController.without.
  induction o as [|[k' v] o IH]; simpl; [reflexivity|].
  destruct (String.eqb k' k) eqn:Ek.
  - apply String.eqb_eq in Ek. subst k'.
    destruct (existsb (String.eqb k) ks) eqn:E; simpl.
    + exfalso. apply existsb_exists in E. destruct E as (x & Hx & Ex).
      apply String.eqb_eq in Ex. now subst.
    + now rewrite String.eqb_refl.
  - destruct (existsb (String.eqb k') ks); simpl; [exact IH|].
    now rewrite Ek.
Qed.

Lemma select_first_none_existsb (q : obj -> bool) (rows : list obj) :
  select_first q rows = None -> existsb q rows = false.
Proof.
  unfold select_first. induction rows as [|r rows IH]; simpl; [reflexivity|].
  destruct (q r); [discriminate | exact IH].
Qed.

Lemma select_first_app_new (q : obj -> bool) (rows : list obj) (row : obj) :
  existsb q rows = false -> q row = true ->
  select_first q (rows ++ [row]) = Some row.
Proof.
  unfold select_first. induction rows as [|r rows IH]; simpl; intros Hn Hq.
  - now rewrite Hq.
  - apply orb_false_iff in Hn. destruct Hn as [Hr Hn]. rewrite Hr. now apply IH.
Qed.

(** A well-formed login with the right password on an active account that
    is not locked is answered 200. *)
Lemma login_accepts (env : Env) (req : Req) (db : Db) (u : obj) (p hash : string) :
  req_errors req = [] ->
  select_first (by_email (get (req_body req) "email")) (users db) = Some u ->
  AuthController.isAccountLocked env u = false ->
  truthy (get u "isActive") = true ->
  get (req_body req) "password" = JStr p ->
  get u "password" = JStr hash ->
  bcrypt_compare p hash = true ->
  exists r db', login env req db = (Sent r, db') /\ status r = 200.
Proof.
  intros Herr Hacc Hlock Hact Hpw Hhash Hcmp.
  unfold AuthController.login. rewrite Herr. step_handler.
  rewrite Hacc, Hlock, Hact. step_handler.
  rewrite Hpw, Hhash. unfold AuthController.compare. step_handler.
  rewrite Hcmp. step_handler.
  unfold AuthController.resetLoginAttempts, AuthController.storeRefreshToken.
  step_handler. rewrite logActivity_run. step_handler.
  do 2 eexists. split; reflexivity.
Qed.

(** An UPDATE that keeps what a WHERE clause tests keeps whether a row
    satisfies the clause. *)
Lemma existsb_update_where (q p : obj -> bool) (f : obj -> obj)
    (rows : list obj) :
  (forall r, q (f r) = q r) ->
  existsb q (update_where p f rows) = existsb q rows.
Proof.
  intros Hq. unfold update_where.
  induction rows as [|r rows IH]; simpl; [reflexivity|].
  rewrite IH. destruct (p r); now rewrite ?Hq.
Qed.

(** X8.  A successful login is answered 200 with the stored row of the
    user less its [password], [loginAttempts] and [lockUntil], every other
    column as stored, and with two tokens; in the store the account's
    failure counter is back to 0, its lock is cleared, [lastLoginAt] is
    the time of the request and the password is untouched; the refresh
    token handed out is stored for the user with a life of seven days;
    and, the id drawn for it being new, one [login] activity of the user
    is appended to the audit trail. *)
Theorem login_success_resets_counter (env : Env) (req : Req) (db : Db) (u : obj)
    (uid p hash : string) :
  req_errors req = [] ->
  select_first (by_email (get (req_body req) "email")) (users db) = Some u ->
  get u "id" = JStr uid ->
  AuthController.isAccountLocked env u = false ->
  truthy (get u "isActive") = true ->
  get (req_body req) "password" = JStr p ->
  get u "password" = JStr hash ->
  bcrypt_compare p hash = true ->
  fresh_id (activities db) (JStr (activityId env)) = true ->
  exists r db' user token u' act,
    login env req db = (Sent r, db') /\
    status r = 200 /\
    get (json r) "data" =
      JObj [("user", JObj user);
            ("accessToken", JStr (fst (AuthController.generateTokens config env u)));
            ("refreshToken", JStr token)] /\
    user = AuthController.without secrets u /\
    (forall k, In k secrets -> get user k = JUndefined) /\
    (forall k, ~ In k secrets -> get user k = get u k) /\
    select_first (by_email (get (req_body req) "email")) (users db') = Some u' /\
    get u' "loginAttempts" = JNum 0 /\
    get u' "lockUntil" = JNull /\
    get u' "lastLoginAt" = JNum (now env) /\
    get u' "password" = JStr hash /\
    In [("id", JStr (tokenId env)); ("userId", JStr uid); ("token", JStr token);
        ("expiresAt", JNum (now env + week)); ("createdAt", JNum (now env))]
       (refresh_tokens db') /\
    activities db' = (activities db ++ [act])%list /\
    get act "type" = JStr "login" /\ get act "userId" = JStr uid.
Proof.
  intros Herr Hacc Hid Hlock Hact Hpw Hhash Hcmp Hfresh.
  assert (Hby : by_id (JStr uid) u = true)
    by (unfold by_id; rewrite Hid; apply sql_eq_refl_str).
  assert (Hin : existsb (by_id (JStr uid)) (users db) = true).
  { apply existsb_exists. exists u. split; [|exact Hby].
    now apply select_first_In in Hacc. }
  unfold AuthController.login. rewrite Herr. step_handler.
  rewrite Hacc, Hlock, Hact. step_handler.
  rewrite Hpw, Hhash. unfold AuthController.compare. step_handler.
  rewrite Hcmp. step_handler.
  unfold AuthController.resetLoginAttempts, AuthController.storeRefreshToken.
  step_handler. rewrite logActivity_run. rewrite Hid.
  match goal with |- context [activities_accept ?d ?row] =>
    assert (Hok : activities_accept d row = true) end.
  { unfold activities_accept, Logger.activity_row, row_of, activities_columns.
    simpl. rewrite Hfresh. unfold refers.
    rewrite !existsb_update_where, Hin; [now rewrite orb_true_r | |];
      intros r; unfold by_id;
      now rewrite get_assign_other by (simpl; intuition discriminate). }
  rewrite Hok. step_handler.
  do 6 eexists. split; [reflexivity|]. split; [reflexivity|].
  split; [reflexivity|]. split; [reflexivity|].
  split; [intros k Hk; now apply get_without_in|].
  split; [intros k Hk; now apply get_without_other|].
  simpl users. simpl refresh_tokens. simpl activities.
  split.
  { rewrite !select_first_update_where.
    - rewrite Hacc. simpl. rewrite Hby.
      assert (Hby' : by_id (JStr uid)
                (set (set u "loginAttempts" (JNum 0)) "lockUntil" JNull) = true).
      { unfold by_id. rewrite !get_set_ne by discriminate. rewrite Hid.
        apply sql_eq_refl_str. }
      rewrite Hby'. reflexivity.
    - intros r. unfold by_email. now rewrite get_assign_other by (simpl; intuition discriminate).
    - intros r. unfold by_email. now rewrite get_assign_other by (simpl; intuition discriminate). }
  split; [rewrite !get_set_ne by discriminate; apply get_set_eq|].
  split; [rewrite get_set_ne by discriminate; apply get_set_eq|].
  split; [apply get_set_eq|].
  split; [rewrite !get_set_ne by discriminate; exact Hhash|].
  split.
  { unfold delete_where, push. apply List.filter_In. split.
    - apply in_or_app. right. now left.
    - simpl. apply negb_true_iff. apply Z.ltb_ge. lia. }
  split; [reflexivity|]. split; reflexivity.
Qed.

(** X9.  An inactive account is refused before the password is looked
    at, and a refusal is never counted: a run of well-formed attempts on
    an inactive account that carries no lock is answered 401 [Account is
    inactive] every time, right password or wrong, and leaves the store as
    it was, so that such an account is never locked. *)
Theorem inactive_account_never_counts (attempts : list (Env * Req)) (db : Db)
    (u : obj) (email : jsval) :
  select_first (by_email email) (users db) = Some u ->
  truthy (get u "isActive") = false ->
  truthy (get u "lockUntil") = false ->
  Forall (fun a => req_errors (snd a) = [] /\
                   get (req_body (snd a)) "email" = email) attempts ->
  AuthController.login_sequence config attempts db =
    (map (fun _ => Some (mkResponse 401 [("success", JBool false);
                                         ("message", JStr "Account is inactive")]))
         attempts, db).
Proof.
  intros Hacc Hact Hlock Hall.
  induction Hall as [|[env req] attempts [Herr Hem] _ IH]; [reflexivity|].
  simpl in Herr, Hem.
  assert (Hrun : login env req db =
            (Sent (mkResponse 401 [("success", JBool false);
                                   ("message", JStr "Account is inactive")]), db)).
  { unfold AuthController.login. rewrite Herr. step_handler.
    rewrite Hem, Hacc. unfold AuthController.isAccountLocked.
    now rewrite Hlock, Hact. }
  cbn [AuthController.login_sequence]. rewrite Hrun. cbn [snd fst].
  rewrite IH. reflexivity.
Qed.

(** X10.  The expiry of a lock does not reset the failure counter: on an
    account whose lock has run out and whose counter stands at the
    threshold or above, one more wrong password is answered 401 and locks
    the account again at once, so that the next attempt within the lock
    time is answered 423 whatever its password. *)
Theorem expired_lock_relocks_at_once (env env2 : Env) (req req2 : Req) (db : Db)
    (u : obj) (uid p hash : string) (a L : Z) :
  req_errors req = [] ->
  select_first (by_email (get (req_body req) "email")) (users db) = Some u ->
  select_first (by_id (JStr uid)) (users db) = Some u ->
  get u "id" = JStr uid ->
  truthy (get u "isActive") = true ->
  get u "loginAttempts" = JNum a ->
  (security_maxLoginAttempts config <= a)%Z ->
  get u "lockUntil" = JNum L ->
  (L <= now env)%Z ->
  get (req_body req) "password" = JStr p ->
  get u "password" = JStr hash ->
  bcrypt_compare p hash = false ->
  req_errors req2 = [] ->
  get (req_body req2) "email" = get (req_body req) "email" ->
  (0 <= now env2 < now env + security_lockTime config)%Z ->
  exists db',
    login env req db = (Sent invalid_credentials, db') /\
    login env2 req2 db' = (Sent locked, db').
Proof.
  intros Herr Hacc Hpk Hid Hact Hcnt Hmax Hlock Hexp Hpw Hhash Hcmp Herr2 Hem2 Hnow.
  assert (Hby : by_id (JStr uid) u = true)
    by (unfold by_id; rewrite Hid; apply sql_eq_refl_str).
  eexists. split.
  - apply (login_wrong_password config env req db u uid p hash a); auto.
    unfold AuthController.isAccountLocked. rewrite Hlock. simpl.
    apply andb_false_intro2. apply Z.ltb_ge. exact Hexp.
  - apply (login_locked config env2 req2 _ (AuthController.bump config env a u)); auto.
    + rewrite Hem2. simpl users.
      rewrite select_first_update_where, Hacc; simpl; [now rewrite Hby|].
      intros r. unfold by_email. now rewrite bump_fields.
    + unfold AuthController.isAccountLocked, AuthController.bump, assign.
      simpl fold_left. rewrite get_set_eq.
      replace (security_maxLoginAttempts config <=? a + 1)%Z with true
        by (symmetry; apply Z.leb_le; lia).
      simpl. apply andb_true_intro. split.
      * apply negb_true_iff. apply Z.eqb_neq. lia.
      * apply Z.ltb_lt. lia.
Qed.

(** A text column equals a text parameter when they are the same text. *)
Lemma sql_eq_text (v : jsval) (t : string) :
  sql_eq v (JStr t) = true <-> v = JStr t.
Proof.
  destruct v; simpl; split; try discriminate.
  - intros E. apply String.eqb_eq in E. now subst.
  - intros [= ->]. apply String.eqb_refl.
Qed.

(** X11.  [logout] is always answered 200.  When the body carries a
    refresh token that the DELETE binds as the text [t] (a string, or an
    array or an object, bound as its text), no stored token is [t]
    afterwards and every stored token other than [t] stays; without a
    token in the body the stored tokens stay as they are; no token is ever
    added, and users, customers and leads are untouched. *)
Theorem logout_revokes_token (env : Env) (req : Req) (db : Db) :
  let token := get (req_body req) "refreshToken" in
  exists db',
    AuthController.logout env req db =
      (Sent (mkResponse 200 [("success", JBool true);
                             ("message", JStr "Logout successful")]), db') /\
    (forall t, truthy token = true -> bound token = JStr t ->
       (forall r, In r (refresh_tokens db') -> get r "token" <> JStr t) /\
       (forall r, In r (refresh_tokens db) -> get r "token" <> JStr t ->
                  In r (refresh_tokens db'))) /\
    (truthy token = false -> refresh_tokens db' = refresh_tokens db) /\
    (forall r, In r (refresh_tokens db') -> In r (refresh_tokens db)) /\
    users db' = users db /\ customers db' = customers db /\ leads db' = leads db.
Proof.
  intros token. unfold AuthController.logout. fold token. step_handler.
  unfold AuthController.removeRefreshToken.
  assert (Hrevoked : forall t, bound token = JStr t ->
            (forall r, In r (delete_where
                               (fun r => sql_eq (get r "token") (bound token))
                               (refresh_tokens db)) ->
                       get r "token" <> JStr t) /\
            (forall r, In r (refresh_tokens db) -> get r "token" <> JStr t ->
                       In r (delete_where
                               (fun r => sql_eq (get r "token") (bound token))
                               (refresh_tokens db)))).
  { intros t ->. split.
    - intros r Hr Heq. apply delete_where_none in Hr.
      apply sql_eq_text in Heq. congruence.
    - intros r Hr Hne. unfold delete_where. apply List.filter_In.
      split; [exact Hr|]. apply negb_true_iff. apply not_true_iff_false.
      intros Heq. now apply sql_eq_text in Heq. }
  destruct (truthy token) eqn:Ht; destruct (req_user req) as [user|];
    step_handler; rewrite ?logActivity_run; step_handler;
    try match goal with |- context [activities_accept ?d ?row] =>
          destruct (activities_accept d row) end;
    (eexists; split; [reflexivity|]); simpl;
    (split; [intros t Htr Hb; try discriminate Htr; now apply Hrevoked|]);
    (split; [intros Hf; try discriminate Hf; reflexivity|]);
    (split; [intros r Hr; try exact Hr; now apply delete_where_In in Hr|]);
    repeat split.
Qed.

(** X12.  After a logout that carried a refresh token, a refresh request
    with that token is answered 401, at any later time, and changes
    nothing. *)
Theorem refresh_after_logout_refused (env env2 : Env) (req : Req) (db : Db) :
  truthy (get (req_body req) "refreshToken") = true ->
  exists r,
    AuthController.refreshToken config env2 req
      (snd (AuthController.logout env req db)) =
      (Sent r, snd (AuthController.logout env req db)) /\
    status r = 401.
Proof.
  intros Ht.
  assert (Hgone : forall r,
            In r (refresh_tokens (snd (AuthController.logout env req db))) ->
            sql_eq (get r "token") (get (req_body req) "refreshToken") = false).
  { unfold AuthController.logout. step_handler. rewrite Ht.
    unfold AuthController.removeRefreshToken.
    assert (Hdel : forall r,
              In r (delete_where
                      (fun r => sql_eq (get r "token")
                                  (bound (get (req_body req) "refreshToken")))
                      (refresh_tokens db)) ->
              sql_eq (get r "token") (get (req_body req) "refreshToken") = false).
    { intros r Hr. apply delete_where_none in Hr.
      destruct (sql_eq (get r "token") (get (req_body req) "refreshToken"))
        eqn:E; [|reflexivity].
      apply sql_eq_bound in E. congruence. }
    destruct (req_user req) as [user|]; step_handler;
      rewrite ?logActivity_run; step_handler;
      try match goal with |- context [activities_accept ?d ?row] =>
            destruct (activities_accept d row) end;
      simpl; exact Hdel. }
  unfold AuthController.refreshToken. step_handler. rewrite Ht. step_handler.
  destruct (jwt_verify _ _ _) as [decoded|]; step_handler;
    [|eexists; split; reflexivity].
  rewrite select_first_none; [eexists; split; reflexivity|].
  intros r Hr. now rewrite (Hgone r Hr).
Qed.

(** X13.  Storing a refresh token also purges the table: afterwards no
    stored token has an expiry before now, the new token is there with an
    expiry seven days ahead, every token that has not expired is kept and
    nothing else is added. *)
Theorem storeRefreshToken_purges_expired (env : Env) (userId : jsval)
    (token : string) (db : Db) :
  let row := [("id", JStr (tokenId env)); ("userId", userId);
              ("token", JStr token); ("expiresAt", JNum (now env + week));
              ("createdAt", JNum (now env))] in
  exists db',
    AuthController.storeRefreshToken env userId token db = (Next tt, db') /\
    (forall r, In r (refresh_tokens db') ->
               sql_lt (get r "expiresAt") (JNum (now env)) = false) /\
    In row (refresh_tokens db') /\
    (forall r, In r (refresh_tokens db) ->
               sql_lt (get r "expiresAt") (JNum (now env)) = false ->
               In r (refresh_tokens db')) /\
    (forall r, In r (refresh_tokens db') -> r = row \/ In r (refresh_tokens db)) /\
    users db' = users db /\ activities db' = activities db.
Proof.
  intros row. unfold AuthController.storeRefreshToken. step_handler.
  eexists. split; [reflexivity|]. simpl. repeat split.
  - intros r Hr. now apply delete_where_none in Hr.
  - unfold delete_where, push. apply List.filter_In. split.
    + apply in_or_app. right. now left.
    + simpl. apply negb_true_iff. apply Z.ltb_ge. lia.
  - intros r Hr Hlive. unfold delete_where, push. apply List.filter_In. split.
    + apply in_or_app. now left.
    + now rewrite Hlive.
  - intros r Hr. apply delete_where_In in Hr. unfold push in Hr.
    apply in_app_or in Hr. destruct Hr as [Hr | [<- | []]]; auto.
Qed.

(** X14.  [refreshToken] always answers, with 200 or 401; whenever the
    answer is not 200 the store is exactly as it was; and it never writes
    to the users or to the audit trail. *)
Theorem refreshToken_failure_keeps_store (env : Env) (req : Req) (db : Db) :
  let out := AuthController.refreshToken config env req db in
  (exists r, fst out = Sent r /\ (status r = 200 \/ status r = 401)) /\
  (forall r, fst out = Sent r -> status r <> 200 -> snd out = db) /\
  users (snd out) = users db /\ activities (snd out) = activities db.
Proof.
  intros out. subst out. unfold AuthController.refreshToken. step_handler.
  destruct (truthy (get (req_body req) "refreshToken")); step_handler.
  2:{ repeat split; eauto. }
  destruct (jwt_verify _ _ _) as [decoded|]; step_handler.
  2:{ repeat split; eauto. }
  destruct (select_first _ (refresh_tokens db)) as [stored|]; step_handler.
  2:{ repeat split; eauto. }
  destruct (select_first _ (users db)) as [user|]; step_handler.
  2:{ repeat split; eauto. }
  unfold AuthController.removeRefreshToken, AuthController.storeRefreshToken.
  step_handler. repeat split; eauto.
  intros r [= <-] Hne. now elim Hne.
Qed.

(** X15.  [getProfile] answers 200 with [req.user] less its [password],
    [loginAttempts] and [lockUntil], every other property as it is; the
    store is unchanged. *)
Theorem getProfile_hides_secrets (req : Req) (db : Db) (user : obj) :
  req_user req = Some user ->
  exists profile,
    AuthController.getProfile req db =
      (Sent (mkResponse 200 [("success", JBool true); ("data", JObj profile)]), db) /\
    (forall k, In k secrets -> get profile k = JUndefined) /\
    (forall k, ~ In k secrets -> get profile k = get user k).
Proof.
  intros Hu. unfold AuthController.getProfile. rewrite Hu. step_handler.
  eexists. split; [reflexivity|]. split.
  - intros k Hk. now apply get_without_in.
  - intros k Hk. now apply get_without_other.
Qed.

End Accounts.

Section Registration.
Context `{libs : Libs} `{hashing : Hashing} (config : Config).

(** X16.  [register] never touches an existing account: whatever the
    request and however it is answered, the users table afterwards is the
    one before with at most one row appended; and a well-formed request
    for an email that a stored user already has is answered 409 and stores
    nothing. *)
Theorem register_keeps_existing_accounts (rounds : Z) (env : Env)
    (userId salt : string) (req : Req) (db : Db) :
  (exists extra,
     users (snd (AuthController.register config rounds env userId salt req db))
       = (users db ++ extra)%list /\
     (length extra <= 1)%nat) /\
  (forall u,
     req_errors req = [] ->
     select_first (by_email (get (req_body req) "email")) (users db) = Some u ->
     AuthController.register config rounds env userId salt req db =
       (Sent (mkResponse 409
          [("success", JBool false);
           ("message", JStr "User with this email already exists")]), db)).
Proof.
  split.
  2:{ intros u Herr Hsel. unfold AuthController.register. rewrite Herr.
      step_handler. now rewrite Hsel. }
  assert (Hnil : exists extra, users db = (users db ++ extra)%list /\
                               (length extra <= 1)%nat).
  { exists []. split; [now rewrite app_nil_r | simpl; lia]. }
  unfold AuthController.register.
  destruct (req_errors req) as [|e es]; [|exact Hnil].
  step_handler.
  destruct (select_first _ (users db)) as [u|]; [exact Hnil|].
  step_handler. unfold AuthController.hash.
  destruct (get (req_body req) "password"); step_handler; try exact Hnil.
  unfold insert.
  match goal with |- context [users_accept db ?row] =>
    destruct (users_accept db row); [|exact Hnil];
    assert (Hone : exists extra, (users db ++ [row])%list = (users db ++ extra)%list /\
                                 (length extra <= 1)%nat)
      by (exists [row]; split; [reflexivity | simpl; lia])
  end.
  step_handler.
  match goal with |- context [select_first ?q (users ?d)] =>
    destruct (select_first q (users d)) end; step_handler; [|exact Hone].
  unfold AuthController.storeRefreshToken. step_handler.
  rewrite logActivity_run. step_handler.
  match goal with |- context [activities_accept ?d ?a] =>
    destruct (activities_accept d a) end; exact Hone.
Qed.

(** What a registration that goes through stores and answers. *)
Lemma register_effect (rounds : Z) (env : Env) (userId salt : string)
    (req : Req) (db : Db) (n e p : string) :
  req_errors req = [] ->
  get (req_body req) "name" = JStr n ->
  get (req_body req) "email" = JStr e ->
  get (req_body req) "password" = JStr p ->
  select_first (by_email (JStr e)) (users db) = None ->
  fresh_id (users db) (JStr userId) = true ->
  exists r db' row user,
    AuthController.register config rounds env userId salt req db = (Sent r, db') /\
    status r = 201 /\
    users db' = (users db ++ [row])%list /\
    get row "id" = JStr userId /\
    get row "email" = JStr e /\
    get row "password" = JStr (bcrypt_hash p rounds salt) /\
    get row "role" = JStr "sales_rep" /\
    get row "teamId" = JNull /\
    get row "isActive" = JNum 1 /\
    get row "loginAttempts" = JNum 0 /\
    get row "lockUntil" = JNull /\
    get (json r) "data" =
      JObj [("user", JObj user);
            ("accessToken", JStr (fst (AuthController.generateTokens config env user)));
            ("refreshToken", JStr (snd (AuthController.generateTokens config env user)))] /\
    get user "id" = JStr userId /\
    get user "role" = JStr "sales_rep" /\
    get user "password" = JUndefined /\
    customers db' = customers db /\ leads db' = leads db /\ teams db' = teams db.
Proof.
  intros Herr Hn He Hp Hnone Hfresh.
  unfold AuthController.register. rewrite Herr. step_handler.
  rewrite He, Hnone. step_handler.
  rewrite Hp. unfold AuthController.hash. step_handler.
  unfold insert.
  match goal with |- context [users_accept db ?row] =>
    assert (Hok : users_accept db row = true) end.
  { unfold users_accept, row_of. simpl. rewrite Hn. simpl.
    rewrite Hfresh. unfold unique_in.
    fold (by_email (JStr e)).
    rewrite (select_first_none_existsb _ _ Hnone).
    unfold refers. now rewrite !orb_true_r. }
  rewrite Hok. step_handler. unfold with_users at 1, push. cbn [users].
  rewrite select_first_app_new.
  2:{ unfold fresh_id in Hfresh. now apply negb_true_iff in Hfresh. }
  2:{ unfold by_id, row_of. simpl. apply String.eqb_refl. }
  step_handler. unfold AuthController.storeRefreshToken. step_handler.
  rewrite logActivity_run. step_handler.
  match goal with |- context [activities_accept ?d ?a] =>
    destruct (activities_accept d a) end.
  all: do 3 eexists.
  all: lazymatch goal with |- context [("user", JObj ?u)] => exists u end.
  all: (split; [reflexivity|]).
  all: simpl.
  all: rewrite Hn.
  all: repeat split; reflexivity.
Qed.

(** X17.  A registration with a name, a password and an email that no
    stored user has, under a fresh id, is answered 201 and appends one
    user: the role is [sales_rep] and the team is empty whatever the body
    asks for, the account is active with no failures counted, the stored
    password is the bcrypt hash and never the password, and the answer
    carries the user without a password and the two tokens signed for it.
    Customers, leads and teams are untouched. *)
Theorem register_creates_sales_rep (rounds : Z) (env : Env) (userId salt : string)
    (req : Req) (db : Db) (n e p : string) :
  req_errors req = [] ->
  get (req_body req) "name" = JStr n ->
  get (req_body req) "email" = JStr e ->
  get (req_body req) "password" = JStr p ->
  select_first (by_email (JStr e)) (users db) = None ->
  fresh_id (users db) (JStr userId) = true ->
  exists r db' row user,
    AuthController.register config rounds env userId salt req db = (Sent r, db') /\
    status r = 201 /\
    users db' = (users db ++ [row])%list /\
    get row "id" = JStr userId /\
    get row "email" = JStr e /\
    get row "password" = JStr (bcrypt_hash p rounds salt) /\
    get row "role" = JStr "sales_rep" /\
    get row "teamId" = JNull /\
    get row "isActive" = JNum 1 /\
    get row "loginAttempts" = JNum 0 /\
    get row "lockUntil" = JNull /\
    get (json r) "data" =
      JObj [("user", JObj user);
            ("accessToken", JStr (fst (AuthController.generateTokens config env user)));
            ("refreshToken", JStr (snd (AuthController.generateTokens config env user)))] /\
    get user "id" = JStr userId /\
    get user "role" = JStr "sales_rep" /\
    get user "password" = JUndefined /\
    customers db' = customers db /\ leads db' = leads db /\ teams db' = teams db.
Proof. exact (register_effect rounds env userId salt req db n e p). Qed.

(** X18.  Registration and login fit together: provided [bcrypt.compare]
    accepts a password against the hash [bcrypt.hash] made of it, a login
    with the registered email and password, at any time after the
    registration, is answered 200. *)
Theorem register_then_login (rounds : Z) (env env2 : Env) (userId salt : string)
    (req req2 : Req) (db : Db) (n e p : string) :
  req_errors req = [] ->
  get (req_body req) "name" = JStr n ->
  get (req_body req) "email" = JStr e ->
  get (req_body req) "password" = JStr p ->
  select_first (by_email (JStr e)) (users db) = None ->
  fresh_id (users db) (JStr userId) = true ->
  bcrypt_compare p (bcrypt_hash p rounds salt) = true ->
  req_errors req2 = [] ->
  get (req_body req2) "email" = JStr e ->
  get (req_body req2) "password" = JStr p ->
  exists r db2,
    AuthController.login config env2 req2
      (snd (AuthController.register config rounds env userId salt req db))
      = (Sent r, db2) /\
    status r = 200.
Proof.
  intros Herr Hn He Hp Hnone Hfresh Hcmp Herr2 He2 Hp2.
  destruct (register_effect rounds env userId salt req db n e p)
    as (r & db' & row & user & Hrun & _ & Husers & _ & Hemail & Hpw & _ & _ &
        Hactive & _ & Hlock & _); auto.
  rewrite Hrun. simpl snd.
  apply (login_accepts config env2 req2 db' row p (bcrypt_hash p rounds salt)); auto.
  - rewrite He2, Husers. apply select_first_app_new.
    + now apply select_first_none_existsb.
    + unfold by_email. rewrite Hemail. apply sql_eq_refl_str.
  - unfold AuthController.isAccountLocked. now rewrite Hlock.
  - now rewrite Hactive.
Qed.

End Registration.

(** ** Customers and leads: creation, deletion, update of a lead *)

Section Records.
Context `{libs : Libs}.

#[local] Abbreviation access_columns :=
  [("ownerId", "ownerId"); ("teamId", "teamId"); ("assignedTo", "assignedTo")].

Lemma sql_eq_true (a b : jsval) : sql_eq a b = true -> a = b.
Proof.
  destruct a, b; simpl; try discriminate; intros E.
  - apply Z.eqb_eq in E. now subst.
  - apply String.eqb_eq in E. now subst.
Qed.

(** The creator of a record passes [canAccessRecord] on it. *)
Lemma canAccessRecord_owner (user r : obj) (uid : string) :
  get user "id" = JStr uid -> get r "ownerId" = JStr uid ->
  Rbac.canAccessRecord (Some user) (Some r) = true.
Proof.
  intros Hid Hown. unfold Rbac.canAccessRecord. rewrite Hid, Hown.
  destruct (strict_eq (get user "role") (JStr "admin")); [reflexivity|].
  destruct (strict_eq (get user "role") (JStr "manager") && _); [reflexivity|].
  simpl. now rewrite String.eqb_refl.
Qed.

(** X19.  A customer is created for its caller: when the INSERT is
    accepted, exactly one row is appended to the customers, under the id
    drawn for it; its owner, creator and last editor are the caller and
    its team is the caller's, whatever [ownerId], [teamId] or [createdBy]
    the body carries; the caller passes [canAccessRecord] on it; users,
    teams and leads are untouched. *)
Theorem createCustomer_owned_by_caller (env : Env) (customerId : string)
    (req : Req) (db : Db) (user : obj) (uid : string) :
  req_errors req = [] ->
  req_user req = Some user ->
  get user "id" = JStr uid ->
  customers_accept db
    (row_of customers_columns
       (CustomerController.customerData env customerId req user)) = true ->
  let db' := snd (CustomerController.createCustomer env customerId req db) in
  exists row,
    customers db' = (customers db ++ [row])%list /\
    get row "id" = JStr customerId /\
    get row "ownerId" = JStr uid /\
    get row "teamId" = bound (get user "teamId") /\
    get row "createdBy" = JStr uid /\
    get row "updatedBy" = JStr uid /\
    Rbac.canAccessRecord (Some user) (Some (project access_columns row)) = true /\
    users db' = users db /\ teams db' = teams db /\ leads db' = leads db.
Proof.
  intros Herr Huser Hid Hacc db'. subst db'.
  set (row := row_of customers_columns
                (CustomerController.customerData env customerId req user)) in *.
  assert (Hrow : get row "id" = JStr customerId /\
                 get row "ownerId" = JStr uid /\
                 get row "teamId" = bound (get user "teamId") /\
                 get row "createdBy" = JStr uid /\
                 get row "updatedBy" = JStr uid).
  { subst row. unfold row_of. simpl. now rewrite Hid. }
  destruct Hrow as (H1 & H2 & H3 & H4 & H5).
  assert (Hcan : Rbac.canAccessRecord (Some user)
                   (Some (project access_columns row)) = true).
  { apply (canAccessRecord_owner user _ uid); [exact Hid|]. simpl. exact H2. }
  exists row.
  unfold CustomerController.createCustomer. rewrite Herr, Huser. step_handler.
  unfold insert. fold row. rewrite Hacc. step_handler.
  audit_frame F; destruct F as (_ & Hu & Ht & Hc & Hl & _); step_handler.
  2:{ simpl. rewrite Hu, Ht, Hc, Hl. repeat split; auto. }
  unfold CustomerController.fetchCustomer. step_handler.
  match goal with |- context [select_first ?q (customers ?d)] =>
    destruct (select_first q (customers d)) as [c|] end; step_handler.
  2:{ simpl. rewrite Hu, Ht, Hc, Hl. repeat split; auto. }
  match goal with |- context [truthy ?v] => destruct (truthy v) end; step_handler.
  2:{ simpl. rewrite Hu, Ht, Hc, Hl. repeat split; auto. }
  match goal with |- context [JSON_parse ?v] => destruct (JSON_parse v) end;
    simpl; rewrite Hu, Ht, Hc, Hl; repeat split; auto.
Qed.

(** X20.  With foreign keys enabled, creating a lead for a customer id
    that no stored customer has is answered 500 [Failed to create lead],
    and nothing is stored: no lead, no audit record. *)
Theorem createLead_unknown_customer (env : Env) (leadId : string) (req : Req)
    (db : Db) (cid : string) :
  foreign_keys db = true ->
  req_errors req = [] ->
  get (req_body req) "customerId" = JStr cid ->
  select_first (by_id (JStr cid)) (customers db) = None ->
  LeadController.createLead env leadId req db =
    (Sent (mkResponse 500 [("success", JBool false);
                           ("message", JStr "Failed to create lead")]), db).
Proof.
  intros Hfk Herr Hcid Hnone.
  unfold LeadController.createLead. rewrite Herr.
  destruct (req_user req) as [user|]; step_handler; [|reflexivity].
  unfold insert.
  match goal with |- context [leads_accept db ?row] =>
    assert (Hno : leads_accept db row = false) end.
  { unfold leads_accept, leads_valid.
    match goal with |- context [refers _ (customers db) ?v] =>
      assert (Hr : refers (foreign_keys db) (customers db) v = false) end.
    { unfold row_of. simpl. rewrite Hcid, Hfk. simpl.
      now apply select_first_none_existsb. }
    rewrite Hr. now rewrite !andb_false_r. }
  now rewrite Hno.
Qed.

(** X21.  A lead is created for its caller, not for the owner of its
    customer: when the INSERT is accepted, one row is appended to the
    leads; its owner and creator are the caller, its team is the caller's
    and its customer is the one the body names; the caller passes
    [canAccessRecord] on it; users and customers are untouched. *)
Theorem createLead_owned_by_caller (env : Env) (leadId : string) (req : Req)
    (db : Db) (user : obj) (uid : string) :
  req_errors req = [] ->
  req_user req = Some user ->
  get user "id" = JStr uid ->
  leads_accept db
    (row_of leads_columns (LeadController.leadData env leadId req user)) = true ->
  exists r db' row,
    LeadController.createLead env leadId req db = (Sent r, db') /\
    status r = 201 /\
    leads db' = (leads db ++ [row])%list /\
    get row "id" = JStr leadId /\
    get row "customerId" = bound (get (req_body req) "customerId") /\
    get row "ownerId" = JStr uid /\
    get row "teamId" = bound (get user "teamId") /\
    get row "createdBy" = JStr uid /\
    Rbac.canAccessRecord (Some user) (Some (project access_columns row)) = true /\
    users db' = users db /\ customers db' = customers db.
Proof.
  intros Herr Huser Hid Hacc.
  unfold LeadController.createLead. rewrite Herr, Huser. step_handler.
  unfold insert. rewrite Hacc. step_handler.
  assert (Hown : get (row_of leads_columns
                        (LeadController.leadData env leadId req user)) "ownerId"
                 = JStr uid)
    by (unfold row_of; simpl; now rewrite Hid).
  unfold Logger.auditRecordChange. step_handler.
  rewrite logActivity_run. step_handler.
  match goal with |- context [activities_accept ?d ?a] =>
    destruct (activities_accept d a) end.
  all: do 3 eexists.
  all: (split; [reflexivity|]).
  all: (split; [reflexivity|]).
  all: (split; [reflexivity|]).
  all: (split; [reflexivity|]).
  all: (split; [reflexivity|]).
  all: (split; [exact Hown|]).
  all: (split; [reflexivity|]).
  all: (split; [unfold row_of; simpl; now rewrite Hid|]).
  all: (split; [|split; reflexivity]).
  all: apply (canAccessRecord_owner user _ uid); [exact Hid | exact Hown].
Qed.

(** X22.  [deleteCustomer] removes the customers with the requested id
    and nothing else: every other customer stays, no customer appears, no
    lead appears, every lead of another customer stays, and users and
    teams are untouched; when no customer has the id the answer is 404 and
    the store is as it was. *)
Theorem deleteCustomer_keeps_the_rest (env : Env) (req : Req) (db : Db) :
  let id := req_params_id req in
  let db' := snd (CustomerController.deleteCustomer env req db) in
  (forall c, In c (customers db') <-> In c (customers db) /\ by_id id c = false) /\
  (forall l, In l (leads db') -> In l (leads db)) /\
  (forall l, In l (leads db) -> sql_eq (get l "customerId") id = false ->
             In l (leads db')) /\
  users db' = users db /\ teams db' = teams db /\
  (select_first (by_id id) (customers db) = None ->
   CustomerController.deleteCustomer env req db =
     (Sent (mkResponse 404 [("success", JBool false);
                            ("message", JStr "Customer not found")]), db)).
Proof.
  intros id db'. subst id db'.
  destruct (select_first (by_id (req_params_id req)) (customers db)) as [c|] eqn:Hsel.
  - destruct (deleteCustomer_store env req db c Hsel) as [Hcs Hls].
    rewrite Hcs, Hls. simpl. repeat split.
    + now apply delete_where_In in H.
    + now apply delete_where_none in H.
    + intros [Hin Hne]. unfold delete_where. apply List.filter_In.
      split; [exact Hin|]. unfold by_id in Hne. now rewrite Hne.
    + intros l Hl. destruct (foreign_keys db); [|exact Hl].
      now apply delete_where_In in Hl.
    + intros l Hl Hne. destruct (foreign_keys db); [|exact Hl].
      unfold delete_where. apply List.filter_In. split; [exact Hl|].
      apply negb_true_iff. apply not_true_iff_false. intros Hex.
      apply existsb_exists in Hex. destruct Hex as (c' & Hc' & Heq).
      apply List.filter_In in Hc'. destruct Hc' as [_ Hc'].
      apply sql_eq_true in Hc'. rewrite Hc' in Heq. congruence.
    + unfold CustomerController.deleteCustomer. step_handler. rewrite Hsel.
      step_handler. destruct (req_user req); step_handler; [|reflexivity].
      audit_frame F; destruct F as (_ & Hu & Ht & _); step_handler;
        cbn [snd]; now rewrite ?Hu, ?Ht.
    + unfold CustomerController.deleteCustomer. step_handler. rewrite Hsel.
      step_handler. destruct (req_user req); step_handler; [|reflexivity].
      audit_frame F; destruct F as (_ & Hu & Ht & _); step_handler;
        cbn [snd]; now rewrite ?Hu, ?Ht.
    + discriminate.
  - assert (Hrun : CustomerController.deleteCustomer env req db =
              (Sent (mkResponse 404 [("success", JBool false);
                                     ("message", JStr "Customer not found")]), db)).
    { unfold CustomerController.deleteCustomer. step_handler. now rewrite Hsel. }
    rewrite Hrun. simpl.
    split; [|repeat split; auto].
    intros c. split; [|tauto]. intros Hin. split; [exact Hin|].
    apply select_first_none_existsb in Hsel.
    apply not_true_iff_false. intros Hb.
    assert (existsb (by_id (req_params_id req)) (customers db) = true)
      by (apply existsb_exists; eauto).
    congruence.
Qed.

(** The store after [updateLead]: untouched, or the result of the one
    UPDATE on the leads followed by an audit record. *)
Lemma updateLead_store (env : Env) (req : Req) (db : Db) :
  snd (LeadController.updateLead env req db) = db \/
  exists sets,
    map fst sets = LeadController.updated_columns /\
    leads (snd (LeadController.updateLead env req db)) =
      update_where (by_id (req_params_id req)) (assign sets) (leads db) /\
    users (snd (LeadController.updateLead env req db)) = users db /\
    teams (snd (LeadController.updateLead env req db)) = teams db /\
    customers (snd (LeadController.updateLead env req db)) = customers db.
Proof.
  unfold LeadController.updateLead.
  destruct (req_errors req) as [|e es]; [|now left].
  step_handler.
  destruct (select_first (by_id (req_params_id req)) (leads db)) as [existing|];
    [|now left].
  destruct (req_user req) as [user|]; [|now left].
  unfold update_leads.
  match goal with |- context [forallb ?p (leads db)] =>
    destruct (forallb p (leads db)) end; [|now left].
  right. step_handler.
  audit_frame F; destruct F as (_ & Hu & Ht & Hc & Hl & _); step_handler;
    try match goal with |- context [LeadController.lead_with_names ?i ?d] =>
          destruct (LeadController.lead_with_names i d) end;
    cbn [snd]; rewrite Hu, Ht, Hc, Hl;
    (eexists; split; [|split; [reflexivity|repeat split]]; reflexivity).
Qed.

(** X23.  Whatever the request carries and however it is answered,
    [updateLead] leaves a lead with another id exactly as it was, and of
    every lead it leaves [id], [customerId], [ownerId], [teamId],
    [createdBy] and [createdAt] as they were, as it does every column
    outside the ten of its UPDATE statement; it writes to no user, team
    or customer. *)
Theorem updateLead_frame (env : Env) (req : Req) (db : Db) :
  let db' := snd (LeadController.updateLead env req db) in
  Forall2
    (fun r r' =>
       (by_id (req_params_id req) r = false -> r' = r) /\
       get r' "id" = get r "id" /\
       get r' "customerId" = get r "customerId" /\
       get r' "ownerId" = get r "ownerId" /\
       get r' "teamId" = get r "teamId" /\
       get r' "createdBy" = get r "createdBy" /\
       get r' "createdAt" = get r "createdAt" /\
       forall k, ~ In k LeadController.updated_columns -> get r' k = get r k)
    (leads db) (leads db') /\
  users db' = users db /\ teams db' = teams db /\ customers db' = customers db.
Proof.
  intros db'. subst db'.
  destruct (updateLead_store env req db) as [Heq | (sets & Hcols & Hl & Hu & Ht & Hc)].
  - rewrite Heq. split; [|repeat split].
    apply Forall_Forall2_diag. apply Forall_forall. intros r _.
    repeat split; reflexivity.
  - rewrite Hl, Hu, Ht, Hc. split; [|repeat split].
    unfold update_where. apply Forall2_fmap_r. apply Forall_Forall2_diag.
    apply Forall_forall. intros r _.
    assert (Hother : forall k, ~ In k LeadController.updated_columns ->
              get (if by_id (req_params_id req) r then assign sets r else r) k
              = get r k).
    { intros k Hk. destruct (by_id (req_params_id req) r); [|reflexivity].
      apply get_assign_other. now rewrite Hcols. }
    split; [intros Hne; now rewrite Hne|].
    repeat split; try apply Hother; simpl; intuition discriminate.
Qed.

(** X24.  [deleteLead] removes the leads with the requested id and nothing
    else: the other leads stay in order, and users, teams and customers
    are untouched, the customer of the lead included; when no lead has the
    id the answer is 404 and the store is as it was. *)
Theorem deleteLead_keeps_the_rest (env : Env) (req : Req) (db : Db) :
  let id := req_params_id req in
  let db' := snd (LeadController.deleteLead env req db) in
  leads db' = List.filter (fun l => negb (by_id id l)) (leads db) /\
  customers db' = customers db /\ users db' = users db /\ teams db' = teams db /\
  (select_first (by_id id) (leads db) = None ->
   LeadController.deleteLead env req db =
     (Sent (mkResponse 404 [("success", JBool false);
                            ("message", JStr "Lead not found")]), db)).
Proof.
  intros id db'. subst id db'. unfold LeadController.deleteLead. step_handler.
  destruct (select_first (by_id (req_params_id req)) (leads db)) as [l|] eqn:Hsel.
  - step_handler.
    destruct (req_user req) as [user|]; step_handler;
      [|simpl; repeat split; discriminate].
    audit_frame F; destruct F as (_ & Hu & Ht & Hc & Hl & _); step_handler;
      cbn [snd]; rewrite Hu, Ht, Hc, Hl; simpl; repeat split; discriminate.
  - simpl. repeat split; auto.
    symmetry. apply forallb_filter_id. apply forallb_forall. intros r Hr.
    apply negb_true_iff. apply not_true_iff_false. intros Hb.
    apply select_first_none_existsb in Hsel.
    assert (existsb (by_id (req_params_id req)) (leads db) = true)
      by (apply existsb_exists; eauto).
    congruence.
Qed.

(** The fields that [updateCustomer] takes from the body only when the
    body's value is truthy. *)
#[local] Abbreviation sticky :=
  ["name"; "email"; "phone"; "company"; "status"; "tags"; "lastContactDate";
   "industry"; "source"; "assignedTo"].

(** X25.  [updateCustomer] cannot blank a field it takes with [||]: under
    the primary key, a value of the body that is falsy (absent, [null],
    the empty string, 0) leaves [name], [email], [phone], [company],
    [status], [tags], [lastContactDate], [industry], [source] and
    [assignedTo] of every customer as stored; [notes] and [value] are
    kept when the body does not carry them.  The UPDATE binds the stored
    value again: what the table holds (NULL, a number, a text) is bound
    as itself. *)
Theorem updateCustomer_blank_keeps_value (env : Env) (req : Req) (db : Db) :
  pk_unique (customers db) ->
  let body := req_body req in
  let db' := snd (CustomerController.updateCustomer env req db) in
  Forall2
    (fun r r' =>
       (forall k, In k sticky -> truthy (get body k) = false ->
                  bound (get r k) = get r k -> get r' k = get r k) /\
       (forall k, In k ["notes"; "value"] -> get body k = JUndefined ->
                  bound (get r k) = get r k -> get r' k = get r k))
    (customers db) (customers db').
Proof.
  intros Hpk body db'. subst body db'.
  assert (Hsame : Forall2
            (fun r r' : obj =>
               (forall k, In k sticky -> truthy (get (req_body req) k) = false ->
                          bound (get r k) = get r k -> get r' k = get r k) /\
               (forall k, In k ["notes"; "value"] ->
                          get (req_body req) k = JUndefined ->
                          bound (get r k) = get r k -> get r' k = get r k))
            (customers db) (customers db)).
  { apply Forall_Forall2_diag. apply Forall_forall. intros r _. split; reflexivity. }
  destruct (req_errors req) as [|e es] eqn:Herr.
  2:{ unfold CustomerController.updateCustomer. now rewrite Herr. }
  destruct (select_first (by_id (req_params_id req)) (customers db))
    as [existing|] eqn:Hsel.
  2:{ unfold CustomerController.updateCustomer. rewrite Herr. step_handler.
      now rewrite Hsel. }
  destruct (req_user req) as [user|] eqn:Huser.
  2:{ unfold CustomerController.updateCustomer. rewrite Herr. step_handler.
      now rewrite Hsel, Huser. }
  destruct (customers_update_accepted (by_id (req_params_id req))
              (CustomerController.rewritten
                 (CustomerController.updateData env req existing user)) db)
    eqn:Hacc.
  2:{ now rewrite (updateCustomer_rejected env req db existing user). }
  rewrite (updateCustomer_store env req db existing user Herr Hsel Huser Hacc).
  assert (Hupdated : Forall2
            (fun r r' : obj =>
               (forall k, In k sticky -> truthy (get (req_body req) k) = false ->
                          bound (get r k) = get r k -> get r' k = get r k) /\
               (forall k, In k ["notes"; "value"] ->
                          get (req_body req) k = JUndefined ->
                          bound (get r k) = get r k -> get r' k = get r k))
            (customers db)
            (update_where (by_id (req_params_id req))
               (CustomerController.rewritten
                  (CustomerController.updateData env req existing user))
               (customers db))).
  { unfold update_where. apply Forall2_fmap_r. apply Forall_Forall2_diag.
    apply Forall_forall. intros r Hr. unfold compose.
    destruct (by_id (req_params_id req) r) eqn:Hby; [|split; reflexivity].
    assert (r = existing) as ->.
    { apply select_first_In in Hsel. destruct Hsel as [Hin Hbe].
      apply (pk_unique_inj (customers db));
        [exact Hpk | now apply list_elem_of_In | exact Hin |].
      unfold by_id in Hby, Hbe. apply sql_eq_true in Hby, Hbe. congruence. }
    split; intros k Hk Hb Hst; simpl in Hk;
      unfold CustomerController.rewritten, assign,
        CustomerController.updated_columns;
      cbn [map fold_left fst snd];
      repeat (destruct Hk as [<- | Hk];
              [rewrite ?get_set_ne by discriminate; rewrite get_set_eq;
               cbn [CustomerController.updateData get String.eqb Ascii.eqb
                    Bool.eqb];
               unfold or_else; rewrite Hb; exact Hst|]);
      contradiction. }
  audit_frame F; cbn [snd]; destruct F as (_ & _ & _ & -> & _); exact Hupdated.
Qed.

End Records.

(** ** Reading one record through its route *)

Section RecordReads.
Context `{libs : Libs} `{errors : JwtErrors} `{engine : Builtins.Engine}
  `{validator : Validator} (config : Config).

#[local] Abbreviation record_guard := (Routes.record_guard config).
#[local] Abbreviation authorized := (Routes.authorized config).

(** What [authenticate] answers itself is never a 200. *)
Lemma authenticate_refusal (env : Env) (h : jsval) (req : Req) (db : Db)
    (r : Response) :
  fst (AuthMiddleware.authenticate config env h req db) = Sent r -> status r <> 200.
Proof.
  unfold AuthMiddleware.authenticate. step_handler.
  destruct (AuthMiddleware.bearer h) as [token|].
  2:{ intros [= <-]. discriminate. }
  destruct (jwt_verify _ _ _) as [decoded|]; step_handler.
  - destruct (AuthMiddleware.load_user decoded db); simpl; [discriminate|].
    intros [= <-]. discriminate.
  - destruct (String.eqb _ "TokenExpiredError"); [intros [= <-]; discriminate|].
    destruct (String.eqb _ "JsonWebTokenError"); intros [= <-]; discriminate.
Qed.

(** Nor is what the record guard answers. *)
Lemma record_guard_refusal (resource permission rt : string) (env : Env)
    (h : jsval) (req : Req) (db : Db) (r : Response) :
  rt = "customer" \/ rt = "lead" ->
  fst (record_guard resource permission rt env h req db) = Sent r ->
  status r <> 200.
Proof.
  intros Hrt. unfold Routes.record_guard, Routes.guarded, bind.
  pose proof (authenticate_refusal env h req db) as Hauth.
  destruct (AuthMiddleware.authenticate config env h req db) as [[r0|req1|] db1];
    simpl in Hauth.
  - simpl. intros [= <-]. now apply Hauth.
  - unfold Rbac.requirePermission.
    destruct (req_user req1) as [u|] eqn:Hu; [|intros [= <-]; discriminate].
    destruct (Rbac.hasPermission (Some u) resource permission) as [[|]|];
      simpl; [|intros [= <-]; discriminate|discriminate].
    unfold Rbac.requireRecordAccess. rewrite Hu.
    destruct (truthy (req_params_id req1)); simpl negb; cbv iota;
      [|intros [= <-]; discriminate].
    destruct Hrt as [-> | ->]; step_handler.
    + destruct (select_first _ (customers db1)); step_handler;
        [|intros [= <-]; discriminate].
      destruct (Rbac.canAccessRecord _ _); step_handler;
        [discriminate | intros [= <-]; discriminate].
    + destruct (select_first _ (leads db1)); step_handler;
        [|intros [= <-]; discriminate].
      destruct (Rbac.canAccessRecord _ _); step_handler;
        [discriminate | intros [= <-]; discriminate].
  - discriminate.
Qed.

Lemma guarded_read (resource rt : string) (env : Env) (h : jsval) (req : Req)
    (db : Db) (controller : Req -> Handler unit) :
  rt = "customer" \/ rt = "lead" ->
  (forall q d, snd (controller q d) = d) ->
  snd (bind (record_guard resource "read" rt env h req) controller db) = db /\
  forall r,
    response (bind (record_guard resource "read" rt env h req) controller db)
      = Some r ->
    status r = 200 ->
    authorized resource "read" rt env h req db.
Proof.
  intros Hrt Hk. unfold response, bind.
  destruct (record_guard_pass config resource "read" rt env h req db Hrt)
    as (Hs & Hp).
  pose proof (record_guard_refusal resource "read" rt env h req db) as Href.
  destruct (Routes.record_guard config resource "read" rt env h req db)
    as [[r0|req2|] db1]; simpl in Hs, Href; subst db1.
  - split; [reflexivity|]. simpl. intros r [= <-] H200.
    now elim (Href r0 Hrt eq_refl).
  - split; [apply Hk|]. intros r _ _. exact (Hp req2 eq_refl).
  - split; [reflexivity|]. discriminate.
Qed.

(** X26.  [GET /customers/:id] and [GET /leads/:id] never write to the
    store, and they answer 200, the answer that carries the record, only
    to an authorized request: a verified token of an active stored user
    whom the matrix grants [read] and whom [canAccessRecord] accepts on
    the stored record with the requested id. *)
Theorem record_reads_are_authorized (env : Env) (h : jsval) (req : Req) (db : Db) :
  (snd (Routes.customers_get config env h req db) = db /\
   forall r, response (Routes.customers_get config env h req db) = Some r ->
             status r = 200 ->
             authorized "customers" "read" "customer" env h req db) /\
  (snd (Routes.leads_get config env h req db) = db /\
   forall r, response (Routes.leads_get config env h req db) = Some r ->
             status r = 200 ->
             authorized "leads" "read" "lead" env h req db).
Proof.
  split.
  - apply guarded_read; [now left | apply getCustomerById_store].
  - apply guarded_read; [now right | apply getLeadById_store].
Qed.

End RecordReads.

(** ** The list statements *)

Section Listing.

Lemma placeholders_app (a b : string) :
  placeholders (a +:+ b) = (placeholders a + placeholders b)%nat.
Proof. induction a as [|c a IH]; simpl; [reflexivity|]. rewrite IH. lia. Qed.

(** [buildWhereClause] adds one parameter with each condition it adds. *)
Lemma buildWhereClause_placeholders (base : string) (flt : obj)
    (params : list jsval) (alias : string) :
  placeholders alias = 0%nat ->
  placeholders base = length params ->
  placeholders (fst (Rbac.buildWhereClause base flt params alias)) =
    length (snd (Rbac.buildWhereClause base flt params alias)).
Proof.
  intros Halias Hbase. unfold Rbac.buildWhereClause.
  destruct (truthy (JStr base)) eqn:Hb.
  - destruct (truthy (get flt "ownerId")), (truthy (get flt "teamId")); simpl;
      unfold push; rewrite ?placeholders_app, ?length_app, ?Halias; simpl; lia.
  - simpl in Hb. apply negb_false_iff in Hb. apply String.eqb_eq in Hb. subst base.
    simpl in Hbase.
    destruct (truthy (get flt "ownerId")), (truthy (get flt "teamId")); simpl;
      unfold push; rewrite ?placeholders_app, ?length_app, ?Halias; simpl; lia.
Qed.

Lemma getCustomers_base_placeholders (req : Req) :
  placeholders (fst (CustomerController.getCustomers_base req)) =
    length (snd (CustomerController.getCustomers_base req)).
Proof.
  unfold CustomerController.getCustomers_base. cbv beta zeta.
  destruct (truthy (get (req_query req) "search")),
    (truthy (get (req_query req) "status")),
    (truthy (get (req_query req) "industry")),
    (truthy (get (req_query req) "source")); reflexivity.
Qed.

Lemma getLeads_base_placeholders (req : Req) :
  placeholders (fst (LeadController.getLeads_base req)) =
    length (snd (LeadController.getLeads_base req)).
Proof.
  unfold LeadController.getLeads_base. cbv beta zeta.
  destruct (truthy (get (req_query req) "search")),
    (truthy (get (req_query req) "status")),
    (truthy (get (req_query req) "priority")),
    (truthy (get (req_query req) "customerId")); reflexivity.
Qed.

(** X27.  Every [?] of a list statement has its parameter: in the WHERE
    clause that [getCustomers], [getLeads] and [getLeadsByCustomer] build
    from the query string and the data filter, the number of placeholders
    is the number of bound parameters, whatever the request carries. *)
Theorem placeholders_match_params (req : Req) (customerId : jsval) :
  placeholders (fst (CustomerController.getCustomers_where req)) =
    length (snd (CustomerController.getCustomers_where req)) /\
  placeholders (fst (LeadController.getLeads_where req)) =
    length (snd (LeadController.getLeads_where req)) /\
  placeholders (fst (LeadController.getLeadsByCustomer_where customerId req)) =
    length (snd (LeadController.getLeadsByCustomer_where customerId req)).
Proof.
  split; [|split].
  - unfold CustomerController.getCustomers_where.
    pose proof (getCustomers_base_placeholders req) as Hb.
    destruct (CustomerController.getCustomers_base req) as [b ps].
    now apply buildWhereClause_placeholders.
  - unfold LeadController.getLeads_where.
    pose proof (getLeads_base_placeholders req) as Hb.
    destruct (LeadController.getLeads_base req) as [b ps].
    now apply buildWhereClause_placeholders.
  - unfold LeadController.getLeadsByCustomer_where. cbv beta zeta.
    destruct (truthy (get (req_query req) "status")),
      (truthy (get (req_query req) "priority"));
      now apply buildWhereClause_placeholders.
Qed.

End Listing.

Section ListRoutes.
Context `{libs : Libs} `{errors : JwtErrors} `{engine : Builtins.Engine}
  `{validator : Validator} (config : Config).

Lemma sales_rep_reads (u : obj) (s : string) :
  get u "role" = JStr "sales_rep" ->
  s = "customers" \/ s = "leads" ->
  Rbac.hasPermission (Some u) s "read" = Returned true.
Proof.
  intros Hr Hs.
  assert (Hrow : exists rp, Rbac.ROLE_PERMISSIONS !! "sales_rep" = Some rp /\
                            rp !! "customers" = Some ["create"; "read"; "update"] /\
                            rp !! "leads" = Some ["create"; "read"; "update"])
    by (eexists; split; [reflexivity|]; split; reflexivity).
  destruct Hrow as (rp & Hrp & Hc & Hl).
  rewrite (hasPermission_role u "sales_rep" rp) by assumption.
  destruct Hs as [-> | ->]; [now rewrite Hc | now rewrite Hl].
Qed.

(** X28.  The list routes confine a sales representative to their own
    records: for a request authenticated as a sales representative,
    [GET /customers] and [GET /leads] run with the caller's conditions
    AND an ownership test, whose parameter is the id of the stored user;
    nothing in the request widens it. *)
Theorem list_routes_confine_sales_rep (env : Env) (h : jsval) (req : Req)
    (db : Db) (u : obj) (uid : string) :
  AuthMiddleware.authenticate config env h req db =
    (Next (AuthMiddleware.with_user req (Some u)), db) ->
  get u "role" = JStr "sales_rep" ->
  get u "id" = JStr uid ->
  uid <> EmptyString ->
  let scoped (base : string * list jsval) (alias : string) :=
    (if truthy (JStr (fst base))
     then "WHERE " +:+ fst base +:+ " AND " +:+ alias +:+ ".ownerId = ?"
     else "WHERE " +:+ alias +:+ ".ownerId = ?",
     (snd base ++ [JStr uid])%list) in
  Routes.customers_list config env h req db =
    (Next (scoped (CustomerController.getCustomers_base req) "c"), db) /\
  Routes.leads_list config env h req db =
    (Next (scoped (LeadController.getLeads_base req) "l"), db).
Proof.
  intros Ha Hr Hid Hne scoped.
  assert (Hadmin : strict_eq (get u "role") (JStr "admin") = false)
    by now rewrite Hr.
  assert (Hmgr : strict_eq (get u "role") (JStr "manager") = false)
    by now rewrite Hr.
  assert (Ht : truthy (JStr uid) = true).
  { simpl. apply negb_true_iff. now apply String.eqb_neq. }
  unfold Routes.customers_list, Routes.leads_list, Routes.guarded, bind.
  rewrite Ha. unfold Rbac.requirePermission. cbn [AuthMiddleware.with_user req_user].
  rewrite !sales_rep_reads by (auto; tauto). cbn [negb].
  unfold ret. cbv beta iota zeta.
  unfold Rbac.applyDataFilter, AuthMiddleware.with_user.
  cbn [req_user req_params_id req_body req_query req_ip req_userAgent
       req_errors req_dataFilter req_record].
  unfold Rbac.getDataFilter. rewrite Hadmin, Hmgr, Hid.
  unfold ret. cbv beta iota zeta.
  unfold CustomerController.getCustomers_where, LeadController.getLeads_where.
  cbn [req_dataFilter default].
  change (CustomerController.getCustomers_base (mkReq _ _ _ _ _ _ _ _ _))
    with (CustomerController.getCustomers_base req).
  change (LeadController.getLeads_base (mkReq _ _ _ _ _ _ _ _ _))
    with (LeadController.getLeads_base req).
  destruct (CustomerController.getCustomers_base req) as [b ps].
  destruct (LeadController.getLeads_base req) as [b' ps'].
  unfold id. rewrite !buildWhereClause_owner by exact Ht. split; reflexivity.
Qed.

End ListRoutes.

(** ** The client's copy of the rules *)

Section ClientRules.

(** X29.  The client's rules agree with the server's: [canAccessRecord]
    of [permissions.ts] gives the verdict of the middleware's on every
    user and record; whoever may modify a record on the client may access
    it; and the client's list filter is the server's data filter, except
    for a manager without a team, for whom the client asks for the team
    with the empty name. *)
Theorem client_rules_mirror_server (user : option obj) (record : obj) :
  Client.canAccessRecord user record = Rbac.canAccessRecord user (Some record) /\
  (Client.canModifyRecord user record = true ->
   Client.canAccessRecord user record = true) /\
  (forall u, user = Some u ->
     (if strict_eq (get u "role") (JStr "admin") then false
      else strict_eq (get u "role") (JStr "manager")
           && negb (truthy (get u "teamId"))) = false ->
     Rbac.getDataFilter user = Some (Client.getFilteredQuery user)) /\
  (forall u, user = Some u ->
     get u "role" = JStr "manager" -> truthy (get u "teamId") = false ->
     Client.getFilteredQuery user = [("teamId", JStr EmptyString)]).
Proof.
  split; [destruct user; reflexivity|]. split; [|split].
  - destruct user as [u|]; [|discriminate]. simpl.
    destruct (strict_eq (get u "role") (JStr "admin")); [reflexivity|].
    destruct (strict_eq (get u "role") (JStr "manager") && _); [reflexivity|].
    now destruct (strict_eq (get record "ownerId") (get u "id")).
  - intros u -> Hteam. simpl.
    destruct (strict_eq (get u "role") (JStr "admin")); [reflexivity|].
    destruct (strict_eq (get u "role") (JStr "manager")); [|reflexivity].
    simpl in Hteam. apply negb_false_iff in Hteam.
    unfold or_else. now rewrite Hteam.
  - intros u -> Hr Ht. simpl. rewrite Hr. simpl. unfold or_else. now rewrite Ht.
Qed.

End ClientRules.

(** ** The change-set of an audit record *)

Section ChangeSets.




End ChangeSets.

(** ** The properties above on the demo store *)

Section OnTheDemoStore.

#[local] Existing Instance Demo.libs_access.
#[local] Existing Instance Demo.errors.
#[local] Existing Instance Demo.hashing.
#[local] Existing Instance Demo.engine.
#[local] Existing Instance Demo.validator.

#[local] Abbreviation noon := (Demo.at_ 1704067260500).
#[local] Abbreviation config := Config.defaults.

(** John, Sarah and the admin on updating a team. *)
Lemma permissions_grow_with_role_witness :
  (Rbac.hasPermission (Some Demo.john) "teams" "update" = Returned true ->
   Rbac.hasPermission (Some Demo.sarah) "teams" "update" = Returned true) /\
  (Rbac.hasPermission (Some Demo.sarah) "teams" "update" = Returned true ->
   Rbac.hasPermission (Some Demo.admin) "teams" "update" = Returned true).
Proof.
  apply (permissions_grow_with_role Demo.john Demo.sarah Demo.admin "teams" "update");
    reflexivity.
Defined.

(** John's token on a request for customer 1. *)
Lemma authenticate_loads_stored_principal_witness :
  let h := Demo.bearer_of "2" in
  let req := Demo.incoming (JStr "1") [] [] in
  let req' := Demo.authenticated Demo.john req in
  let db := Demo.db in
  let db' := Demo.db in
  db' = db /\
  exists token decoded row user,
    AuthMiddleware.bearer h = Some token /\
    jwt_verify (JStr token) (jwt_secret config) (now noon) = Some decoded /\
    In row (users db) /\
    sql_eq (get row "id") (get decoded "userId") = true /\
    get row "isActive" = JNum 1 /\
    req' = AuthMiddleware.with_user req (Some user) /\
    get user "id" = get row "id" /\
    get user "role" = get row "role" /\
    get user "teamId" = get row "teamId" /\
    get user "password" = JUndefined.
Proof.
  intros h req req' db db'.
  apply (authenticate_loads_stored_principal config noon h req req' db db').
  vm_compute. reflexivity.
Defined.

(** Sarah, the manager of team-1, updates customer 1 and deletes it. *)
Lemma customer_writes_are_authorized_witness :
  let h := Demo.bearer_of "3" in
  Routes.authorized config "customers" "update" "customer" noon h
    (Demo.incoming (JStr "1")
       [("name", JStr "Acme Corporation"); ("status", JStr "inactive")] [])
    Demo.db /\
  Routes.authorized config "customers" "delete" "customer" noon h
    (Demo.incoming (JStr "1") [] []) Demo.db.
Proof.
  intros h. split.
  - apply (proj1 (customer_writes_are_authorized config noon h
                    (Demo.incoming (JStr "1")
                       [("name", JStr "Acme Corporation");
                        ("status", JStr "inactive")] [])
                    Demo.db)).
    intros H. apply (f_equal activities) in H. vm_compute in H. discriminate H.
  - apply (proj2 (customer_writes_are_authorized config noon h
                    (Demo.incoming (JStr "1") [] []) Demo.db)).
    intros H. apply (f_equal activities) in H. vm_compute in H. discriminate H.
Defined.

(** Sarah updates lead 1 and deletes it. *)
Lemma lead_writes_are_authorized_witness :
  let h := Demo.bearer_of "3" in
  Routes.authorized config "leads" "update" "lead" noon h
    (Demo.incoming (JStr "1")
       [("title", JStr "Enterprise License"); ("customerId", JStr "1");
        ("status", JStr "proposal")] [])
    Demo.db /\
  Routes.authorized config "leads" "delete" "lead" noon h
    (Demo.incoming (JStr "1") [] []) Demo.db.
Proof.
  intros h. split.
  - apply (proj1 (lead_writes_are_authorized config noon h
                    (Demo.incoming (JStr "1")
                       [("title", JStr "Enterprise License");
                        ("customerId", JStr "1");
                        ("status", JStr "proposal")] [])
                    Demo.db)).
    intros H. apply (f_equal activities) in H. vm_compute in H. discriminate H.
  - apply (proj2 (lead_writes_are_authorized config noon h
                    (Demo.incoming (JStr "1") [] []) Demo.db)).
    intros H. apply (f_equal activities) in H. vm_compute in H. discriminate H.
Defined.

(** John, a sales representative, on his own customer 1 and lead 1. *)
Lemma sales_rep_cannot_delete_witness :
  let h := Demo.bearer_of "2" in
  let req := Demo.incoming (JStr "1") [] [] in
  Routes.customers_delete config noon h req Demo.db =
    (Sent (mkResponse 403
       [("success", JBool false);
        ("message", JStr "Insufficient permissions. Required: delete on customers")]),
     Demo.db) /\
  Routes.leads_delete config noon h req Demo.db =
    (Sent (mkResponse 403
       [("success", JBool false);
        ("message", JStr "Insufficient permissions. Required: delete on leads")]),
     Demo.db).
Proof.
  intros h req.
  apply (sales_rep_cannot_delete config noon h req (Demo.authenticated Demo.john req)
           Demo.db (Demo.principal Demo.john)).
  - vm_compute. reflexivity.
  - reflexivity.
  - reflexivity.
Defined.

(** John reads customer 1, which he owns, and lead 1. *)
Lemma record_reads_are_authorized_witness :
  let h := Demo.bearer_of "2" in
  let req := Demo.incoming (JStr "1") [] [] in
  Routes.authorized config "customers" "read" "customer" noon h req Demo.db /\
  Routes.authorized config "leads" "read" "lead" noon h req Demo.db.
Proof.
  intros h req.
  destruct (record_reads_are_authorized config noon h req Demo.db)
    as [[_ Hc] [_ Hl]].
  split.
  - destruct (response (Routes.customers_get config noon h req Demo.db))
      as [r|] eqn:E; [|vm_compute in E; discriminate E].
    apply (Hc r eq_refl). vm_compute in E. injection E as <-. reflexivity.
  - destruct (response (Routes.leads_get config noon h req Demo.db))
      as [r|] eqn:E; [|vm_compute in E; discriminate E].
    apply (Hl r eq_refl). vm_compute in E. injection E as <-. reflexivity.
Defined.

(** John signs in with his password. *)
Lemma login_success_resets_counter_witness :
  let env := Demo.login_at in
  let req := Demo.login_request "john@crm.com" "user123" in
  let db := Demo.db in
  let u := Demo.john in
  let uid := "2" in
  let hash := "$2a$user123" in
  exists r db' user token u' act,
    AuthController.login config env req db = (Sent r, db') /\
    status r = 200 /\
    get (json r) "data" =
      JObj [("user", JObj user);
            ("accessToken", JStr (fst (AuthController.generateTokens config env u)));
            ("refreshToken", JStr token)] /\
    user = AuthController.without ["password"; "loginAttempts"; "lockUntil"] u /\
    (forall k, In k ["password"; "loginAttempts"; "lockUntil"] ->
               get user k = JUndefined) /\
    (forall k, ~ In k ["password"; "loginAttempts"; "lockUntil"] ->
               get user k = get u k) /\
    select_first (by_email (get (req_body req) "email")) (users db') = Some u' /\
    get u' "loginAttempts" = JNum 0 /\
    get u' "lockUntil" = JNull /\
    get u' "lastLoginAt" = JNum (now env) /\
    get u' "password" = JStr hash /\
    In [("id", JStr (tokenId env)); ("userId", JStr uid); ("token", JStr token);
        ("expiresAt", JNum (now env + 7 * 24 * 60 * 60 * 1000));
        ("createdAt", JNum (now env))]
       (refresh_tokens db') /\
    activities db' = (activities db ++ [act])%list /\
    get act "type" = JStr "login" /\ get act "userId" = JStr uid.
Proof.
  intros env req db u uid hash.
  apply (login_success_resets_counter config env req db u uid "user123" hash);
    reflexivity.
Defined.

(** Mike's account is deactivated; he tries his password, then another. *)
Lemma inactive_account_never_counts_witness :
  let attempts := [(Demo.login_at, Demo.login_request "mike@crm.com" "sales123");
                   (Demo.refresh_1, Demo.login_request "mike@crm.com" "guess")] in
  AuthController.login_sequence config attempts Demo.retired =
    (map (fun _ => Some (mkResponse 401 [("success", JBool false);
                                         ("message", JStr "Account is inactive")]))
         attempts, Demo.retired).
Proof.
  intros attempts.
  apply (inactive_account_never_counts config attempts Demo.retired
           (assign [("isActive", JNum 0)] Demo.mike) (JStr "mike@crm.com"));
    try reflexivity.
  repeat constructor.
Defined.

(** John's lock has run out with five failures on the counter; one wrong
    password locks him out again. *)
Lemma expired_lock_relocks_at_once_witness :
  let locked :=
    mkResponse 423
      [("success", JBool false);
       ("message", JStr "Account temporarily locked due to too many failed login attempts")] in
  exists db',
    AuthController.login config Demo.login_at
      (Demo.login_request "john@crm.com" "oops") Demo.relapsed =
      (Sent (mkResponse 401 [("success", JBool false);
                             ("message", JStr "Invalid credentials")]), db') /\
    AuthController.login config Demo.refresh_1
      (Demo.login_request "john@crm.com" "user123") db' = (Sent locked, db').
Proof.
  intros locked.
  apply (expired_lock_relocks_at_once config Demo.login_at Demo.refresh_1
           (Demo.login_request "john@crm.com" "oops")
           (Demo.login_request "john@crm.com" "user123") Demo.relapsed
           (assign [("loginAttempts", JNum 5); ("lockUntil", JNum 1704060000000)]
                   Demo.john)
           "2" "oops" "$2a$user123" 5 1704060000000);
    try reflexivity; simpl; lia.
Defined.

(** John, signed in, sends his refresh token as a one-element array:
    the DELETE binds it as the text of the token and John's token is
    gone. *)
Lemma logout_revokes_token_witness :
  let req := Demo.request (Some (Demo.principal Demo.john)) JUndefined
               [("refreshToken", JArr [JStr Demo.johns_token])] in
  map (fun r => get r "token") (refresh_tokens Demo.signed_in)
    = [JStr Demo.johns_token] /\
  refresh_tokens (snd (AuthController.logout Demo.refresh_1 req Demo.signed_in)) = [] /\
  exists db',
    AuthController.logout Demo.refresh_1 req Demo.signed_in =
      (Sent (mkResponse 200 [("success", JBool true);
                             ("message", JStr "Logout successful")]), db') /\
    (forall t, truthy (get (req_body req) "refreshToken") = true ->
       bound (get (req_body req) "refreshToken") = JStr t ->
       (forall r, In r (refresh_tokens db') -> get r "token" <> JStr t) /\
       (forall r, In r (refresh_tokens Demo.signed_in) ->
                  get r "token" <> JStr t -> In r (refresh_tokens db'))) /\
    (truthy (get (req_body req) "refreshToken") = false ->
     refresh_tokens db' = refresh_tokens Demo.signed_in) /\
    (forall r, In r (refresh_tokens db') -> In r (refresh_tokens Demo.signed_in)) /\
    users db' = users Demo.signed_in /\
    customers db' = customers Demo.signed_in /\
    leads db' = leads Demo.signed_in.
Proof.
  intros req. split; [reflexivity|]. split; [reflexivity|].
  exact (logout_revokes_token Demo.refresh_1 req Demo.signed_in).
Defined.

(** John, signed in, holds a refresh token that a refresh request would
    accept; he logs out with it and presents it again. *)
Lemma refresh_after_logout_refused_witness :
  let req := Demo.refresh_request Demo.johns_token in
  let out := snd (AuthController.logout Demo.refresh_1 req Demo.signed_in) in
  map (fun r => get r "token") (refresh_tokens Demo.signed_in)
    = [JStr Demo.johns_token] /\
  (status <$> response (AuthController.refreshToken config Demo.refresh_1 req
                          Demo.signed_in)) = Some 200 /\
  refresh_tokens out = [] /\
  exists r,
    AuthController.refreshToken config Demo.refresh_2 req out = (Sent r, out) /\
    status r = 401.
Proof.
  intros req out. split; [reflexivity|]. split; [reflexivity|].
  split; [reflexivity|].
  apply (refresh_after_logout_refused config Demo.refresh_1 Demo.refresh_2 req
           Demo.signed_in).
  reflexivity.
Defined.

(** John's own row as [req.user]. *)
Lemma getProfile_hides_secrets_witness :
  let req := Demo.request (Some Demo.john) JUndefined [] in
  exists profile,
    AuthController.getProfile req Demo.db =
      (Sent (mkResponse 200 [("success", JBool true); ("data", JObj profile)]),
       Demo.db) /\
    (forall k, In k ["password"; "loginAttempts"; "lockUntil"] ->
               get profile k = JUndefined) /\
    (forall k, ~ In k ["password"; "loginAttempts"; "lockUntil"] ->
               get profile k = get Demo.john k).
Proof.
  intros req. apply (getProfile_hides_secrets req Demo.db Demo.john). reflexivity.
Defined.

(** Ada registers and asks to be an admin. *)
Lemma register_creates_sales_rep_witness :
  let rounds := 12 in
  let userId := "7" in
  let salt := "salt" in
  let env := noon in
  let req := Demo.incoming JUndefined
               [("name", JStr "Ada"); ("email", JStr "ada@crm.com");
                ("password", JStr "Passw0rd"); ("role", JStr "admin")] [] in
  let db := Demo.db in
  let e := "ada@crm.com" in
  let p := "Passw0rd" in
  exists r db' row user,
    AuthController.register config rounds env userId salt req db = (Sent r, db') /\
    status r = 201 /\
    users db' = (users db ++ [row])%list /\
    get row "id" = JStr userId /\
    get row "email" = JStr e /\
    get row "password" = JStr (bcrypt_hash p rounds salt) /\
    get row "role" = JStr "sales_rep" /\
    get row "teamId" = JNull /\
    get row "isActive" = JNum 1 /\
    get row "loginAttempts" = JNum 0 /\
    get row "lockUntil" = JNull /\
    get (json r) "data" =
      JObj [("user", JObj user);
            ("accessToken", JStr (fst (AuthController.generateTokens config env user)));
            ("refreshToken", JStr (snd (AuthController.generateTokens config env user)))] /\
    get user "id" = JStr userId /\
    get user "role" = JStr "sales_rep" /\
    get user "password" = JUndefined /\
    customers db' = customers db /\ leads db' = leads db /\ teams db' = teams db.
Proof.
  intros rounds userId salt env req db e p.
  apply (register_creates_sales_rep config rounds env userId salt req db "Ada" e p);
    reflexivity.
Defined.

(** Ada registers, then signs in. *)
Lemma register_then_login_witness :
  let req := Demo.incoming JUndefined
               [("name", JStr "Ada"); ("email", JStr "ada@crm.com");
                ("password", JStr "Passw0rd")] [] in
  exists r db2,
    AuthController.login config Demo.login_at
      (Demo.login_request "ada@crm.com" "Passw0rd")
      (snd (AuthController.register config 12 noon "7" "salt" req Demo.db))
      = (Sent r, db2) /\
    status r = 200.
Proof.
  intros req.
  apply (register_then_login config 12 noon Demo.login_at "7" "salt" req
           (Demo.login_request "ada@crm.com" "Passw0rd") Demo.db
           "Ada" "ada@crm.com" "Passw0rd");
    reflexivity.
Defined.

(** John creates a customer and names the admin as its owner. *)
Lemma createCustomer_owned_by_caller_witness :
  let user := Demo.principal Demo.john in
  let req := Demo.request (Some user) JUndefined
               [("name", JStr "Initech"); ("ownerId", JStr "1");
                ("teamId", JStr "team-2"); ("createdBy", JStr "1")] in
  let db := Demo.db in
  let db' := snd (CustomerController.createCustomer noon "9" req db) in
  exists row,
    customers db' = (customers db ++ [row])%list /\
    get row "id" = JStr "9" /\
    get row "ownerId" = JStr "2" /\
    get row "teamId" = bound (get user "teamId") /\
    get row "createdBy" = JStr "2" /\
    get row "updatedBy" = JStr "2" /\
    Rbac.canAccessRecord (Some user)
      (Some (project [("ownerId", "ownerId"); ("teamId", "teamId");
                      ("assignedTo", "assignedTo")] row)) = true /\
    users db' = users db /\ teams db' = teams db /\ leads db' = leads db.
Proof.
  intros user req db.
  apply (createCustomer_owned_by_caller noon "9" req db user "2"); reflexivity.
Defined.

(** John creates a lead for a customer that does not exist. *)
Lemma createLead_unknown_customer_witness :
  let req := Demo.request (Some (Demo.principal Demo.john)) JUndefined
               [("title", JStr "Renewal"); ("customerId", JStr "404")] in
  LeadController.createLead noon "9" req Demo.db =
    (Sent (mkResponse 500 [("success", JBool false);
                           ("message", JStr "Failed to create lead")]), Demo.db).
Proof.
  intros req.
  apply (createLead_unknown_customer noon "9" req Demo.db "404"); reflexivity.
Defined.

(** John, of team-1, creates a lead for customer 3, which is Mike's and of
    team-2. *)
Lemma createLead_owned_by_caller_witness :
  let user := Demo.principal Demo.john in
  let req := Demo.request (Some user) JUndefined
               [("title", JStr "Renewal"); ("customerId", JStr "3")] in
  let db := Demo.db in
  exists r db' row,
    LeadController.createLead noon "9" req db = (Sent r, db') /\
    status r = 201 /\
    leads db' = (leads db ++ [row])%list /\
    get row "id" = JStr "9" /\
    get row "customerId" = bound (get (req_body req) "customerId") /\
    get row "ownerId" = JStr "2" /\
    get row "teamId" = bound (get user "teamId") /\
    get row "createdBy" = JStr "2" /\
    Rbac.canAccessRecord (Some user)
      (Some (project [("ownerId", "ownerId"); ("teamId", "teamId");
                      ("assignedTo", "assignedTo")] row)) = true /\
    users db' = users db /\ customers db' = customers db.
Proof.
  intros user req db.
  apply (createLead_owned_by_caller noon "9" req db user "2"); reflexivity.
Defined.

(** Sarah sends an empty company and a [null] note for customer 1. *)
Lemma updateCustomer_blank_keeps_value_witness :
  let req := Demo.request (Some Demo.sarah) (JStr "1")
               [("name", JStr "Acme Corporation"); ("company", JStr EmptyString);
                ("notes", JNull)] in
  let body := req_body req in
  let db' := snd (CustomerController.updateCustomer noon req Demo.db) in
  Forall2
    (fun r r' =>
       (forall k, In k ["name"; "email"; "phone"; "company"; "status"; "tags";
                        "lastContactDate"; "industry"; "source"; "assignedTo"] ->
                  truthy (get body k) = false ->
                  bound (get r k) = get r k -> get r' k = get r k) /\
       (forall k, In k ["notes"; "value"] -> get body k = JUndefined ->
                  bound (get r k) = get r k -> get r' k = get r k))
    (customers Demo.db) (customers db').
Proof.
  intros req.
  apply (updateCustomer_blank_keeps_value noon req Demo.db).
  unfold pk_unique. simpl.
  repeat (apply NoDup_cons_2;
          [rewrite list_elem_of_In; simpl; intuition discriminate|]).
  apply NoDup_nil_2.
Defined.

(** John lists the active customers and asks for Mike's. *)
Lemma list_routes_confine_sales_rep_witness :
  let h := Demo.bearer_of "2" in
  let req := Demo.incoming JUndefined []
               [("status", JStr "active"); ("ownerId", JStr "4")] in
  Routes.customers_list config noon h req Demo.db =
    (Next ("WHERE status = ? AND c.ownerId = ?", [JStr "active"; JStr "2"]),
     Demo.db) /\
  Routes.leads_list config noon h req Demo.db =
    (Next ("WHERE status = ? AND l.ownerId = ?", [JStr "active"; JStr "2"]),
     Demo.db).
Proof.
  intros h req.
  apply (list_routes_confine_sales_rep config noon h req Demo.db
           (Demo.principal Demo.john) "2").
  - vm_compute. reflexivity.
  - reflexivity.
  - reflexivity.
  - discriminate.
Defined.

End OnTheDemoStore.
